(** * Founder-AI: the Gemini service layer (services/geminiService.ts)

  A shallow embedding of the six entry points of the service module
  ([analyzeStartupPitch], [createNegotiationSession],
  [performDueDiligence], [startCommitteeDebate], [startBoardSimulation],
  [checkNegotiationProgress]) together with the part of the JavaScript
  platform they rely on, and the properties of the specification that
  concern them.

  Layout:
  - [JsString]   strings as sequences of UTF-16 code units;
  - [Js]         plain-data JavaScript values and the operations the
                 module applies to them (property access, assignment,
                 strict equality with a string);
  - [Platform]   what the host provides: [JSON.parse] and the numeric
                 conversions; [Conversions] builds truthiness and string
                 conversion on it;
  - [GenAI]      the requests, replies and objects of the Gemini SDK;
  - [Effects]    the monad of the module: environment, calls of the
                 service, console output, thrown errors;
  - [GeminiService] the module itself;
  - [Contract]   what the declared schema asks of a response;
  - [Reference]  a reference platform (a JSON parser) to run examples on;
  - [Vocabulary], [Outcomes], [Scenarios]  the notions the properties
                 use, the entry points as case tables, concrete inputs;
  - [BoardSimulator], [CommitteeRoom]  the two components that call the
                 simulations, as state machines over the same values;
  - the facts and the properties. *)

From Stdlib Require Import List NArith ZArith QArith Bool Ascii String Lia.
From Stdlib Require Import DecimalString.
Import ListNotations.
Close Scope Q_scope.

Set Warnings "-register-all".

(** ** Strings *)

Module JsString.

(** A JavaScript string is a sequence of 16-bit code units. *)
Definition codeunit := N.
Definition jsstring := list codeunit.

(** A source literal made of ASCII characters. *)
Definition lit (s : string) : jsstring :=
  map N_of_ascii (list_ascii_of_string s).

(** The text of a template literal.  The character [^] of the Rocq
    literal denotes the double-quote character U+0022: the prompts of the
    module are full of double quotes and contain no [^]. *)
Definition tpl (s : string) : jsstring :=
  map (fun c => if N.eqb c 94%N then 34%N else c) (lit s).

Fixpoint eqb (s t : jsstring) : bool :=
  match s, t with
  | [], [] => true
  | c :: s', d :: t' => N.eqb c d && eqb s' t'
  | _, _ => false
  end.

(** [s.substring(0, n)] for a non-negative [n]. *)
Definition substring0 (n : nat) (s : jsstring) : jsstring := firstn n s.

(** [xs.join(sep)] on an array of strings. *)
Fixpoint join (sep : jsstring) (xs : list jsstring) : jsstring :=
  match xs with
  | [] => []
  | [x] => x
  | x :: rest => x ++ sep ++ join sep rest
  end.

(** [s.split(c)] for a one-character separator: the segments between
    the occurrences of [c]. *)
Fixpoint split (c : codeunit) (s : jsstring) : list jsstring :=
  match s with
  | [] => [[]]
  | d :: s' =>
      if N.eqb d c then [] :: split c s'
      else match split c s' with
           | seg :: segs => (d :: seg) :: segs
           | [] => [[d]]
           end
  end.

End JsString.
Import JsString.

(** ** Plain-data JavaScript values *)

Module Js.

(** A number, written as the decimal [(-1)^neg * mantissa * 10^exp10]
    that denotes it (the value is the binary64 nearest to that decimal;
    what depends on the rounding is left to the [Platform]). *)
Record number := mkNumber {
  num_neg : bool;
  num_mantissa : N;
  num_exp10 : Z
}.

Definition num_of_N (n : N) : number := mkNumber false n 0%Z.

(** The exact value of the decimal. *)
Definition num_value (n : number) : Q :=
  let m := inject_Z (Z.of_N (num_mantissa n)) in
  let v := (m * Qpower (10 # 1) (num_exp10 n))%Q in
  if num_neg n then Qopp v else v.

(** The values a JSON text or a chat transcript can hold ([any] in the
    source, restricted to data: no functions, symbols or accessors).
    An object keeps its own properties in insertion order, without
    duplicate keys. *)
Inductive JsValue :=
| JUndefined
| JNull
| JBool (b : bool)
| JNum (n : number)
| JStr (s : jsstring)
| JArr (elems : list JsValue)
| JObj (props : list (jsstring * JsValue)).

(** What a JavaScript computation can throw here. *)
Inductive JsError :=
| Error (message : jsstring)
| TypeError
| SyntaxError
| FileReadError
| ServiceError (payload : jsstring).

Inductive Result (A : Type) :=
| Return (a : A)
| Throw (e : JsError).
Arguments Return {A} a.
Arguments Throw {A} e.

Definition isThrow {A} (r : Result A) : bool :=
  match r with Throw _ => true | Return _ => false end.

(** Own-property lookup. *)
Fixpoint lookup (k : jsstring) (props : list (jsstring * JsValue))
  : option JsValue :=
  match props with
  | [] => None
  | (k', v) :: rest => if eqb k' k then Some v else lookup k rest
  end.

(** [o[k] = v] on the own properties: an existing key keeps its place. *)
Fixpoint update (k : jsstring) (v : JsValue)
         (props : list (jsstring * JsValue)) : list (jsstring * JsValue) :=
  match props with
  | [] => [(k, v)]
  | (k', v') :: rest =>
      if eqb k' k then (k', v) :: rest else (k', v') :: update k v rest
  end.

(** [v.k] for a property name [k] that no built-in prototype defines
    (the module reads [role], [text], [shouldCancel] and [reason]):
    a TypeError on [undefined] and [null], the own property of an
    object, [undefined] everywhere else. *)
Definition getProp (v : JsValue) (k : jsstring) : Result JsValue :=
  match v with
  | JUndefined | JNull => Throw TypeError
  | JObj props =>
      match lookup k props with
      | Some x => Return x
      | None => Return JUndefined
      end
  | _ => Return JUndefined
  end.

(** [v.k = x] in strict mode (the module is an ES module), for such a
    name [k]: a TypeError on a primitive.  An array would gain a named
    property, which [JArr] cannot hold; the module never assigns to one
    ([assignment_only_on_objects] below). *)
Definition setProp (v : JsValue) (k : jsstring) (x : JsValue)
  : Result JsValue :=
  match v with
  | JObj props => Return (JObj (update k x props))
  | JArr elems => Return (JArr elems)
  | _ => Throw TypeError
  end.

(** [v === s] for a string [s]. *)
Definition strictEqStr (v : JsValue) (s : jsstring) : bool :=
  match v with
  | JStr t => eqb t s
  | _ => false
  end.

End Js.
Import Js.

(** ** The host platform *)

(** What the module takes from the JavaScript host.  [JSON_parse] is
    [JSON.parse] without a reviver ([None] stands for the SyntaxError it
    throws); the empty text is not a JSON text.  [Number_toString] and
    [Number_toBoolean] are the conversions of a number to a string and to
    a boolean, which depend on its binary64 value. *)
Class Platform := {
  JSON_parse : jsstring -> option JsValue;
  JSON_parse_empty : JSON_parse [] = None;
  Number_toString : number -> jsstring;
  Number_toBoolean : number -> bool
}.

Module Conversions.
Section WithPlatform.
Context {host : Platform}.

(** ToBoolean: what [if (v)] and [v && w] test. *)
Definition ToBoolean (v : JsValue) : bool :=
  match v with
  | JUndefined | JNull => false
  | JBool b => b
  | JNum n => Number_toBoolean n
  | JStr s => negb (eqb s [])
  | JArr _ | JObj _ => true
  end.

(** ToString: what a template literal applies to an interpolated value.
    An array is joined with commas, [undefined] and [null] elements giving
    the empty string.  An object gives ["[object Object]"] through
    [Object.prototype.toString], unless it has an own property [toString]:
    that property, being data, is not callable, [valueOf] returns no
    primitive, and the conversion throws a TypeError. *)
Fixpoint ToString (v : JsValue) : Result jsstring :=
  match v with
  | JUndefined => Return (lit "undefined")
  | JNull => Return (lit "null")
  | JBool true => Return (lit "true")
  | JBool false => Return (lit "false")
  | JNum n => Return (Number_toString n)
  | JStr s => Return s
  | JArr elems =>
      (fix joined (xs : list JsValue) : Result jsstring :=
         match xs with
         | [] => Return []
         | x :: rest =>
             let first :=
               match x with
               | JUndefined | JNull => Return []
               | _ => ToString x
               end in
             match first with
             | Throw e => Throw e
             | Return s =>
                 match rest with
                 | [] => Return s
                 | _ :: _ =>
                     match joined rest with
                     | Throw e => Throw e
                     | Return t => Return (s ++ lit "," ++ t)
                     end
                 end
             end
         end) elems
  | JObj props =>
      match lookup (lit "toString") props with
      | Some _ => Throw TypeError
      | None => Return (lit "[object Object]")
      end
  end.

End WithPlatform.
End Conversions.
Import Conversions.

(** ** The Gemini SDK, as far as the module uses it *)

Module GenAI.

(** [Type] of @google/genai. *)
Inductive SchemaType := OBJECT | NUMBER | STRING | ARRAY.

(** [Schema] of @google/genai: the fields the module sets. *)
Inductive Schema := mkSchema {
  schema_type : SchemaType;
  schema_description : option jsstring;
  schema_items : option Schema;
  schema_properties : list (jsstring * Schema);
  schema_required : list jsstring
}.

(** One element of [contents.parts]. *)
Inductive Part :=
| TextPart (text : jsstring)
| InlineDataPart (mimeType : jsstring) (data : option jsstring).

Record GenerateContentConfig := {
  responseMimeType : jsstring;
  responseSchema : option Schema
}.

Record GenerateContentParameters := {
  model : jsstring;
  contents_parts : list Part;
  config : GenerateContentConfig
}.

(** The outcome of [ai.models.generateContent]: the promise is rejected,
    or fulfilled with a response whose [text] is a string or undefined. *)
Inductive Reply :=
| Rejected (e : JsError)
| Response (text : option jsstring).

(** [new GoogleGenAI({ apiKey })].  The constructor refuses a key that is
    [null] or [undefined] only; [getApiKey] returns a string. *)
Record GoogleGenAI := { client_apiKey : jsstring }.

(** What [ai.chats.create] returns: a local object, no request is sent
    until a message is. *)
Record Chat := {
  chat_apiKey : jsstring;
  chat_model : jsstring;
  chat_systemInstruction : jsstring
}.

Definition chats_create (ai : GoogleGenAI) (m : jsstring)
           (systemInstruction : jsstring) : Chat :=
  {| chat_apiKey := client_apiKey ai;
     chat_model := m;
     chat_systemInstruction := systemInstruction |}.

End GenAI.
Import GenAI.

(** ** Effects *)

Module Effects.

(** A [File] of the browser: its MIME type and what a [FileReader] makes
    of [readAsDataURL] on it, the data URL or a failure. *)
Record File := {
  file_type : jsstring;
  file_dataURL : option jsstring
}.

(** The surroundings of a call: the build-time environment variable and
    the behaviour of the remote service for a given key and request. *)
Record World := {
  VITE_GEMINI_API_KEY : option jsstring;
  service : jsstring -> GenerateContentParameters -> Reply
}.

(** What a call does that can be observed from outside.  [ServiceCall]
    is a call of [ai.models.generateContent], the one place where the
    module hands a request to the network. *)
Inductive Event :=
| ServiceCall (apiKey : jsstring) (params : GenerateContentParameters)
| ConsoleError (label : jsstring) (e : JsError).

(** A computation reads the world, emits events in order and returns or
    throws.  A rejected promise awaited by [await] is a [Throw]. *)
Definition M (A : Type) := World -> Result A * list Event.

Definition ret {A} (a : A) : M A := fun _ => (Return a, []).

Definition throw {A} (e : JsError) : M A := fun _ => (Throw e, []).

Definition lift {A} (r : Result A) : M A := fun _ => (r, []).

Definition bind {A B} (c : M A) (k : A -> M B) : M B :=
  fun w =>
    match c w with
    | (Return a, t) => let (r, t') := k a w in (r, t ++ t')
    | (Throw e, t) => (Throw e, t)
    end.

(** [try { c } catch (e) { h e }] *)
Definition try_catch {A} (c : M A) (h : JsError -> M A) : M A :=
  fun w =>
    match c w with
    | (Return a, t) => (Return a, t)
    | (Throw e, t) => let (r, t') := h e w in (r, t ++ t')
    end.

Definition console_error (label : jsstring) (e : JsError) : M unit :=
  fun _ => (Return tt, [ConsoleError label e]).

Definition import_meta_env : M (option jsstring) :=
  fun w => (Return (VITE_GEMINI_API_KEY w), []).

(** [await ai.models.generateContent(params)], giving [response.text]. *)
Definition models_generateContent (ai : GoogleGenAI)
           (params : GenerateContentParameters) : M (option jsstring) :=
  fun w =>
    (match service w (client_apiKey ai) params with
     | Rejected e => Throw e
     | Response text => Return text
     end,
     [ServiceCall (client_apiKey ai) params]).

(** [await] on every element of a list, left to right. *)
Fixpoint mapM {A B} (f : A -> M B) (xs : list A) : M (list B) :=
  match xs with
  | [] => ret []
  | x :: rest =>
      bind (f x) (fun y => bind (mapM f rest) (fun ys => ret (y :: ys)))
  end.

Definition result {A} (c : M A) (w : World) : Result A := fst (c w).
Definition trace {A} (c : M A) (w : World) : list Event := snd (c w).

(** The requests handed to the service among the events. *)
Definition requests (t : list Event)
  : list (jsstring * GenerateContentParameters) :=
  flat_map (fun ev =>
              match ev with
              | ServiceCall k p => [(k, p)]
              | ConsoleError _ _ => []
              end) t.

End Effects.
Import Effects.

Declare Scope js_scope.
Delimit Scope js_scope with js.
Notation "x <- c ;; k" := (bind c (fun x => k))
  (at level 61, c at next level, right associativity) : js_scope.
Notation "c ;; k" := (bind c (fun _ => k))
  (at level 61, right associativity) : js_scope.

(** ** The service module *)

Module GeminiService.

(** Modelled from the spec: the declarations of [AnalysisResult] and of
    its metrics are in types.ts, which is not part of the sources at
    hand.  The fields are those of the data model of the specification
    (score, companyName, summary, pros, cons, metrics with marketSize,
    scalability and innovation), which are also the ones the schema and
    the prompts of the module name.  The schema requires none of the three
    metrics, hence the options. *)
Record Metrics := {
  marketSize : option jsstring;
  scalability : option jsstring;
  innovation : option jsstring
}.

Record AnalysisResult := {
  score : number;
  companyName : jsstring;
  summary : jsstring;
  pros : list jsstring;
  cons : list jsstring;
  metrics : Metrics
}.

(** [if (s)] on a string. *)
Definition nonEmpty (s : jsstring) : bool := negb (eqb s []).

(** [xs.slice(-n)]: the last [n] elements, all of them when there are
    fewer. *)
Definition slice_last {A} (n : nat) (xs : list A) : list A :=
  skipn (List.length xs - n) xs.

Section WithPlatform.
Context {host : Platform}.
Local Open Scope js_scope.

(** [JSON.parse(text)], throwing its SyntaxError. *)
Definition parse (text : jsstring) : M JsValue :=
  match JSON_parse text with
  | Some v => ret v
  | None => throw SyntaxError
  end.

(** [if (response.text) { yes } else { no }] *)
Definition ifText {A} (text : option jsstring)
           (yes : jsstring -> M A) (no : M A) : M A :=
  match text with
  | Some t => if nonEmpty t then yes t else no
  | None => no
  end.

(** [import.meta.env.VITE_GEMINI_API_KEY || ""] *)
Definition getApiKey : M jsstring :=
  v <- import_meta_env ;;
  ret match v with
      | Some k => if nonEmpty k then k else lit ""
      | None => lit ""
      end.

(** The FileReader resolves with [result.split(',')[1]], which is
    undefined when the result has no comma, and rejects on a read error. *)
Definition fileToBase64 (file : File) : M (option jsstring) :=
  match file_dataURL file with
  | Some result => ret (nth_error (split 44%N result) 1)
  | None => throw FileReadError
  end.

Definition modelId : jsstring := lit "gemini-3-flash-preview".

Definition missingKey : JsError :=
  Error (lit "Gemini API Key is missing. Please check your environment configuration.").

Definition leaf (ty : SchemaType) (description : option jsstring) : Schema :=
  mkSchema ty description None [] [].

Definition analysisSchema : Schema :=
  mkSchema OBJECT None None
    [ (lit "score",
       leaf NUMBER (Some (lit "A score from 0 to 100 based on investment potential.")));
      (lit "companyName",
       leaf STRING (Some (lit "Inferred name of the startup.")));
      (lit "summary",
       leaf STRING (Some (lit "Brief executive summary of the pitch.")));
      (lit "pros",
       mkSchema ARRAY (Some (lit "List of key strengths."))
                (Some (leaf STRING None)) [] []);
      (lit "cons",
       mkSchema ARRAY (Some (lit "List of potential risks or weaknesses."))
                (Some (leaf STRING None)) [] []);
      (lit "metrics",
       mkSchema OBJECT None None
         [ (lit "marketSize",
            leaf STRING (Some (lit "Estimated market size assessment.")));
           (lit "scalability",
            leaf STRING (Some (lit "Assessment of scalability.")));
           (lit "innovation",
            leaf STRING (Some (lit "Assessment of innovation/moat."))) ]
         []) ]
    [ lit "score"; lit "companyName"; lit "summary";
      lit "pros"; lit "cons"; lit "metrics" ].

Definition basePrompt : jsstring :=
  tpl "You are a strict Venture Capital analyst. Analyze the provided startup materials.
    These materials may include a video pitch, a PDF report, and/or a text summary.
    
    Evaluate the business model, market opportunity, and team presentation based on ALL provided content.
    Return a JSON response with a score (0-100). 
    If the startup is exceptional, give it > 90. If it has flaws, score appropriately.".

Definition contextPart (reportText : jsstring) : Part :=
  TextPart (tpl "ADDITIONAL CONTEXT / SUMMARY:
"
  ++ reportText).

Definition jsonConfig (schema : option Schema) : GenerateContentConfig :=
  {| responseMimeType := lit "application/json"; responseSchema := schema |}.

(** Analyzes the startup pitch video, PDF report, and optional text
    summary. *)
Definition analyzeStartupPitch (videoFile : option File)
           (reportText : jsstring) (reportFile : option File) : M JsValue :=
  apiKey <- getApiKey ;;
  if negb (nonEmpty apiKey) then throw missingKey
  else
    let ai := {| client_apiKey := apiKey |} in
    let parts := [] in
    let parts := parts ++ [TextPart basePrompt] in
    let parts :=
      if nonEmpty reportText then parts ++ [contextPart reportText]
      else parts in
    parts <-
      match reportFile with
      | Some file =>
          try_catch
            (base64Pdf <- fileToBase64 file ;;
             ret (parts ++ [InlineDataPart (lit "application/pdf") base64Pdf]))
            (fun e =>
               console_error (lit "Error processing PDF file:") e ;;
               throw (Error (lit "Failed to process PDF report.")))
      | None => ret parts
      end ;;
    parts <-
      match videoFile with
      | Some file =>
          try_catch
            (base64Video <- fileToBase64 file ;;
             ret (parts ++ [InlineDataPart (file_type file) base64Video]))
            (fun e =>
               console_error (lit "Error processing video file:") e ;;
               throw (Error (lit "Failed to process video file. It might be too large for this browser-based demo.")))
      | None => ret parts
      end ;;
    try_catch
      (text <- models_generateContent ai
                 {| model := modelId;
                    contents_parts := parts;
                    config := jsonConfig (Some analysisSchema) |} ;;
       ifText text
         (fun t => parse t)
         (throw (Error (lit "No response text generated"))))
      (fun error =>
         console_error (lit "Gemini Analysis Error:") error ;;
         throw error).

Definition systemInstruction : jsstring :=
  tpl "You are ^Ventura^, a highly intelligent AI Investment Negotiator representing a top-tier VC firm.
      The startup you are talking to has passed the initial screening with a high score (>60%).
      
      Your Goal: Negotiate a term sheet.
      
      Topics to discuss specifically:
      1. Valuation & Equity (How much for what %)
      2. Use of Funds (Burn rate, runway)
      3. EBITDA & Profitability timelines
      4. Long-term Vision & Exit Strategy
      
      Tone: Professional, direct, shrewd, yet supportive of high-growth potential. Do not accept weak answers. Drill down into numbers.
      
      IMPORTANT NEGOTIATION RULES:
      - If the founder dodges key questions 2+ times, call it out firmly
      - If valuations/expectations are wildly unrealistic, push back with market data
      - If the founder can't provide basic metrics (revenue, growth rate, CAC), express serious concern
      - If you sense the conversation is going in circles, acknowledge it and request specific information
      - Be willing to express skepticism when warranted - you represent a real VC firm
      - Your time is valuable; don't let founders waste it with vague or evasive answers
      
      Start by congratulating them on the high score and asking for their funding ask.".

(** Creates a chat session for negotiation.  The argument is not used. *)
Definition createNegotiationSession (initialContext : jsstring) : M Chat :=
  apiKey <- getApiKey ;;
  if negb (nonEmpty apiKey) then throw missingKey
  else
    let ai := {| client_apiKey := apiKey |} in
    let chat := chats_create ai (lit "gemini-3-flash-preview")
                             systemInstruction in
    ret chat.

(** The request every simulation sends: one text part, JSON asked for,
    no schema. *)
Definition promptRequest (prompt : jsstring) : GenerateContentParameters :=
  {| model := modelId;
     contents_parts := [TextPart prompt];
     config := jsonConfig None |}.

Definition dueDiligencePrompt (pitchText : jsstring)
           (analysis : AnalysisResult) : jsstring :=
  tpl "
    You are a skeptical Due Diligence Investigator. 
    Review the following startup pitch summary and analysis.
    Extract 3-5 specific, verifiable claims made by the founders (e.g. ^We have 50% month-over-month growth^, ^We are the only solution in the market^).
    
    For each claim, flag it as ^Unverified^ and ask a probing question to verify it.
    
    Startup: "
  ++ companyName analysis
  ++ tpl "
    Summary: "
  ++ summary analysis
  ++ tpl "
    Pitch Context: "
  ++ substring0 1000 pitchText
  ++ tpl "...

    Return a JSON array of objects with this schema:
    {
      ^id^: ^string (unique)^,
      ^claim^: ^string (the exact claim)^,
      ^category^: ^Market^ | ^Financial^ | ^Team^ | ^Product^,
      ^status^: ^Unverified^,
      ^aiQuestion^: ^string (your probing question)^
    }
  ".

(** FEATURE 1: Due Diligence Agent. *)
Definition performDueDiligence (pitchText : jsstring)
           (analysis : AnalysisResult) : M JsValue :=
  apiKey <- getApiKey ;;
  let ai := {| client_apiKey := apiKey |} in
  let prompt := dueDiligencePrompt pitchText analysis in
  try_catch
    (text <- models_generateContent ai (promptRequest prompt) ;;
     ifText text (fun t => parse t) (ret (JArr [])))
    (fun e =>
       console_error (lit "Due Diligence Error") e ;;
       ret (JArr [])).

Definition committeePrompt (analysis : AnalysisResult) : jsstring :=
  tpl "
    You are simulating an Investment Committee meeting at a top VC firm.
    There are 3 agents discussing the startup ^"
  ++ companyName analysis
  ++ tpl "^.
    
    1. ^Tech^ (The CTO): Obsessed with stack, scalability, and technical moat. Skeptical of ^AI wrappers^.
    2. ^Risk^ (The CFO): Obsessed with burn rate, unit economics, and competition. Risk-averse.
    3. ^Vision^ (The Partner): Obsessed with market size, story, and ^changing the world^. Optimistic.

    Generate a short, 3-turn conversation (one comment from each) reacting to this analysis:
    Score: "
  ++ Number_toString (score analysis)
  ++ tpl "
    Pros: "
  ++ join (lit ", ") (pros analysis)
  ++ tpl "
    Cons: "
  ++ join (lit ", ") (cons analysis)
  ++ tpl "

    Return a JSON array of message objects:
    {
      ^id^: ^string^,
      ^agentId^: ^tech^ | ^risk^ | ^vision^,
      ^text^: ^string (keep it punchy and in-character)^
    }
  ".

(** FEATURE 2: Investment Committee Agents. *)
Definition startCommitteeDebate (analysis : AnalysisResult) : M JsValue :=
  apiKey <- getApiKey ;;
  let ai := {| client_apiKey := apiKey |} in
  let prompt := committeePrompt analysis in
  try_catch
    (text <- models_generateContent ai (promptRequest prompt) ;;
     ifText text (fun t => parse t) (ret (JArr [])))
    (fun e =>
       console_error (lit "Committee Debate Error") e ;;
       ret (JArr [])).

Definition boardPrompt (analysis : AnalysisResult) : jsstring :=
  tpl "
    You are a Future Scenario Simulator.
    The startup ^"
  ++ companyName analysis
  ++ tpl "^ successfully raised funding 18 months ago.
    Based on their initial weaknesses: "
  ++ join (lit ", ") (cons analysis)
  ++ tpl ", generate a critical ^Crisis Scenario^ that they are likely facing now.

    Return a JSON object:
    {
      ^id^: ^scenario_1^,
      ^title^: ^string (Dramatic title)^,
      ^description^: ^string (What happened? e.g. 'Competitor X launched a free version...')^,
      ^timeJump^: ^18 Months Later^,
      ^choices^: [
        {
          ^id^: ^A^,
          ^label^: ^string (Action A)^,
          ^consequence^: ^string (Brief hint of result)^
        },
        {
          ^id^: ^B^,
          ^label^: ^string (Action B)^,
          ^consequence^: ^string (Brief hint of result)^
        }
      ]
    }
  ".

(** The record returned when the board simulation fails. *)
Definition errorScenario : JsValue :=
  JObj [ (lit "id", JStr (lit "error"));
         (lit "title", JStr (lit "Simulation Error"));
         (lit "description", JStr (lit "Could not generate scenario."));
         (lit "timeJump", JStr (lit "Now"));
         (lit "choices", JArr []) ].

(** FEATURE 3: Board Simulator. *)
Definition startBoardSimulation (analysis : AnalysisResult) : M JsValue :=
  apiKey <- getApiKey ;;
  let ai := {| client_apiKey := apiKey |} in
  let prompt := boardPrompt analysis in
  try_catch
    (text <- models_generateContent ai (promptRequest prompt) ;;
     ifText text (fun t => parse t) (throw (Error (lit "No text"))))
    (fun e =>
       console_error (lit "Board Simulation Error") e ;;
       ret errorScenario).

(** [{ shouldCancel: false, showWarning: false, reason: "" }] *)
Definition noVerdict : JsValue :=
  JObj [ (lit "shouldCancel", JBool false);
         (lit "showWarning", JBool false);
         (lit "reason", JStr (lit "")) ].

(** The callback of [recentMessages.map]. *)
Definition speakerLine (msg : JsValue) : M jsstring :=
  role <- lift (getProp msg (lit "role")) ;;
  text <- lift (getProp msg (lit "text")) ;;
  shown <- lift (ToString text) ;;
  ret ((if strictEqStr role (lit "user") then lit "Founder" else lit "VC")
         ++ lit ": " ++ shown).

Definition conversationOf (messages : list JsValue) : M jsstring :=
  let recentMessages := slice_last 8 messages in
  lines <- mapM speakerLine recentMessages ;;
  ret (join [10; 10]%N lines).

Definition progressPrompt (analysis : AnalysisResult)
           (conversationText : jsstring) : jsstring :=
  tpl "
    You are a Negotiation Progress Analyzer for a VC firm.
    Analyze this negotiation conversation and determine if it should be cancelled.
    
    Startup: "
  ++ companyName analysis
  ++ tpl " (Score: "
  ++ Number_toString (score analysis)
  ++ tpl "/100)
    
    Recent Conversation:
    "
  ++ conversationText
  ++ tpl "
    
    Analyze for these RED FLAGS:
    1. Founder is repeatedly dodging key questions (valuations, revenue, metrics)
    2. Founder is being unrealistic or defensive about terms
    3. Conversation is going in circles (same topics repeated 3+ times)
    4. Founder shows lack of understanding of basic business metrics
    5. Founder is giving vague, non-committal answers
    6. Terms are so far apart that compromise seems unlikely
    7. Founder's expectations are completely misaligned with reality
    
    Return JSON:
    {
      ^shouldCancel^: boolean (true if 3+ red flags or conversation is clearly unproductive),
      ^showWarning^: boolean (true if 2 red flags detected - warn but don't cancel yet),
      ^reason^: ^string (if shouldCancel is true, provide a professional message explaining why the VC is ending negotiations. Be diplomatic but firm.)^
    }
    
    Example cancellation reason: ^After careful consideration of our discussion, it appears our expectations around valuation and growth metrics are significantly misaligned. We believe it's best to pause negotiations at this time. We wish you success and encourage you to reconnect once you've achieved the milestones we discussed.^
  ".

(** The text put in front of a cancellation reason, as the source file
    has it: U+00F0 U+0178 U+0161 U+00AB and a space. *)
Definition marker : jsstring := [240; 376; 353; 171; 32]%N.

(** [if (result.shouldCancel && result.reason)
       result.reason = marker + result.reason;
     return result;] *)
Definition formatVerdict (result : JsValue) : M JsValue :=
  test <- (shouldCancel <- lift (getProp result (lit "shouldCancel")) ;;
           if ToBoolean shouldCancel
           then lift (getProp result (lit "reason"))
           else ret shouldCancel) ;;
  result <-
    (if ToBoolean test
     then
       reason <- lift (getProp result (lit "reason")) ;;
       shown <- lift (ToString reason) ;;
       lift (setProp result (lit "reason") (JStr (marker ++ shown)))
     else ret result) ;;
  ret result.

(** FEATURE 4: Agentic Negotiation Progress Checker. *)
Definition checkNegotiationProgress (messages : list JsValue)
           (analysis : AnalysisResult) : M JsValue :=
  apiKey <- getApiKey ;;
  if negb (nonEmpty apiKey) then ret noVerdict
  else
    let ai := {| client_apiKey := apiKey |} in
    if Nat.ltb (List.length messages) 6 then ret noVerdict
    else
      conversationText <- conversationOf messages ;;
      let prompt := progressPrompt analysis conversationText in
      try_catch
        (text <- models_generateContent ai (promptRequest prompt) ;;
         ifText text
           (fun t => result <- parse t ;; formatVerdict result)
           (ret noVerdict))
        (fun e =>
           console_error (lit "Negotiation Progress Check Error") e ;;
           ret noVerdict).

End WithPlatform.
End GeminiService.
Import GeminiService.

(** ** What the declared schema asks of a response *)

Module Contract.

(** The values a [Schema] of the SDK admits: a number, a string, an array
    whose elements the [items] schema admits, an object that has every
    [required] property and whose declared properties, when present, are
    admitted by their schemas. *)
Fixpoint conforms (s : Schema) (v : JsValue) {struct s} : bool :=
  match s with
  | mkSchema ty _ items properties required =>
      match ty, v with
      | NUMBER, JNum _ => true
      | STRING, JStr _ => true
      | ARRAY, JArr elems =>
          match items with
          | Some it => forallb (conforms it) elems
          | None => true
          end
      | OBJECT, JObj props =>
          forallb (fun k => match lookup k props with
                            | Some _ => true
                            | None => false
                            end) required
          && (fix each (ps : list (jsstring * Schema)) : bool :=
                match ps with
                | [] => true
                | (k, sk) :: rest =>
                    match lookup k props with
                    | Some x => conforms sk x
                    | None => true
                    end && each rest
                end) properties
      | _, _ => false
      end
  end.

(** Reading a parsed value at the type the module casts it to. *)
Fixpoint asStrings (vs : list JsValue) : option (list jsstring) :=
  match vs with
  | [] => Some []
  | JStr s :: rest => option_map (fun ss => s :: ss) (asStrings rest)
  | _ :: _ => None
  end.

Definition asOptionalString (o : option JsValue)
  : option (option jsstring) :=
  match o with
  | None => Some None
  | Some (JStr s) => Some (Some s)
  | Some _ => None
  end.

Definition asMetrics (v : JsValue) : option Metrics :=
  match v with
  | JObj props =>
      match asOptionalString (lookup (lit "marketSize") props),
            asOptionalString (lookup (lit "scalability") props),
            asOptionalString (lookup (lit "innovation") props) with
      | Some a, Some b, Some c =>
          Some {| marketSize := a; scalability := b; innovation := c |}
      | _, _, _ => None
      end
  | _ => None
  end.

Definition asAnalysisResult (v : JsValue) : option AnalysisResult :=
  match v with
  | JObj props =>
      match lookup (lit "score") props,
            lookup (lit "companyName") props,
            lookup (lit "summary") props,
            lookup (lit "pros") props,
            lookup (lit "cons") props,
            lookup (lit "metrics") props with
      | Some (JNum n), Some (JStr name), Some (JStr text),
        Some (JArr ps), Some (JArr cs), Some m =>
          match asStrings ps, asStrings cs, asMetrics m with
          | Some ps', Some cs', Some m' =>
              Some {| score := n; companyName := name; summary := text;
                      pros := ps'; cons := cs'; metrics := m' |}
          | _, _, _ => None
          end
      | _, _, _, _, _, _ => None
      end
  | _ => None
  end.

(** A score from 0 to 100, on the exact value of the decimal. *)
Definition scoreInRange (n : number) : bool :=
  Qle_bool 0 (num_value n) && Qle_bool (num_value n) (100 # 1).

End Contract.
Import Contract.

(** ** A reference platform *)

Module Reference.

Local Open Scope N_scope.

Definition isWhitespace (c : codeunit) : bool :=
  (c =? 32) || (c =? 9) || (c =? 10) || (c =? 13).

Fixpoint skipWhitespace (s : jsstring) : jsstring :=
  match s with
  | c :: rest => if isWhitespace c then skipWhitespace rest else s
  | [] => []
  end.

(** The text after the token [c], which may follow whitespace. *)
Definition expect (c : codeunit) (s : jsstring) : option jsstring :=
  match skipWhitespace s with
  | d :: rest => if d =? c then Some rest else None
  | [] => None
  end.

Definition isDigit (c : codeunit) : bool := (48 <=? c) && (c <=? 57).

Definition hexValue (c : codeunit) : option N :=
  if isDigit c then Some (c - 48)
  else if (65 <=? c) && (c <=? 70) then Some (c - 55)
  else if (97 <=? c) && (c <=? 102) then Some (c - 87)
  else None.

Definition hex4 (a b c d : codeunit) : option codeunit :=
  match hexValue a, hexValue b, hexValue c, hexValue d with
  | Some x, Some y, Some z, Some t => Some (((x * 16 + y) * 16 + z) * 16 + t)
  | _, _, _, _ => None
  end.

(** The character an escape [\e] stands for. *)
Definition unescape (e : codeunit) : option codeunit :=
  if e =? 34 then Some 34
  else if e =? 92 then Some 92
  else if e =? 47 then Some 47
  else if e =? 98 then Some 8
  else if e =? 102 then Some 12
  else if e =? 110 then Some 10
  else if e =? 114 then Some 13
  else if e =? 116 then Some 9
  else None.

Definition consTo (c : codeunit) (r : option (jsstring * jsstring))
  : option (jsstring * jsstring) :=
  match r with
  | Some (s, rest) => Some (c :: s, rest)
  | None => None
  end.

(** The characters of a string up to its closing quote. *)
Fixpoint parseChars (s : jsstring) : option (jsstring * jsstring) :=
  match s with
  | [] => None
  | c :: r =>
      if c =? 34 then Some ([], r)
      else if c =? 92 then
        match r with
        | [] => None
        | e :: r1 =>
            if e =? 117 then
              match r1 with
              | h1 :: h2 :: h3 :: h4 :: r2 =>
                  match hex4 h1 h2 h3 h4 with
                  | Some u => consTo u (parseChars r2)
                  | None => None
                  end
              | _ => None
              end
            else
              match unescape e with
              | Some x => consTo x (parseChars r1)
              | None => None
              end
        end
      else if c <? 32 then None
      else consTo c (parseChars r)
  end.

(** A run of digits: their count, their value after [acc], the rest. *)
Fixpoint takeDigits (acc : N) (s : jsstring) : nat * N * jsstring :=
  match s with
  | c :: r =>
      if isDigit c
      then let '(k, v, rest) := takeDigits (acc * 10 + (c - 48)) r in
           (S k, v, rest)
      else (O, acc, s)
  | [] => (O, acc, [])
  end.

(** The text after the character [c], when the text starts with it. *)
Definition after (c : codeunit) (s : jsstring) : option jsstring :=
  match s with
  | d :: rest => if d =? c then Some rest else None
  | [] => None
  end.

Definition startsWith (c : codeunit) (s : jsstring) : bool :=
  match after c s with
  | Some _ => true
  | None => false
  end.

(** [. digits]: the mantissa and the number of digits added to it. *)
Definition parseFraction (int : N) (s : jsstring)
  : option (nat * N * jsstring) :=
  match after 46 s with
  | Some r =>
      let '(k, v, rest) := takeDigits int r in
      if Nat.eqb k 0 then None else Some (k, v, rest)
  | None => Some (O, int, s)
  end.

(** [(e|E) (+|-)? digits]: the exponent. *)
Definition parseExponent (s : jsstring) : option (Z * jsstring) :=
  let marked :=
    match after 101 s with
    | Some r => Some r
    | None => after 69 s
    end in
  match marked with
  | None => Some (0%Z, s)
  | Some r =>
      let '(negative, r1) :=
        match after 45 r with
        | Some r' => (true, r')
        | None =>
            match after 43 r with
            | Some r' => (false, r')
            | None => (false, r)
            end
        end in
      let '(k, e, rest) := takeDigits 0 r1 in
      if Nat.eqb k 0 then None
      else Some (if negative then Z.opp (Z.of_N e) else Z.of_N e, rest)
  end.

(** [-? int frac? exp?], where [int] has no leading zero. *)
Definition parseNumber (s : jsstring) : option (number * jsstring) :=
  let '(neg, s1) :=
    match after 45 s with
    | Some r => (true, r)
    | None => (false, s)
    end in
  let '(k, int, s2) := takeDigits 0 s1 in
  if Nat.eqb k 0 || (startsWith 48 s1 && negb (Nat.eqb k 1)) then None
  else
    match parseFraction int s2 with
    | None => None
    | Some (kf, mant, s3) =>
        match parseExponent s3 with
        | None => None
        | Some (e, s4) =>
            Some (mkNumber neg mant (e - Z.of_nat kf), s4)
        end
    end.

(** The outcome of a parser that runs on fuel. *)
Inductive Parsed :=
| Ok (v : JsValue) (rest : jsstring)
| Malformed
| Exhausted.

Definition keyword (word : jsstring) (v : JsValue) (s : jsstring) : Parsed :=
  if eqb (firstn (List.length word) s) word
  then Ok v (skipn (List.length word) s)
  else Malformed.

(** Recursive descent.  The fuel bounds the depth of the calls. *)
Fixpoint parseValue (fuel : nat) (s : jsstring) {struct fuel} : Parsed :=
  match fuel with
  | O => Exhausted
  | S fuel' =>
      match skipWhitespace s with
      | [] => Malformed
      | c :: r =>
          if c =? 123 then
            match expect 125 r with
            | Some r' => Ok (JObj []) r'
            | None => parseMembers fuel' [] r
            end
          else if c =? 91 then
            match expect 93 r with
            | Some r' => Ok (JArr []) r'
            | None => parseElements fuel' [] r
            end
          else if c =? 34 then
            match parseChars r with
            | Some (str, r') => Ok (JStr str) r'
            | None => Malformed
            end
          else if c =? 116 then keyword (lit "true") (JBool true) (c :: r)
          else if c =? 102 then keyword (lit "false") (JBool false) (c :: r)
          else if c =? 110 then keyword (lit "null") JNull (c :: r)
          else
            match parseNumber (c :: r) with
            | Some (n, r') => Ok (JNum n) r'
            | None => Malformed
            end
      end
  end
with parseElements (fuel : nat) (acc : list JsValue) (s : jsstring)
                   {struct fuel} : Parsed :=
  match fuel with
  | O => Exhausted
  | S fuel' =>
      match parseValue fuel' s with
      | Ok v r =>
          match expect 44 r with
          | Some r' => parseElements fuel' (acc ++ [v]) r'
          | None =>
              match expect 93 r with
              | Some r' => Ok (JArr (acc ++ [v])) r'
              | None => Malformed
              end
          end
      | Malformed => Malformed
      | Exhausted => Exhausted
      end
  end
with parseMembers (fuel : nat) (acc : list (jsstring * JsValue))
                  (s : jsstring) {struct fuel} : Parsed :=
  match fuel with
  | O => Exhausted
  | S fuel' =>
      match expect 34 s with
      | None => Malformed
      | Some r =>
          match parseChars r with
          | None => Malformed
          | Some (key, r1) =>
              match expect 58 r1 with
              | None => Malformed
              | Some r2 =>
                  match parseValue fuel' r2 with
                  | Ok v r3 =>
                      match expect 44 r3 with
                      | Some r4 => parseMembers fuel' (update key v acc) r4
                      | None =>
                          match expect 125 r3 with
                          | Some r4 => Ok (JObj (update key v acc)) r4
                          | None => Malformed
                          end
                      end
                  | Malformed => Malformed
                  | Exhausted => Exhausted
                  end
              end
          end
      end
  end.

(** [JSON.parse(text)]: one value, surrounded by whitespace only.  A key
    given twice keeps its first place and its last value.  The fuel is
    more than the text can use ([parseText_fuel]). *)
Definition parseText (text : jsstring) : option JsValue :=
  match parseValue (S (2 * List.length text)) text with
  | Ok v rest =>
      match skipWhitespace rest with
      | [] => Some v
      | _ :: _ => None
      end
  | Malformed | Exhausted => None
  end.

Local Close Scope N_scope.

(** A number is falsy when it is zero. *)
Definition isNonZero (n : number) : bool :=
  negb (N.eqb (num_mantissa n) 0).

Definition digitsOf (n : N) : jsstring :=
  lit (NilZero.string_of_uint (N.to_uint n)).

(** Trailing zeros of a fraction carry no value. *)
Fixpoint trimZeros (fuel : nat) (m : N) (e : Z) : N * Z :=
  match fuel with
  | O => (m, e)
  | S fuel' =>
      if Z.ltb e 0 && N.eqb (N.modulo m 10) 0
      then trimZeros fuel' (N.div m 10) (e + 1)%Z
      else (m, e)
  end.

(** The decimal in positional notation, which is what [Number::toString]
    gives for the integers and short decimals of the examples. *)
Definition printNumber (n : number) : jsstring :=
  if N.eqb (num_mantissa n) 0 then lit "0"
  else
    let sign := if num_neg n then lit "-" else [] in
    let '(m, e) := trimZeros (Z.abs_nat (num_exp10 n))
                             (num_mantissa n) (num_exp10 n) in
    match e with
    | Z.neg p =>
        let unit := N.pow 10 (N.pos p) in
        let frac := digitsOf (N.modulo m unit) in
        let pad := repeat 48%N (Pos.to_nat p - List.length frac) in
        sign ++ digitsOf (N.div m unit) ++ lit "." ++ pad ++ frac
    | _ => sign ++ digitsOf (m * N.pow 10 (Z.to_N e))
    end.

#[export] Instance browser : Platform := {|
  JSON_parse := parseText;
  JSON_parse_empty := eq_refl;
  Number_toString := printNumber;
  Number_toBoolean := isNonZero
|}.

End Reference.

(** ** Vocabulary of the properties *)

Module Vocabulary.

(** The key [getApiKey] finds in a world. *)
Definition apiKeyOf (w : World) : jsstring :=
  match VITE_GEMINI_API_KEY w with
  | Some k => k
  | None => []
  end.

(** A reply the callers cannot use: the call is rejected, or the response
    has no text, or its text is not JSON (the empty text is not). *)
Definition unusable {host : Platform} (r : Reply) : Prop :=
  match r with
  | Rejected _ => True
  | Response None => True
  | Response (Some t) => JSON_parse t = None
  end.

(** A message [speakerLine] can render: reading [role] and [text] from it
    does not throw, and its text converts to a string. *)
Definition speakable {host : Platform} (msg : JsValue) : bool :=
  match getProp msg (lit "role"), getProp msg (lit "text") with
  | Return _, Return text => negb (isThrow (ToString text))
  | _, _ => false
  end.

(** The verdict of a parsed response calls for the marker when its
    [shouldCancel] and its [reason] are both truthy. *)
Definition cancels {host : Platform} (props : list (jsstring * JsValue))
  : bool :=
  match lookup (lit "shouldCancel") props, lookup (lit "reason") props with
  | Some c, Some r => ToBoolean c && ToBoolean r
  | _, _ => false
  end.

(** The payload of a data URL, as [fileToBase64] cuts it out. *)
Definition base64Of (url : jsstring) : option jsstring :=
  nth_error (split 44%N url) 1.

End Vocabulary.
Import Vocabulary.

(** ** The entry points in closed form

    What each entry point amounts to once the monad is run, as a case
    table.  The lemmas [*_run] below prove the tables equal to the code;
    the properties are stated on the code. *)

Module Outcomes.

Definition pdfParts (file : option File) : option (list Part) :=
  match file with
  | None => Some []
  | Some f =>
      option_map
        (fun url => [InlineDataPart (lit "application/pdf") (base64Of url)])
        (file_dataURL f)
  end.

Definition videoParts (file : option File) : option (list Part) :=
  match file with
  | None => Some []
  | Some f =>
      option_map
        (fun url => [InlineDataPart (file_type f) (base64Of url)])
        (file_dataURL f)
  end.

Definition analysisRequest (reportText : jsstring) (pp vp : list Part)
  : GenerateContentParameters :=
  {| model := modelId;
     contents_parts :=
       TextPart basePrompt
         :: (if nonEmpty reportText then [contextPart reportText] else [])
         ++ pp ++ vp;
     config := jsonConfig (Some analysisSchema) |}.

(** The text [if (response.text)] lets through. *)
Definition usableText (text : option jsstring) : option jsstring :=
  match text with
  | Some t => if nonEmpty t then Some t else None
  | None => None
  end.

Definition pdfFailed : JsError :=
  Error (lit "Failed to process PDF report.").

Definition videoFailed : JsError :=
  Error (lit "Failed to process video file. It might be too large for this browser-based demo.").

Definition noResponseText : JsError :=
  Error (lit "No response text generated").

Section WithPlatform.
Context {host : Platform}.

Definition analysisOutcome (w : World) (video : option File)
           (reportText : jsstring) (file : option File)
  : Result JsValue * list Event :=
  let key := apiKeyOf w in
  if nonEmpty key then
    match pdfParts file with
    | None =>
        (Throw pdfFailed,
         [ConsoleError (lit "Error processing PDF file:") FileReadError])
    | Some pp =>
        match videoParts video with
        | None =>
            (Throw videoFailed,
             [ConsoleError (lit "Error processing video file:") FileReadError])
        | Some vp =>
            let req := analysisRequest reportText pp vp in
            let logged e :=
              [ServiceCall key req;
               ConsoleError (lit "Gemini Analysis Error:") e] in
            match service w key req with
            | Rejected e => (Throw e, logged e)
            | Response text =>
                match usableText text with
                | None => (Throw noResponseText, logged noResponseText)
                | Some t =>
                    match JSON_parse t with
                    | Some v => (Return v, [ServiceCall key req])
                    | None => (Throw SyntaxError, logged SyntaxError)
                    end
                end
            end
        end
    end
  else (Throw missingKey, []).

(** The three simulations that send their prompt whatever the key is.
    [onNoText] is what an absent or empty text leads to: a value returned
    as it is, or an error for the handler. *)
Definition simulationOutcome (w : World) (prompt label : jsstring)
           (fallback : JsValue) (onNoText : option JsError)
  : Result JsValue * list Event :=
  let key := apiKeyOf w in
  let req := promptRequest prompt in
  let caught e :=
    (Return fallback, [ServiceCall key req; ConsoleError label e]) in
  match service w key req with
  | Rejected e => caught e
  | Response text =>
      match usableText text with
      | None =>
          match onNoText with
          | Some e => caught e
          | None => (Return fallback, [ServiceCall key req])
          end
      | Some t =>
          match JSON_parse t with
          | Some v => (Return v, [ServiceCall key req])
          | None => caught SyntaxError
          end
      end
  end.

(** One line of the conversation text. *)
Definition lineOf (msg : JsValue) : Result jsstring :=
  match getProp msg (lit "role") with
  | Throw e => Throw e
  | Return role =>
      match getProp msg (lit "text") with
      | Throw e => Throw e
      | Return text =>
          match ToString text with
          | Throw e => Throw e
          | Return shown =>
              Return ((if strictEqStr role (lit "user")
                       then lit "Founder" else lit "VC")
                        ++ lit ": " ++ shown)
          end
      end
  end.

Fixpoint linesOf (msgs : list JsValue) : Result (list jsstring) :=
  match msgs with
  | [] => Return []
  | msg :: rest =>
      match lineOf msg with
      | Throw e => Throw e
      | Return l =>
          match linesOf rest with
          | Throw e => Throw e
          | Return ls => Return (l :: ls)
          end
      end
  end.

Definition conversationText (messages : list JsValue) : Result jsstring :=
  match linesOf (slice_last 8 messages) with
  | Throw e => Throw e
  | Return ls => Return (join [10; 10]%N ls)
  end.

(** What [formatVerdict] makes of a parsed response. *)
Definition verdictOf (v : JsValue) : Result JsValue :=
  match v with
  | JUndefined | JNull => Throw TypeError
  | JObj props =>
      if cancels props then
        match lookup (lit "reason") props with
        | Some reason =>
            match ToString reason with
            | Throw e => Throw e
            | Return shown =>
                Return (JObj (update (lit "reason")
                                     (JStr (marker ++ shown)) props))
            end
        | None => Return v
        end
      else Return v
  | _ => Return v
  end.

Definition progressOutcome (w : World) (messages : list JsValue)
           (analysis : AnalysisResult) : Result JsValue * list Event :=
  let key := apiKeyOf w in
  if nonEmpty key then
    if Nat.ltb (List.length messages) 6 then (Return noVerdict, [])
    else
      match conversationText messages with
      | Throw e => (Throw e, [])
      | Return conversation =>
          let req := promptRequest (progressPrompt analysis conversation) in
          let caught e :=
            (Return noVerdict,
             [ServiceCall key req;
              ConsoleError (lit "Negotiation Progress Check Error") e]) in
          match service w key req with
          | Rejected e => caught e
          | Response text =>
              match usableText text with
              | None => (Return noVerdict, [ServiceCall key req])
              | Some t =>
                  match JSON_parse t with
                  | None => caught SyntaxError
                  | Some v =>
                      match verdictOf v with
                      | Return v' => (Return v', [ServiceCall key req])
                      | Throw e => caught e
                      end
                  end
              end
          end
      end
  else (Return noVerdict, []).

End WithPlatform.
End Outcomes.
Import Outcomes.

(** ** Inputs to run the module on *)

Module Scenarios.

(** A world whose service gives the same reply to every request. *)
Definition always (key : option jsstring) (reply : Reply) : World :=
  {| VITE_GEMINI_API_KEY := key; service := fun _ _ => reply |}.

Definition someKey : jsstring := lit "AIza-demo-key".

(** What the service answers to a request that carries no valid key. *)
Definition keyRefused : Reply :=
  Rejected (ServiceError (lit "API key not valid. Please pass a valid API key.")).

Definition acme : AnalysisResult :=
  {| score := num_of_N 72;
     companyName := lit "Acme";
     summary := lit "Shovels as a service.";
     pros := [lit "Strong team"; lit "Growing market"];
     cons := [lit "High burn"];
     metrics := {| marketSize := Some (lit "Large");
                   scalability := None;
                   innovation := None |} |}.

Definition chatMessage (role text : string) : JsValue :=
  JObj [ (lit "role", JStr (lit role)); (lit "text", JStr (lit text)) ].

Definition opening : list JsValue :=
  [ chatMessage "model" "Congratulations. What is your ask?";
    chatMessage "user" "Two million for ten percent." ].

Definition exchange : list JsValue :=
  [ chatMessage "model" "What is your monthly revenue?";
    chatMessage "user" "We prefer to talk about the vision.";
    chatMessage "model" "I need the number.";
    chatMessage "user" "It is early days.";
    chatMessage "model" "Then your burn rate?";
    chatMessage "user" "We will share it later.";
    chatMessage "model" "That is the third time.";
    chatMessage "user" "Trust us." ].

(** Six entries of an [any[]] that are not messages. *)
Definition sixNulls : list JsValue := repeat JNull 6.

Definition pdfFile : File :=
  {| file_type := lit "application/pdf";
     file_dataURL := Some (lit "data:application/pdf;base64,JVBERi0xLjQK") |}.

Definition videoFile : File :=
  {| file_type := lit "video/mp4";
     file_dataURL := Some (lit "data:video/mp4;base64,AAAAIGZ0eXBpc29t") |}.

(** A file the FileReader fails on. *)
Definition unreadableFile : File :=
  {| file_type := lit "application/pdf"; file_dataURL := None |}.

(** A response that fits the declared schema, with a score of 150. *)
Definition overscoredText : jsstring :=
  tpl "{^score^: 150, ^companyName^: ^Acme^, ^summary^: ^Shovels as a service.^, ^pros^: [^Strong team^], ^cons^: [^High burn^], ^metrics^: {^marketSize^: ^Large^}}".

Definition overscored : JsValue :=
  JObj [ (lit "score", JNum (num_of_N 150));
         (lit "companyName", JStr (lit "Acme"));
         (lit "summary", JStr (lit "Shovels as a service."));
         (lit "pros", JArr [JStr (lit "Strong team")]);
         (lit "cons", JArr [JStr (lit "High burn")]);
         (lit "metrics", JObj [(lit "marketSize", JStr (lit "Large"))]) ].

Definition cancelText : jsstring :=
  tpl "{^shouldCancel^: true, ^showWarning^: true, ^reason^: ^We are too far apart.^}".

Definition longPitch (tail : string) : jsstring :=
  repeat 97%N 1000 ++ lit tail.

(** A reply in prose, where JSON was asked for. *)
Definition proseText : jsstring := lit "Sorry, I cannot help with that.".

(** A pitch with a report and a video, and the request it leads to. *)
Definition pitchNotes : jsstring := lit "Shovels, rented by the hour.".

Definition pitchRequest : GenerateContentParameters :=
  analysisRequest pitchNotes
    [InlineDataPart (lit "application/pdf") (Some (lit "JVBERi0xLjQK"))]
    [InlineDataPart (lit "video/mp4") (Some (lit "AAAAIGZ0eXBpc29t"))].

(** The conversation text of [exchange], and the request it leads to. *)
Definition exchangeText : jsstring :=
  join [10; 10]%N
       (map lit
            [ "VC: What is your monthly revenue?";
              "Founder: We prefer to talk about the vision.";
              "VC: I need the number.";
              "Founder: It is early days.";
              "VC: Then your burn rate?";
              "Founder: We will share it later.";
              "VC: That is the third time.";
              "Founder: Trust us." ]%string).

Definition exchangeRequest : GenerateContentParameters :=
  promptRequest (progressPrompt (host := Reference.browser) acme exchangeText).

(** [cancelText] parsed, and what [checkNegotiationProgress] makes of it. *)
Definition cancelVerdict : list (jsstring * JsValue) :=
  [ (lit "shouldCancel", JBool true);
    (lit "showWarning", JBool true);
    (lit "reason", JStr (lit "We are too far apart.")) ].

Definition markedVerdict : JsValue :=
  JObj [ (lit "shouldCancel", JBool true);
         (lit "showWarning", JBool true);
         (lit "reason", JStr (marker ++ lit "We are too far apart.")) ].

(** A service that answers the board prompt for [acme] with an empty
    object and rejects every other request, and a world with a key in
    front of it. *)
Definition overloaded : Reply :=
  Rejected (ServiceError (lit "The model is overloaded. Please try again later.")).

Definition boardOnly : World :=
  {| VITE_GEMINI_API_KEY := Some someKey;
     service := fun _ req =>
       match contents_parts req with
       | [TextPart prompt] =>
           if eqb prompt (boardPrompt acme) then Response (Some (lit "{}"))
           else overloaded
       | _ => overloaded
       end |}.

End Scenarios.
Import Scenarios.

(** ** More vocabulary: what is logged, how a request is addressed *)

Module Logs.

(** The console errors among the events. *)
Definition consoleErrors (t : list Event) : list (jsstring * JsError) :=
  flat_map (fun ev =>
              match ev with
              | ServiceCall _ _ => []
              | ConsoleError label e => [(label, e)]
              end) t.

(** A request as every entry point sends it: to the one model, asking for
    JSON. *)
Definition wellAddressed (key : jsstring)
           (call : jsstring * GenerateContentParameters) : Prop :=
  fst call = key
  /\ model (snd call) = modelId
  /\ responseMimeType (config (snd call)) = lit "application/json".

End Logs.
Import Logs.

(** ** The chat transcript *)

Module Transcript.

(** A chat message as the negotiation screen keeps it: a role and a text. *)
Definition chat (m : jsstring * jsstring) : JsValue :=
  JObj [ (lit "role", JStr (fst m)); (lit "text", JStr (snd m)) ].

(** Its line in the conversation text. *)
Definition spoken (m : jsstring * jsstring) : jsstring :=
  (if eqb (fst m) (lit "user") then lit "Founder" else lit "VC")
    ++ lit ": " ++ snd m.

End Transcript.
Import Transcript.

(** ** The board simulator (components/BoardSimulator.tsx) *)

Module BoardSimulator.

(** The [useState] cells.  [scenario] holds whatever
    [startBoardSimulation] returned and [selectedChoice] whatever
    [choice.id] was at the click; both are [null] before.  The types the
    component declares for them ([BoardScenario | null], [string | null])
    are not checked when it runs.

    An id that is an object or an array is compared by identity, which a
    plain value does not show: [selectedAt] keeps the place, among the
    choices of the stored scenario, of the choice whose id
    [selectedChoice] is.  It is lost when another scenario is stored: the
    objects of another response are other objects. *)
Record BoardState := {
  scenario : JsValue;
  isLoading : bool;
  selectedChoice : JsValue;
  selectedAt : option nat;
  showConsequence : bool
}.

Definition initialState : BoardState :=
  {| scenario := JNull; isLoading := true;
     selectedChoice := JNull; selectedAt := None;
     showConsequence := false |}.

Definition setScenario (sim : JsValue) (s : BoardState) : BoardState :=
  {| scenario := sim; isLoading := isLoading s;
     selectedChoice := selectedChoice s; selectedAt := None;
     showConsequence := showConsequence s |}.

Definition setIsLoading (b : bool) (s : BoardState) : BoardState :=
  {| scenario := scenario s; isLoading := b;
     selectedChoice := selectedChoice s; selectedAt := selectedAt s;
     showConsequence := showConsequence s |}.

Definition setSelectedChoice (choiceId : JsValue) (place : nat)
           (s : BoardState) : BoardState :=
  {| scenario := scenario s; isLoading := isLoading s;
     selectedChoice := choiceId; selectedAt := Some place;
     showConsequence := showConsequence s |}.

Definition setShowConsequence (b : bool) (s : BoardState) : BoardState :=
  {| scenario := scenario s; isLoading := isLoading s;
     selectedChoice := selectedChoice s; selectedAt := selectedAt s;
     showConsequence := b |}.

(** [handleChoice(choice.id)], called for the choice at [place]. *)
Definition handleChoice (choiceId : JsValue) (place : nat) (s : BoardState)
  : BoardState :=
  setShowConsequence true (setSelectedChoice choiceId place s).

(** One button of the board: the values it hands to React for its key and
    its texts, and what its attributes and class names come to. *)
Record ChoiceButton := {
  button_id : JsValue;
  button_label : JsValue;
  button_disabled : bool;
  button_selected : bool;
  button_dimmed : bool;
  button_consequence : option JsValue
}.

(** What the component returns: the spinner, the failure line, or the
    board with the three texts of the scenario, its buttons and, maybe,
    the restart button.  What React makes of a text that is no string,
    or of keys that repeat, is React's. *)
Inductive Screen :=
| Spinner
| FailedToLoad
| Board (timeJump title description : JsValue)
        (buttons : list ChoiceButton) (restart : bool).

Definition andThen {A B : Type} (r : Result A) (k : A -> Result B)
  : Result B :=
  match r with
  | Return a => k a
  | Throw e => Throw e
  end.

Definition isNull (v : JsValue) : bool :=
  match v with
  | JNull => true
  | _ => false
  end.

Section WithPlatform.
Context {host : Platform}.
Local Open Scope js_scope.

(** [a === b] on the values of a response.  Two numbers are equal when
    they print the same: the conversion to a string tells the numbers
    apart, but for the two zeros, which are equal, and a JSON text holds
    no NaN.  [same] tells whether an object or an array on both sides is
    one object. *)
Definition strictEq (a b : JsValue) (same : bool) : bool :=
  match a, b with
  | JUndefined, JUndefined => true
  | JNull, JNull => true
  | JBool x, JBool y => Bool.eqb x y
  | JNum x, JNum y => eqb (Number_toString x) (Number_toString y)
  | JStr x, JStr y => eqb x y
  | JArr _, JArr _ => same
  | JObj _, JObj _ => same
  | _, _ => false
  end.

(** One run of the effect: [try { ... } catch (e) { ... } finally { ... }].
    The delay before the call only takes time. *)
Definition loadScenario (analysis : AnalysisResult) (s : BoardState)
  : M BoardState :=
  s <- try_catch
         (sim <- startBoardSimulation analysis ;;
          ret (setScenario sim s))
         (fun e => console_error (lit "Sim failed") e ;; ret s) ;;
  ret (setIsLoading false s).

(** The callback of [scenario.choices.map], for the choice at [place].
    Reading a property of a choice that is [null] or [undefined] throws;
    [id], [label] and [consequence] are names no built-in prototype
    defines. *)
Definition button (s : BoardState) (place : nat) (choice : JsValue)
  : Result ChoiceButton :=
  andThen (getProp choice (lit "id")) (fun id =>
  let isSelected :=
    strictEq (selectedChoice s) id
             (match selectedAt s with
              | Some chosen => Nat.eqb chosen place
              | None => false
              end) in
  let isOtherSelected := negb (isNull (selectedChoice s)) && negb isSelected in
  andThen (getProp choice (lit "label")) (fun label =>
  andThen (if isSelected && showConsequence s
           then andThen (getProp choice (lit "consequence"))
                        (fun consequence => Return (Some consequence))
           else Return None) (fun consequence =>
  Return {| button_id := id;
            button_label := label;
            button_disabled := negb (isNull (selectedChoice s));
            button_selected := isSelected;
            button_dimmed := isOtherSelected;
            button_consequence := consequence |}))).

Fixpoint buttons (s : BoardState) (place : nat) (choices : list JsValue)
  : Result (list ChoiceButton) :=
  match choices with
  | [] => Return []
  | choice :: rest =>
      andThen (button s place choice) (fun b =>
      andThen (buttons s (S place) rest) (fun bs =>
      Return (b :: bs)))
  end.

(** The body of the component after its hooks.  [scenario.choices.map]
    throws a TypeError unless [scenario.choices] is an array: [map] is
    then absent, or a property of the response, which is no function. *)
Definition render (s : BoardState) : Result Screen :=
  if isLoading s then Return Spinner
  else if negb (ToBoolean (scenario s)) then Return FailedToLoad
  else
    andThen (getProp (scenario s) (lit "timeJump")) (fun timeJump =>
    andThen (getProp (scenario s) (lit "title")) (fun title =>
    andThen (getProp (scenario s) (lit "description")) (fun description =>
    andThen (getProp (scenario s) (lit "choices")) (fun choices =>
    match choices with
    | JArr elems =>
        andThen (buttons s 0 elems) (fun bs =>
        Return (Board timeJump title description bs (showConsequence s)))
    | _ => Throw TypeError
    end)))).

(** A click on the [k]-th button of the screen: nothing happens unless the
    button is there and enabled; there is no button when the component
    threw. *)
Definition click (k : nat) (s : BoardState) : option BoardState :=
  match render s with
  | Return (Board _ _ _ bs _) =>
      match nth_error bs k with
      | Some b =>
          if button_disabled b then None
          else Some (handleChoice (button_id b) k s)
      | None => None
      end
  | _ => None
  end.

(** Whether the restart button is on the screen. *)
Definition restartOffered (s : BoardState) : bool :=
  match render s with
  | Return (Board _ _ _ _ restart) => restart
  | _ => false
  end.

End WithPlatform.
End BoardSimulator.

(** ** The committee room (components/CommitteeRoom.tsx) *)

Module CommitteeRoom.

(** The [useState] cells the debate writes, the counter [i] of the
    closure and whether the interval is still set.  An entry of [messages]
    may be [undefined]. *)
Record RoomState := {
  messages : list JsValue;
  isDebating : bool;
  hasVoted : bool;
  i : nat;
  ticking : bool
}.

Definition initialRoom : RoomState :=
  {| messages := []; isDebating := false; hasVoted := false;
     i := 0; ticking := false |}.

Section WithPlatform.
Context {host : Platform}.
Local Open Scope js_scope.

(** [startDebate] up to [setInterval]: the new state and the value the
    interval will go through. *)
Definition startDebate (analysis : AnalysisResult) (s : RoomState)
  : M (RoomState * option JsValue) :=
  let s := {| messages := messages s; isDebating := true;
              hasVoted := hasVoted s; i := i s; ticking := ticking s |} in
  try_catch
    (debateMessages <- startCommitteeDebate analysis ;;
     ret ({| messages := messages s; isDebating := isDebating s;
             hasVoted := hasVoted s; i := 0; ticking := true |},
          Some debateMessages))
    (fun e =>
       console_error (lit "Debate failed") e ;;
       ret ({| messages := messages s; isDebating := false;
               hasVoted := hasVoted s; i := i s; ticking := ticking s |},
            None)).

End WithPlatform.

Section Interval.

(** The value of [i] that the updater [prev => [...prev, debateMessages[i]]]
    finds when React runs it: the one of its tick when React runs it at
    once, the next one when React runs it at the next render. *)
Variable readAt : nat -> nat.

(** One firing of the interval over an array of messages. *)
Definition tick (debateMessages : list JsValue) (s : RoomState) : RoomState :=
  if negb (ticking s) then s
  else if Nat.leb (List.length debateMessages) (i s) then
    {| messages := messages s; isDebating := false; hasVoted := true;
       i := i s; ticking := false |}
  else
    {| messages := messages s
                     ++ [match nth_error debateMessages (readAt (i s)) with
                         | Some m => m
                         | None => JUndefined
                         end];
       isDebating := isDebating s; hasVoted := hasVoted s;
       i := S (i s); ticking := true |}.

Fixpoint ticks (n : nat) (debateMessages : list JsValue) (s : RoomState)
  : RoomState :=
  match n with
  | O => s
  | S n' => ticks n' debateMessages (tick debateMessages s)
  end.

End Interval.
End CommitteeRoom.

(** ** More inputs to run the module and the components on *)

Module Runs.
Import BoardSimulator CommitteeRoom.

(** A file whose reader gives a text that is no data URL. *)
Definition oddFile : File :=
  {| file_type := lit "text/plain"; file_dataURL := Some (lit "no data url") |}.

(** An analysis that differs from [acme] by its metrics only. *)
Definition acmeReassessed : AnalysisResult :=
  {| score := score acme;
     companyName := companyName acme;
     summary := summary acme;
     pros := pros acme;
     cons := cons acme;
     metrics := {| marketSize := None;
                   scalability := Some (lit "Poor");
                   innovation := Some (lit "None") |} |}.

(** A scenario with two choices, as a response text and as a value. *)
Definition crisisText : jsstring :=
  tpl "{^id^: ^scenario_1^, ^title^: ^The Free Rival^, ^description^: ^A competitor gives shovels away.^, ^timeJump^: ^18 Months Later^, ^choices^: [{^id^: ^A^, ^label^: ^Cut prices^, ^consequence^: ^Margins vanish.^}, {^id^: ^B^, ^label^: ^Go upmarket^, ^consequence^: ^Fewer, richer clients.^}]}".

Definition crisis : JsValue :=
  JObj [ (lit "id", JStr (lit "scenario_1"));
         (lit "title", JStr (lit "The Free Rival"));
         (lit "description", JStr (lit "A competitor gives shovels away."));
         (lit "timeJump", JStr (lit "18 Months Later"));
         (lit "choices",
          JArr [ JObj [ (lit "id", JStr (lit "A"));
                        (lit "label", JStr (lit "Cut prices"));
                        (lit "consequence", JStr (lit "Margins vanish.")) ];
                 JObj [ (lit "id", JStr (lit "B"));
                        (lit "label", JStr (lit "Go upmarket"));
                        (lit "consequence",
                         JStr (lit "Fewer, richer clients.")) ] ]) ].

(** The board once that scenario is loaded, and once B is chosen. *)
Definition crisisBoard : BoardState :=
  {| scenario := crisis; isLoading := false;
     selectedChoice := JNull; selectedAt := None;
     showConsequence := false |}.

Definition crisisDecided : BoardState :=
  {| scenario := crisis; isLoading := false;
     selectedChoice := JStr (lit "B"); selectedAt := Some 1;
     showConsequence := true |}.

(** A response whose choices have [null] for an id, the board once it is
    loaded, and once its second choice is clicked. *)
Definition nameless : JsValue :=
  JObj [ (lit "id", JStr (lit "scenario_2"));
         (lit "title", JStr (lit "The Audit"));
         (lit "description", JStr (lit "The books do not add up."));
         (lit "timeJump", JStr (lit "18 Months Later"));
         (lit "choices",
          JArr [ JObj [ (lit "id", JNull);
                        (lit "label", JStr (lit "Come clean"));
                        (lit "consequence", JStr (lit "The board resigns.")) ];
                 JObj [ (lit "id", JNull);
                        (lit "label", JStr (lit "Wait"));
                        (lit "consequence",
                         JStr (lit "The auditors do not.")) ] ]) ].

Definition namelessBoard : BoardState :=
  {| scenario := nameless; isLoading := false;
     selectedChoice := JNull; selectedAt := None;
     showConsequence := false |}.

Definition namelessClicked : BoardState :=
  {| scenario := nameless; isLoading := false;
     selectedChoice := JNull; selectedAt := Some 1;
     showConsequence := true |}.

(** A service that has no text for the due diligence of [acme] and an
    empty object for every other request, behind a key. *)
Definition muteOnDueDiligence : World :=
  {| VITE_GEMINI_API_KEY := Some someKey;
     service := fun _ req =>
       match contents_parts req with
       | [TextPart prompt] =>
           if eqb prompt (dueDiligencePrompt pitchNotes acme)
           then Response None
           else Response (Some (lit "{}"))
       | _ => Response (Some (lit "{}"))
       end |}.

(** Three committee messages, and the room when the interval is set. *)
Definition committeeMessage (agentId text : string) : JsValue :=
  JObj [ (lit "id", JStr (lit agentId));
         (lit "agentId", JStr (lit agentId));
         (lit "text", JStr (lit text)) ].

Definition debate : list JsValue :=
  [ committeeMessage "tech" "Is this more than a wrapper?";
    committeeMessage "risk" "The burn rate worries me.";
    committeeMessage "vision" "Everybody digs." ].

Definition roomAtStart : RoomState :=
  {| messages := []; isDebating := true; hasVoted := false;
     i := 0; ticking := true |}.

(** React running every updater at once, or every updater late. *)
Definition atOnce (n : nat) : nat := n.
Definition atNextRender (n : nat) : nat := S n.

End Runs.
Import Runs.

(** ** Facts about the platform layer *)

Module JsFacts.

(** [tpl] writes the double quotes of a template. *)
Lemma tpl_quotes : tpl "^id^: ^A^" = [34; 105; 100; 34; 58; 32; 34; 65; 34]%N.
Proof. reflexivity. Qed.

Lemma eqb_eq (s t : jsstring) : eqb s t = true <-> s = t.
Proof.
  revert t; induction s as [|c s IH]; intros [|d t]; simpl;
    try (split; congruence).
  rewrite andb_true_iff, N.eqb_eq, IH.
  split; [intros [-> ->]; reflexivity | intros [= -> ->]; auto].
Qed.

Lemma eqb_refl (s : jsstring) : eqb s s = true.
Proof. apply eqb_eq; reflexivity. Qed.

Lemma eqb_neq (s t : jsstring) : eqb s t = false <-> s <> t.
Proof.
  rewrite <- eqb_eq. destruct (eqb s t); split; congruence.
Qed.

Lemma nonEmpty_true (s : jsstring) : nonEmpty s = true <-> s <> [].
Proof.
  unfold nonEmpty. rewrite negb_true_iff. apply eqb_neq.
Qed.

Lemma nonEmpty_false (s : jsstring) : nonEmpty s = false <-> s = [].
Proof.
  unfold nonEmpty. rewrite negb_false_iff. apply eqb_eq.
Qed.

(** Assigning a property leaves every other one as it was... *)
Lemma lookup_update_other k k' v props :
  k' <> k -> lookup k' (update k v props) = lookup k' props.
Proof.
  intros Hneq. induction props as [|[k0 v0] rest IH]; simpl.
  - destruct (eqb k k') eqn:E; [apply eqb_eq in E; congruence | reflexivity].
  - destruct (eqb k0 k) eqn:E; simpl.
    + apply eqb_eq in E; subst k0.
      destruct (eqb k k') eqn:E'; [apply eqb_eq in E'; congruence | reflexivity].
    + destruct (eqb k0 k'); [reflexivity | exact IH].
Qed.

(** ... and reads back what was assigned. *)
Lemma lookup_update_same k v props :
  lookup k (update k v props) = Some v.
Proof.
  induction props as [|[k0 v0] rest IH]; simpl.
  - now rewrite eqb_refl.
  - destruct (eqb k0 k) eqn:E; simpl; rewrite E; [reflexivity | exact IH].
Qed.

(** The keys keep their places. *)
Lemma update_keys k v props x :
  lookup k props = Some x -> map fst (update k v props) = map fst props.
Proof.
  induction props as [|[k0 v0] rest IH]; simpl; [discriminate|].
  destruct (eqb k0 k); simpl; [reflexivity|].
  intros H; now rewrite IH.
Qed.

(** [slice(-n)] of a list that ends with [n] elements gives them. *)
Lemma slice_last_app {A} (pre tail : list A) :
  slice_last (List.length tail) (pre ++ tail) = tail.
Proof.
  unfold slice_last. rewrite length_app.
  replace (List.length pre + List.length tail - List.length tail)%nat
    with (List.length pre + 0)%nat by lia.
  rewrite skipn_app, Nat.add_0_r, skipn_all.
  replace (List.length pre - List.length pre)%nat with 0%nat by lia.
  reflexivity.
Qed.

Lemma slice_last_short {A} n (xs : list A) :
  (List.length xs <= n)%nat -> slice_last n xs = xs.
Proof.
  intros H. unfold slice_last.
  replace (List.length xs - n)%nat with 0%nat by lia. reflexivity.
Qed.

Section WithPlatform.
Context {host : Platform}.

(** Only an object has a truthy property of the names the module reads:
    the assignment of [formatVerdict] is reached on objects only. *)
Lemma assignment_only_on_objects v k x :
  getProp v k = Return x -> ToBoolean x = true ->
  exists props, v = JObj props /\ lookup k props = Some x.
Proof.
  destruct v; simpl; try discriminate;
    try (intros [= <-]; simpl; discriminate).
  destruct (lookup k props) eqn:E.
  - intros [= <-] _. eauto.
  - intros [= <-]; simpl; discriminate.
Qed.

End WithPlatform.
End JsFacts.
Import JsFacts.

(** ** Facts about the reference platform *)

Module ReferenceFacts.
Import Reference.

Lemma skipWhitespace_length s : List.length (skipWhitespace s) <= List.length s.
Proof.
  induction s as [|c s IH]; simpl; [lia|].
  destruct (isWhitespace c); simpl; lia.
Qed.

Lemma expect_length c s r : expect c s = Some r -> List.length r < List.length s.
Proof.
  unfold expect. pose proof (skipWhitespace_length s) as H.
  destruct (skipWhitespace s) as [|d rest]; [discriminate|].
  destruct (N.eqb d c); [|discriminate].
  intros [= <-]. simpl in H. lia.
Qed.

Lemma after_length c s r : after c s = Some r -> List.length s = S (List.length r).
Proof.
  unfold after. destruct s as [|d rest]; [discriminate|].
  destruct (N.eqb d c); [|discriminate]. now intros [= <-].
Qed.

Lemma consTo_length c p x r bound :
  (forall y q, p = Some (y, q) -> List.length q < bound) ->
  consTo c p = Some (x, r) -> List.length r < bound.
Proof.
  intros H. destruct p as [[y q]|]; [|discriminate].
  intros [= _ <-]. eapply H. reflexivity.
Qed.

Lemma parseChars_length s x r :
  parseChars s = Some (x, r) -> List.length r < List.length s.
Proof.
  remember (List.length s) as n eqn:Hn. revert s Hn x r.
  induction n as [n IH] using lt_wf_ind. intros s -> x r.
  assert (Hrec : forall q y t,
             List.length q < List.length s -> parseChars q = Some (y, t) ->
             List.length t < List.length s).
  { intros q y t Hq Hp. apply (IH _ Hq q eq_refl) in Hp. lia. }
  clear IH. revert Hrec.
  destruct s as [|c s1]; [discriminate|]. cbn [parseChars]. intros Hrec.
  destruct (N.eqb c 34). { intros [= _ <-]. simpl. lia. }
  destruct (N.eqb c 92).
  - destruct s1 as [|e s2]; [discriminate|].
    destruct (N.eqb e 117).
    + destruct s2 as [|h1 [|h2 [|h3 [|h4 s6]]]]; try discriminate.
      destruct (hex4 h1 h2 h3 h4); [|discriminate].
      apply consTo_length. intros y q Hq.
      apply Hrec in Hq; [exact Hq | simpl; lia].
    + destruct (unescape e); [|discriminate].
      apply consTo_length. intros y q Hq.
      apply Hrec in Hq; [exact Hq | simpl; lia].
  - destruct (N.ltb c 32); [discriminate|].
    apply consTo_length. intros y q Hq.
    apply Hrec in Hq; [exact Hq | simpl; lia].
Qed.

Lemma takeDigits_length s : forall acc k v r,
  takeDigits acc s = (k, v, r) -> List.length s = k + List.length r.
Proof.
  induction s as [|c s IH]; intros acc k v r; cbn [takeDigits].
  - intros [= <- _ <-]. reflexivity.
  - destruct (isDigit c).
    + destruct (takeDigits (acc * 10 + (c - 48)) s) as [[k' v'] r'] eqn:E.
      intros [= <- _ <-]. apply IH in E. simpl. lia.
    + intros [= <- _ <-]. reflexivity.
Qed.

Lemma parseFraction_length int s k v r :
  parseFraction int s = Some (k, v, r) -> List.length r <= List.length s.
Proof.
  unfold parseFraction. destruct (after 46%N s) as [s1|] eqn:E.
  - destruct (takeDigits int s1) as [[k' v'] r'] eqn:D.
    destruct (Nat.eqb k' 0); [discriminate|].
    intros [= _ _ <-]. apply after_length in E. apply takeDigits_length in D.
    lia.
  - intros [= _ _ <-]. lia.
Qed.

Lemma parseExponent_length s e r :
  parseExponent s = Some (e, r) -> List.length r <= List.length s.
Proof.
  unfold parseExponent.
  assert (Hmark : forall m,
             match after 101%N s with Some r0 => Some r0 | None => after 69%N s end
             = Some m -> List.length s = S (List.length m)).
  { intros m. destruct (after 101%N s) eqn:E1.
    - intros [= <-]. now apply after_length in E1.
    - intros E2. now apply after_length in E2. }
  destruct (match after 101%N s with Some r0 => Some r0 | None => after 69%N s end)
    as [m|]; [|intros [= _ <-]; lia].
  specialize (Hmark m eq_refl).
  assert (Hsign : forall b r1,
             match after 45%N m with
             | Some r' => (true, r')
             | None => match after 43%N m with
                       | Some r' => (false, r')
                       | None => (false, m)
                       end
             end = (b, r1) -> List.length r1 <= List.length m).
  { intros b r1. destruct (after 45%N m) eqn:E1.
    - intros [= _ <-]. apply after_length in E1. lia.
    - destruct (after 43%N m) eqn:E2.
      + intros [= _ <-]. apply after_length in E2. lia.
      + intros [= _ <-]. lia. }
  destruct (match after 45%N m with
            | Some r' => (true, r')
            | None => match after 43%N m with
                      | Some r' => (false, r')
                      | None => (false, m)
                      end
            end) as [b r1].
  specialize (Hsign b r1 eq_refl).
  destruct (takeDigits 0 r1) as [[k v] r'] eqn:D.
  destruct (Nat.eqb k 0); [discriminate|].
  intros [= _ <-]. apply takeDigits_length in D. lia.
Qed.

Lemma parseNumber_length s n r :
  parseNumber s = Some (n, r) -> List.length r < List.length s.
Proof.
  unfold parseNumber.
  assert (Hsign : forall b s1,
             match after 45%N s with Some r0 => (true, r0) | None => (false, s) end
             = (b, s1) -> List.length s1 <= List.length s).
  { intros b s1. destruct (after 45%N s) eqn:E.
    - intros [= _ <-]. apply after_length in E. lia.
    - intros [= _ <-]. lia. }
  destruct (match after 45%N s with Some r0 => (true, r0) | None => (false, s) end)
    as [b s1].
  specialize (Hsign b s1 eq_refl).
  destruct (takeDigits 0 s1) as [[k int] s2] eqn:D.
  apply takeDigits_length in D.
  destruct (Nat.eqb k 0) eqn:K; [discriminate|]. cbn [orb].
  apply Nat.eqb_neq in K.
  destruct (startsWith 48%N s1 && negb (Nat.eqb k 1)); [discriminate|].
  destruct (parseFraction int s2) as [[[kf mant] s3]|] eqn:F; [|discriminate].
  destruct (parseExponent s3) as [[e s4]|] eqn:X; [|discriminate].
  intros [= _ <-].
  apply parseFraction_length in F. apply parseExponent_length in X. lia.
Qed.

Lemma keyword_length word v s x r :
  word <> [] -> keyword word v s = Ok x r -> List.length r < List.length s.
Proof.
  intros Hword. unfold keyword.
  destruct (eqb (firstn (List.length word) s) word) eqn:E; [|discriminate].
  intros [= _ <-].
  assert (Hlen : List.length (firstn (List.length word) s) = List.length word).
  { clear Hword. revert s E. induction word as [|c w IH]; intros [|d s];
      simpl; try discriminate; auto.
    intros E. apply andb_true_iff in E as [_ E]. f_equal. now apply IH. }
  rewrite length_firstn in Hlen. rewrite length_skipn.
  assert (0 < List.length word) by (destruct word; [congruence | simpl; lia]).
  lia.
Qed.

(** A parsed value takes at least one character. *)
Lemma parse_progress fuel :
  (forall s v r, parseValue fuel s = Ok v r -> List.length r < List.length s)
  /\ (forall acc s v r, parseElements fuel acc s = Ok v r -> List.length r < List.length s)
  /\ (forall acc s v r, parseMembers fuel acc s = Ok v r -> List.length r < List.length s).
Proof.
  induction fuel as [|fuel (IHv & IHe & IHm)].
  - repeat split; discriminate.
  - split; [|split].
    + intros s v r. cbn [parseValue].
      pose proof (skipWhitespace_length s) as Hws.
      destruct (skipWhitespace s) as [|c s1]; [discriminate|]. simpl in Hws.
      destruct (N.eqb c 123).
      { destruct (expect 125%N s1) as [s2|] eqn:E.
        - intros [= _ <-]. apply expect_length in E. lia.
        - intros H. apply IHm in H. lia. }
      destruct (N.eqb c 91).
      { destruct (expect 93%N s1) as [s2|] eqn:E.
        - intros [= _ <-]. apply expect_length in E. lia.
        - intros H. apply IHe in H. lia. }
      destruct (N.eqb c 34).
      { destruct (parseChars s1) as [[str s2]|] eqn:E; [|discriminate].
        intros [= _ <-]. apply parseChars_length in E. lia. }
      destruct (N.eqb c 116).
      { intros H. apply keyword_length in H; [simpl in H; lia | discriminate]. }
      destruct (N.eqb c 102).
      { intros H. apply keyword_length in H; [simpl in H; lia | discriminate]. }
      destruct (N.eqb c 110).
      { intros H. apply keyword_length in H; [simpl in H; lia | discriminate]. }
      destruct (parseNumber (c :: s1)) as [[n s2]|] eqn:E; [|discriminate].
      intros [= _ <-]. apply parseNumber_length in E. simpl in E. lia.
    + intros acc s v r. cbn [parseElements].
      destruct (parseValue fuel s) as [x s1| |] eqn:E; try discriminate.
      apply IHv in E.
      destruct (expect 44%N s1) as [s2|] eqn:E1.
      { intros H. apply IHe in H. apply expect_length in E1. lia. }
      destruct (expect 93%N s1) as [s2|] eqn:E2; [|discriminate].
      intros [= _ <-]. apply expect_length in E2. lia.
    + intros acc s v r. cbn [parseMembers].
      destruct (expect 34%N s) as [s1|] eqn:E1; [|discriminate].
      destruct (parseChars s1) as [[key s2]|] eqn:E2; [|discriminate].
      destruct (expect 58%N s2) as [s3|] eqn:E3; [|discriminate].
      destruct (parseValue fuel s3) as [x s4| |] eqn:E4; try discriminate.
      apply expect_length in E1. apply parseChars_length in E2.
      apply expect_length in E3. apply IHv in E4.
      destruct (expect 44%N s4) as [s5|] eqn:E5.
      { intros H. apply IHm in H. apply expect_length in E5. lia. }
      destruct (expect 125%N s4) as [s5|] eqn:E6; [|discriminate].
      intros [= _ <-]. apply expect_length in E6. lia.
Qed.

(** Twice the length of the text is fuel enough. *)
Lemma parse_fuel fuel :
  (forall s, 2 * List.length s < fuel -> parseValue fuel s <> Exhausted)
  /\ (forall acc s, 2 * List.length s + 1 < fuel -> parseElements fuel acc s <> Exhausted)
  /\ (forall acc s, 2 * List.length s + 1 < fuel -> parseMembers fuel acc s <> Exhausted).
Proof.
  induction fuel as [|fuel (IHv & IHe & IHm)].
  - repeat split; intros; lia.
  - split; [|split].
    + intros s Hfuel. cbn [parseValue].
      pose proof (skipWhitespace_length s) as Hws.
      destruct (skipWhitespace s) as [|c s1]; [discriminate|]. simpl in Hws.
      destruct (N.eqb c 123).
      { destruct (expect 125%N s1); [discriminate|]. apply IHm. lia. }
      destruct (N.eqb c 91).
      { destruct (expect 93%N s1); [discriminate|]. apply IHe. lia. }
      destruct (N.eqb c 34).
      { destruct (parseChars s1) as [[str s2]|]; discriminate. }
      unfold keyword.
      destruct (N.eqb c 116). { destruct (eqb _ _); discriminate. }
      destruct (N.eqb c 102). { destruct (eqb _ _); discriminate. }
      destruct (N.eqb c 110). { destruct (eqb _ _); discriminate. }
      destruct (parseNumber (c :: s1)) as [[n s2]|]; discriminate.
    + intros acc s Hfuel. cbn [parseElements].
      destruct (parseValue fuel s) as [x s1| |] eqn:E.
      * apply (proj1 (parse_progress fuel)) in E.
        destruct (expect 44%N s1) as [s2|] eqn:E1.
        { apply IHe. apply expect_length in E1. lia. }
        destruct (expect 93%N s1); discriminate.
      * discriminate.
      * exfalso. revert E. apply IHv. lia.
    + intros acc s Hfuel. cbn [parseMembers].
      destruct (expect 34%N s) as [s1|] eqn:E1; [|discriminate].
      destruct (parseChars s1) as [[key s2]|] eqn:E2; [|discriminate].
      destruct (expect 58%N s2) as [s3|] eqn:E3; [|discriminate].
      apply expect_length in E1. apply parseChars_length in E2.
      apply expect_length in E3.
      destruct (parseValue fuel s3) as [x s4| |] eqn:E4.
      * apply (proj1 (parse_progress fuel)) in E4.
        destruct (expect 44%N s4) as [s5|] eqn:E5.
        { apply IHm. apply expect_length in E5. lia. }
        destruct (expect 125%N s4); discriminate.
      * discriminate.
      * exfalso. revert E4. apply IHv. lia.
Qed.

(** [parseText] never runs out of fuel: when it gives no value, the text
    is malformed or something follows the value. *)
Lemma parseText_fuel text :
  parseValue (S (2 * List.length text)) text <> Exhausted.
Proof. apply parse_fuel. lia. Qed.

Lemma parseText_none text :
  parseText text = None ->
  parseValue (S (2 * List.length text)) text = Malformed
  \/ exists v rest,
       parseValue (S (2 * List.length text)) text = Ok v rest
       /\ skipWhitespace rest <> [].
Proof.
  unfold parseText. pose proof (parseText_fuel text) as Hfuel.
  destruct (parseValue (S (2 * List.length text)) text) as [v rest| |].
  - destruct (skipWhitespace rest) eqn:E; [discriminate|].
    intros _. right. exists v, rest. split; [reflexivity|]. now rewrite E.
  - now left.
  - congruence.
Qed.

End ReferenceFacts.

(** ** Facts about the service module *)

Module ServiceFacts.
Section WithPlatform.
Context {host : Platform}.

Lemma getApiKey_run (w : World) : getApiKey w = (Return (apiKeyOf w), []).
Proof.
  unfold getApiKey, bind, import_meta_env, ret, apiKeyOf. simpl.
  destruct (VITE_GEMINI_API_KEY w) as [k|]; [|reflexivity].
  destruct (nonEmpty k) eqn:E; [reflexivity|].
  apply nonEmpty_false in E. now subst.
Qed.

Lemma bind_getApiKey {A} (k : jsstring -> M A) (w : World) :
  bind getApiKey k w = k (apiKeyOf w) w.
Proof.
  unfold bind. rewrite getApiKey_run. destruct (k (apiKeyOf w) w).
  reflexivity.
Qed.

Ltac run_monad :=
  unfold bind, try_catch, fileToBase64, models_generateContent, ifText, parse,
    console_error, lift, ret, throw.

Ltac on_reply w :=
  match goal with
  | |- context [service w ?k ?r] => destruct (service w k r) as [?e|[?t|]]
  end.

Ltac on_text :=
  try reflexivity;
  match goal with
  | |- context [nonEmpty ?t] =>
      destruct (nonEmpty t); try reflexivity;
      match goal with
      | |- context [JSON_parse t] => destruct (JSON_parse t); try reflexivity
      end
  end.

(** The entry points are their case tables. *)
Lemma analyzeStartupPitch_run w video text file :
  analyzeStartupPitch video text file w = analysisOutcome w video text file.
Proof.
  unfold analyzeStartupPitch, analysisOutcome. rewrite bind_getApiKey.
  destruct (nonEmpty (apiKeyOf w)); cbn [negb]; [|reflexivity].
  unfold pdfParts, videoParts, analysisRequest, usableText, base64Of.
  run_monad.
  destruct file as [f|], video as [g|];
    try destruct (file_dataURL f); try destruct (file_dataURL g);
    cbn [option_map app]; try reflexivity;
    destruct (nonEmpty text); cbn [app client_apiKey];
    on_reply w; on_text.
Qed.

Lemma performDueDiligence_run w pitchText analysis :
  performDueDiligence pitchText analysis w
  = simulationOutcome w (dueDiligencePrompt pitchText analysis)
      (lit "Due Diligence Error") (JArr []) None.
Proof.
  unfold performDueDiligence, simulationOutcome. rewrite bind_getApiKey.
  unfold usableText. run_monad. cbn [client_apiKey].
  on_reply w; on_text.
Qed.

Lemma startCommitteeDebate_run w analysis :
  startCommitteeDebate analysis w
  = simulationOutcome w (committeePrompt analysis)
      (lit "Committee Debate Error") (JArr []) None.
Proof.
  unfold startCommitteeDebate, simulationOutcome. rewrite bind_getApiKey.
  unfold usableText. run_monad. cbn [client_apiKey].
  on_reply w; on_text.
Qed.

Lemma startBoardSimulation_run w analysis :
  startBoardSimulation analysis w
  = simulationOutcome w (boardPrompt analysis)
      (lit "Board Simulation Error") errorScenario (Some (Error (lit "No text"))).
Proof.
  unfold startBoardSimulation, simulationOutcome. rewrite bind_getApiKey.
  unfold usableText. run_monad. cbn [client_apiKey].
  on_reply w; on_text.
Qed.

Lemma speakerLine_run msg w : speakerLine msg w = (lineOf msg, []).
Proof.
  unfold speakerLine, lineOf. run_monad.
  destruct (getProp msg (lit "role")); [|reflexivity].
  destruct (getProp msg (lit "text")); [|reflexivity].
  destruct (ToString a0); reflexivity.
Qed.

Lemma mapM_speakerLine_run msgs w :
  mapM speakerLine msgs w = (linesOf msgs, []).
Proof.
  induction msgs as [|msg rest IH]; [reflexivity|].
  cbn [mapM linesOf]. unfold bind at 1. rewrite speakerLine_run.
  destruct (lineOf msg); [|reflexivity].
  unfold bind. rewrite IH. destruct (linesOf rest); reflexivity.
Qed.

Lemma conversationOf_run messages w :
  conversationOf messages w = (conversationText messages, []).
Proof.
  unfold conversationOf, conversationText, bind.
  rewrite mapM_speakerLine_run.
  destruct (linesOf (slice_last 8 messages)); reflexivity.
Qed.

Lemma formatVerdict_run v w : formatVerdict v w = (verdictOf v, []).
Proof.
  unfold formatVerdict, verdictOf, cancels. run_monad.
  destruct v; try reflexivity. cbn [getProp].
  destruct (lookup (lit "shouldCancel") props) as [c|],
           (lookup (lit "reason") props) as [r|];
    cbn [ToBoolean]; try reflexivity;
    destruct (ToBoolean c) eqn:Ec; cbn [andb ToBoolean]; rewrite ?Ec;
    try reflexivity.
  destruct (ToBoolean r); [|reflexivity].
  destruct (ToString r); reflexivity.
Qed.

Lemma checkNegotiationProgress_run w messages analysis :
  checkNegotiationProgress messages analysis w
  = progressOutcome w messages analysis.
Proof.
  unfold checkNegotiationProgress, progressOutcome. rewrite bind_getApiKey.
  destruct (nonEmpty (apiKeyOf w)); cbn [negb]; [|reflexivity].
  destruct (Nat.ltb (List.length messages) 6); [reflexivity|].
  unfold bind at 1. rewrite conversationOf_run.
  destruct (conversationText messages) as [conversation|]; [|reflexivity].
  unfold usableText. unfold try_catch, bind at 1, models_generateContent, ifText.
  cbn [client_apiKey].
  on_reply w; try reflexivity.
  destruct (nonEmpty t); [|reflexivity].
  unfold bind, parse.
  destruct (JSON_parse t) as [v|]; [|reflexivity].
  cbn [ret]. rewrite formatVerdict_run.
  destruct (verdictOf v); reflexivity.
Qed.

(** The text the callers go on with is a text that is there and not empty. *)
Lemma usableText_some text t :
  usableText text = Some t <-> text = Some t /\ t <> [].
Proof.
  unfold usableText. destruct text as [u|].
  - destruct (nonEmpty u) eqn:E.
    + apply nonEmpty_true in E. split.
      * intros [= ->]. auto.
      * intros [[= ->] _]. reflexivity.
    + apply nonEmpty_false in E. split; [discriminate|].
      intros [[= ->] H]. congruence.
  - split; [discriminate | intros [H _]; discriminate].
Qed.

Lemma usable_parsed t v : JSON_parse t = Some v -> usableText (Some t) = Some t.
Proof.
  intros H. unfold usableText. destruct (nonEmpty t) eqn:E; [reflexivity|].
  apply nonEmpty_false in E. subst. rewrite JSON_parse_empty in H. discriminate.
Qed.

(** A request [analyzeStartupPitch] sends: the key is there, the files
    were read, and the request is the one assembled from them. *)
Lemma analysis_request_inv w video text file key req :
  In (key, req) (requests (trace (analyzeStartupPitch video text file) w)) ->
  apiKeyOf w <> [] /\ key = apiKeyOf w
  /\ exists pp vp, pdfParts file = Some pp /\ videoParts video = Some vp
                   /\ req = analysisRequest text pp vp.
Proof.
  unfold trace. rewrite analyzeStartupPitch_run. unfold analysisOutcome.
  destruct (nonEmpty (apiKeyOf w)) eqn:Hkey; [|intros []].
  apply nonEmpty_true in Hkey.
  destruct (pdfParts file) as [pp|]; [|intros []].
  destruct (videoParts video) as [vp|]; [|intros []].
  intros Hin.
  assert (Heq : (key, req) = (apiKeyOf w, analysisRequest text pp vp)).
  { destruct (service w (apiKeyOf w) (analysisRequest text pp vp)) as [e|txt].
    - destruct Hin as [H|[]]; congruence.
    - destruct (usableText txt) as [t|];
        [destruct (JSON_parse t)|]; destruct Hin as [H|[]]; congruence. }
  injection Heq as -> ->. eauto 10.
Qed.

(** What [analyzeStartupPitch] makes of the reply to its request. *)
Lemma analysis_answered w video text file key req :
  In (key, req) (requests (trace (analyzeStartupPitch video text file) w)) ->
  result (analyzeStartupPitch video text file) w =
    match service w key req with
    | Rejected e => Throw e
    | Response txt =>
        match usableText txt with
        | None => Throw noResponseText
        | Some t =>
            match JSON_parse t with
            | Some v => Return v
            | None => Throw SyntaxError
            end
        end
    end.
Proof.
  intros Hin. destruct (analysis_request_inv _ _ _ _ _ _ Hin)
    as (Hkey & -> & pp & vp & Hp & Hv & ->).
  unfold result. rewrite analyzeStartupPitch_run. unfold analysisOutcome.
  apply nonEmpty_true in Hkey. rewrite Hkey, Hp, Hv. cbv zeta.
  destruct (service w (apiKeyOf w) (analysisRequest text pp vp)) as [e|txt];
    [reflexivity|].
  destruct (usableText txt) as [t|]; [|reflexivity].
  destruct (JSON_parse t); reflexivity.
Qed.

(** With a key and readable files the request is sent. *)
Lemma analysis_sent w video text file pp vp :
  apiKeyOf w <> [] -> pdfParts file = Some pp -> videoParts video = Some vp ->
  In (apiKeyOf w, analysisRequest text pp vp)
     (requests (trace (analyzeStartupPitch video text file) w)).
Proof.
  intros Hkey Hp Hv. unfold trace. rewrite analyzeStartupPitch_run.
  unfold analysisOutcome. apply nonEmpty_true in Hkey. rewrite Hkey, Hp, Hv.
  cbv zeta.
  destruct (service w (apiKeyOf w) (analysisRequest text pp vp)) as [e|txt];
    [left; reflexivity|].
  destruct (usableText txt) as [t|]; [destruct (JSON_parse t)|];
    left; reflexivity.
Qed.

Lemma pdfParts_none file :
  pdfParts file = None <-> exists f, file = Some f /\ file_dataURL f = None.
Proof.
  unfold pdfParts. destruct file as [f|].
  - destruct (file_dataURL f) eqn:E; cbn.
    + split; [discriminate | intros (g & [= <-] & H); congruence].
    + split; eauto.
  - split; [discriminate | intros (g & H & _); discriminate].
Qed.

Lemma videoParts_none file :
  videoParts file = None <-> exists f, file = Some f /\ file_dataURL f = None.
Proof.
  unfold videoParts. destruct file as [f|].
  - destruct (file_dataURL f) eqn:E; cbn.
    + split; [discriminate | intros (g & [= <-] & H); congruence].
    + split; eauto.
  - split; [discriminate | intros (g & H & _); discriminate].
Qed.

(** A value the analysis schema admits reads as an [AnalysisResult]. *)
Lemma asStrings_conforming (vs : list JsValue) :
  forallb (conforms (leaf STRING None)) vs = true ->
  exists ss, asStrings vs = Some ss /\ vs = map JStr ss.
Proof.
  induction vs as [|v rest IH]; cbn [forallb asStrings].
  - exists []. auto.
  - rewrite andb_true_iff. intros [Hv Hrest].
    destruct v; try discriminate Hv.
    destruct (IH Hrest) as (ss & -> & ->).
    exists (s :: ss). auto.
Qed.

Lemma asOptionalString_conforming props k d :
  match lookup k props with
  | Some x => conforms (leaf STRING d) x
  | None => true
  end = true ->
  exists o, asOptionalString (lookup k props) = Some o.
Proof.
  destruct (lookup k props) as [x|]; cbn.
  - destruct x; try discriminate. eauto.
  - eauto.
Qed.

Lemma conforming_analysis v :
  conforms analysisSchema v = true ->
  exists r m,
    asAnalysisResult v = Some r
    /\ getProp v (lit "score") = Return (JNum (score r))
    /\ getProp v (lit "companyName") = Return (JStr (companyName r))
    /\ getProp v (lit "summary") = Return (JStr (summary r))
    /\ getProp v (lit "pros") = Return (JArr (map JStr (pros r)))
    /\ getProp v (lit "cons") = Return (JArr (map JStr (cons r)))
    /\ getProp v (lit "metrics") = Return (JObj m)
    /\ asMetrics (JObj m) = Some (metrics r).
Proof.
  destruct v; try discriminate.
  unfold analysisSchema. cbn [conforms forallb].
  rewrite !andb_true_iff.
  intros (Hreq & Hscore & Hname & Hsummary & Hpros & Hcons & Hmetrics & _).
  revert Hreq Hscore Hname Hsummary Hpros Hcons Hmetrics.
  unfold asAnalysisResult. cbn [getProp].
  destruct (lookup (lit "score") props) as [[]|]; try (intuition discriminate).
  destruct (lookup (lit "companyName") props) as [[]|]; try (intuition discriminate).
  destruct (lookup (lit "summary") props) as [[]|]; try (intuition discriminate).
  destruct (lookup (lit "pros") props) as [[]|]; try (intuition discriminate).
  destruct (lookup (lit "cons") props) as [[]|]; try (intuition discriminate).
  destruct (lookup (lit "metrics") props) as [[]|]; try (intuition discriminate).
  intros _ _ _ _ Hpros Hcons Hmetrics.
  destruct (asStrings_conforming _ Hpros) as (ps & -> & ->).
  destruct (asStrings_conforming _ Hcons) as (cs & -> & ->).
  rewrite !andb_true_iff in Hmetrics.
  destruct Hmetrics as (_ & Hm & Hs & Hi & _).
  destruct (asOptionalString_conforming _ _ _ Hm) as (a & Ha).
  destruct (asOptionalString_conforming _ _ _ Hs) as (b & Hb).
  destruct (asOptionalString_conforming _ _ _ Hi) as (c & Hc).
  unfold asMetrics. rewrite Ha, Hb, Hc.
  eexists; exists props0. split; [reflexivity|]. cbn [score companyName summary pros cons metrics].
  repeat (split; [reflexivity|]). cbn [asMetrics]. now rewrite Ha, Hb, Hc.
Qed.

(** A simulation never throws, and falls back when the reply is of no use. *)
Lemma simulation_returns w prompt label fallback onNoText :
  exists v, fst (simulationOutcome w prompt label fallback onNoText) = Return v.
Proof.
  unfold simulationOutcome. cbv zeta.
  destruct (service w (apiKeyOf w) (promptRequest prompt)) as [e|txt];
    [eexists; reflexivity|].
  destruct (usableText txt) as [t|].
  - destruct (JSON_parse t); eexists; reflexivity.
  - destruct onNoText; eexists; reflexivity.
Qed.

Lemma unusable_text txt :
  unusable (Response txt) ->
  match usableText txt with
  | Some t => JSON_parse t = None
  | None => True
  end.
Proof.
  destruct txt as [t|]; cbn; [|trivial].
  destruct (nonEmpty t); trivial.
Qed.

Lemma simulation_falls_back w prompt label fallback onNoText :
  (forall k p, unusable (service w k p)) ->
  fst (simulationOutcome w prompt label fallback onNoText) = Return fallback.
Proof.
  intros Hbad. unfold simulationOutcome. cbv zeta.
  specialize (Hbad (apiKeyOf w) (promptRequest prompt)).
  destruct (service w (apiKeyOf w) (promptRequest prompt)) as [e|txt];
    [reflexivity|].
  apply unusable_text in Hbad.
  destruct (usableText txt) as [t|].
  - now rewrite Hbad.
  - destruct onNoText; reflexivity.
Qed.

(** A chat message, an object with a string for [role] and for [text],
    can be rendered. *)
Lemma chat_message_speakable (role text : jsstring) :
  speakable (JObj [(lit "role", JStr role); (lit "text", JStr text)]) = true.
Proof. reflexivity. Qed.

(** Messages that can be rendered give a conversation text. *)
Lemma speakable_line msg :
  speakable msg = true -> exists l, lineOf msg = Return l.
Proof.
  unfold speakable, lineOf.
  destruct (getProp msg (lit "role")); [|discriminate].
  destruct (getProp msg (lit "text")); [|discriminate].
  destruct (ToString a0); [eauto | discriminate].
Qed.

Lemma speakable_lines msgs :
  Forall (fun msg => speakable msg = true) msgs ->
  exists ls, linesOf msgs = Return ls.
Proof.
  induction 1 as [|msg rest Hmsg _ IH]; cbn [linesOf]; [eauto|].
  destruct (speakable_line _ Hmsg) as (l & ->).
  destruct IH as (ls & ->). eauto.
Qed.

Lemma speakable_conversation messages :
  Forall (fun msg => speakable msg = true) (slice_last 8 messages) ->
  exists conversation, conversationText messages = Return conversation.
Proof.
  intros H. unfold conversationText.
  destruct (speakable_lines _ H) as (ls & ->). eauto.
Qed.

Lemma progress_returns w messages analysis :
  Forall (fun msg => speakable msg = true) (slice_last 8 messages) ->
  exists v, fst (progressOutcome w messages analysis) = Return v.
Proof.
  intros Hmsgs. unfold progressOutcome. cbv zeta.
  destruct (nonEmpty (apiKeyOf w)); [|eexists; reflexivity].
  destruct (Nat.ltb (List.length messages) 6); [eexists; reflexivity|].
  destruct (speakable_conversation _ Hmsgs) as (conversation & ->).
  destruct (service w (apiKeyOf w)
              (promptRequest (progressPrompt analysis conversation)))
    as [e|txt]; [eexists; reflexivity|].
  destruct (usableText txt) as [t|]; [|eexists; reflexivity].
  destruct (JSON_parse t) as [v|]; [|eexists; reflexivity].
  destruct (verdictOf v); eexists; reflexivity.
Qed.

Lemma progress_falls_back w messages analysis :
  Forall (fun msg => speakable msg = true) (slice_last 8 messages) ->
  (forall k p, unusable (service w k p)) ->
  fst (progressOutcome w messages analysis) = Return noVerdict.
Proof.
  intros Hmsgs Hbad. unfold progressOutcome. cbv zeta.
  destruct (nonEmpty (apiKeyOf w)); [|reflexivity].
  destruct (Nat.ltb (List.length messages) 6); [reflexivity|].
  destruct (speakable_conversation _ Hmsgs) as (conversation & ->).
  specialize (Hbad (apiKeyOf w)
                (promptRequest (progressPrompt analysis conversation))).
  destruct (service w (apiKeyOf w)
              (promptRequest (progressPrompt analysis conversation)))
    as [e|txt]; [reflexivity|].
  apply unusable_text in Hbad.
  destruct (usableText txt) as [t|]; [|reflexivity].
  now rewrite Hbad.
Qed.

Lemma key_absent w : result getApiKey w = Return [] <-> apiKeyOf w = [].
Proof.
  unfold result. rewrite getApiKey_run. cbn.
  split; [intros [= ->] | intros ->]; reflexivity.
Qed.

Lemma simulation_requests w prompt label fallback onNoText :
  requests (snd (simulationOutcome w prompt label fallback onNoText))
  = [(apiKeyOf w, promptRequest prompt)].
Proof.
  unfold simulationOutcome. cbv zeta.
  destruct (service w (apiKeyOf w) (promptRequest prompt)) as [e|txt];
    [reflexivity|].
  destruct (usableText txt) as [t|].
  - destruct (JSON_parse t); reflexivity.
  - destruct onNoText; reflexivity.
Qed.

(** What [checkNegotiationProgress] makes of the reply to its request. *)
Lemma progress_answered w messages analysis key req :
  In (key, req)
     (requests (trace (checkNegotiationProgress messages analysis) w)) ->
  result (checkNegotiationProgress messages analysis) w =
    match service w key req with
    | Rejected _ => Return noVerdict
    | Response txt =>
        match usableText txt with
        | None => Return noVerdict
        | Some t =>
            match JSON_parse t with
            | None => Return noVerdict
            | Some v =>
                match verdictOf v with
                | Return v' => Return v'
                | Throw _ => Return noVerdict
                end
            end
        end
    end.
Proof.
  unfold result, trace. rewrite checkNegotiationProgress_run.
  unfold progressOutcome. cbv zeta.
  destruct (nonEmpty (apiKeyOf w)); [|intros []].
  destruct (Nat.ltb (List.length messages) 6); [intros []|].
  destruct (conversationText messages) as [conversation|]; [|intros []].
  set (r := promptRequest (progressPrompt analysis conversation)).
  intros Hin.
  assert (Heq : (key, req) = (apiKeyOf w, r)).
  { destruct (service w (apiKeyOf w) r) as [e|txt].
    - destruct Hin as [H|[]]; congruence.
    - destruct (usableText txt) as [t|];
        [destruct (JSON_parse t) as [v|]; [destruct (verdictOf v)|]|];
        destruct Hin as [H|[]]; congruence. }
  injection Heq as -> ->.
  destruct (service w (apiKeyOf w) r) as [e|txt]; [reflexivity|].
  destruct (usableText txt) as [t|]; [|reflexivity].
  destruct (JSON_parse t) as [v|]; [|reflexivity].
  destruct (verdictOf v); reflexivity.
Qed.

(** The same, call by call: a simulation falls back when the reply to the
    request it sent is of no use, whatever the service would have answered
    to another request. *)
Lemma simulation_call_falls_back w prompt label fallback onNoText key req :
  In (key, req)
     (requests (snd (simulationOutcome w prompt label fallback onNoText))) ->
  unusable (service w key req) ->
  fst (simulationOutcome w prompt label fallback onNoText) = Return fallback.
Proof.
  rewrite simulation_requests. intros [[= <- <-]|[]] Hbad.
  unfold simulationOutcome. cbv zeta.
  destruct (service w (apiKeyOf w) (promptRequest prompt)) as [e|txt];
    [reflexivity|].
  apply unusable_text in Hbad.
  destruct (usableText txt) as [t|].
  - now rewrite Hbad.
  - destruct onNoText; reflexivity.
Qed.

Lemma progress_call_falls_back w messages analysis key req :
  In (key, req)
     (requests (trace (checkNegotiationProgress messages analysis) w)) ->
  unusable (service w key req) ->
  result (checkNegotiationProgress messages analysis) w = Return noVerdict.
Proof.
  intros Hin Hbad. rewrite (progress_answered _ _ _ _ _ Hin).
  destruct (service w key req) as [e|txt]; [reflexivity|].
  apply unusable_text in Hbad.
  destruct (usableText txt) as [t|]; [|reflexivity].
  now rewrite Hbad.
Qed.

(** Without a request, the progress check gives the default verdict. *)
Lemma progress_silent w messages analysis :
  Forall (fun msg => speakable msg = true) (slice_last 8 messages) ->
  requests (snd (progressOutcome w messages analysis)) = [] ->
  fst (progressOutcome w messages analysis) = Return noVerdict.
Proof.
  intros Hmsgs. unfold progressOutcome. cbv zeta.
  destruct (nonEmpty (apiKeyOf w)); [|reflexivity].
  destruct (Nat.ltb (List.length messages) 6); [reflexivity|].
  destruct (speakable_conversation _ Hmsgs) as (conversation & ->).
  destruct (service w (apiKeyOf w)
              (promptRequest (progressPrompt analysis conversation)))
    as [e|txt]; [discriminate|].
  destruct (usableText txt) as [t|]; [|discriminate].
  destruct (JSON_parse t) as [v|]; [|discriminate].
  destruct (verdictOf v); discriminate.
Qed.

End WithPlatform.
End ServiceFacts.
Import ServiceFacts.

(** ** The properties *)

(** *** Missing API key *)

(** C1, as the code has it.  When the API key is absent ([getApiKey]
    returns the empty string), [analyzeStartupPitch] and
    [createNegotiationSession] throw the configuration error
    "Gemini API Key is missing. Please check your environment
    configuration." and [checkNegotiationProgress] returns the default
    verdict [{ shouldCancel: false, showWarning: false, reason: "" }];
    none of the three hands a request to the service or logs anything. *)
Theorem C1_guarded_entry_points_without_key :
  forall (host : Platform) (w : World) (videoFile : option File)
         (reportText : jsstring) (reportFile : option File)
         (initialContext : jsstring) (messages : list JsValue)
         (analysis : AnalysisResult),
    result getApiKey w = Return [] ->
    analyzeStartupPitch videoFile reportText reportFile w
      = (Throw missingKey, [])
    /\ createNegotiationSession initialContext w = (Throw missingKey, [])
    /\ checkNegotiationProgress messages analysis w = (Return noVerdict, []).
Proof.
  intros host w videoFile reportText reportFile initialContext messages
         analysis Hkey.
  apply key_absent in Hkey.
  unfold analyzeStartupPitch, createNegotiationSession,
    checkNegotiationProgress.
  rewrite !bind_getApiKey, Hkey. repeat split.
Qed.

(** C1 in a world without a key. *)
Lemma C1_witness :
  result getApiKey (always None keyRefused) = Return []
  /\ analyzeStartupPitch (host := Reference.browser)
       (Some videoFile) pitchNotes (Some pdfFile) (always None keyRefused)
     = (Throw missingKey, [])
  /\ createNegotiationSession pitchNotes (always None keyRefused)
     = (Throw missingKey, [])
  /\ checkNegotiationProgress (host := Reference.browser) exchange acme
       (always None keyRefused)
     = (Return noVerdict, []).
Proof.
  assert (Hkey : result getApiKey (always None keyRefused) = Return [])
    by reflexivity.
  split; [exact Hkey|].
  exact (C1_guarded_entry_points_without_key
           Reference.browser (always None keyRefused) (Some videoFile)
           pitchNotes (Some pdfFile) pitchNotes exchange acme Hkey).
Defined.

(** C1 as stated fails on an input: no key in the environment, and a
    service that refuses requests without a valid key.
    [checkNegotiationProgress] returns no error but the verdict it also
    gives when nothing is wrong.  [performDueDiligence],
    [startCommitteeDebate] and [startBoardSimulation] have no guard: each
    sends its request with the empty key; the refusal is logged and the
    caller gets the empty list or the error scenario. *)
Lemma C1_counterexample :
  result getApiKey (always None keyRefused) = Return []
  /\ result (checkNegotiationProgress (host := Reference.browser)
               exchange acme)
            (always None keyRefused)
     = Return (JObj [ (lit "shouldCancel", JBool false);
                      (lit "showWarning", JBool false);
                      (lit "reason", JStr []) ])
  /\ performDueDiligence (host := Reference.browser) pitchNotes acme
       (always None keyRefused)
     = (Return (JArr []),
        [ ServiceCall [] (promptRequest (dueDiligencePrompt pitchNotes acme));
          ConsoleError (lit "Due Diligence Error")
            (ServiceError
               (lit "API key not valid. Please pass a valid API key.")) ])
  /\ requests (trace (startCommitteeDebate (host := Reference.browser) acme)
                     (always None keyRefused))
     = [([], promptRequest (committeePrompt (host := Reference.browser) acme))]
  /\ requests (trace (startBoardSimulation (host := Reference.browser) acme)
                     (always None keyRefused))
     = [([], promptRequest (boardPrompt acme))].
Proof. repeat (split; [reflexivity|]). reflexivity. Qed.

(** The three simulations without a guard, whatever the world: when
    [getApiKey] returns the empty string each calls the service once, with
    the empty key and its usual prompt. *)
Theorem unguarded_simulations_call_the_service :
  forall (host : Platform) (w : World) (pitchText : jsstring)
         (analysis : AnalysisResult),
    result getApiKey w = Return [] ->
    requests (trace (performDueDiligence pitchText analysis) w)
      = [([], promptRequest (dueDiligencePrompt pitchText analysis))]
    /\ requests (trace (startCommitteeDebate analysis) w)
       = [([], promptRequest (committeePrompt analysis))]
    /\ requests (trace (startBoardSimulation analysis) w)
       = [([], promptRequest (boardPrompt analysis))].
Proof.
  intros host w pitchText analysis Hkey. apply key_absent in Hkey.
  unfold trace.
  rewrite performDueDiligence_run, startCommitteeDebate_run,
    startBoardSimulation_run, !simulation_requests, Hkey.
  repeat split.
Qed.

(** *** Failures of the service *)

(** C2, as the code has it.  When the last 8 messages can be rendered
    (none is [null] or [undefined], the text of each converts to a
    string), none of the four simulation invokers throws, whatever the
    pitch text, the analysis, the key and the behaviour of the service.
    When moreover the reply to the request an invoker sent is of no use
    (the call is rejected, or answered without text, with an empty text
    or with a text that is not JSON), whatever the service would answer to
    any other request, [performDueDiligence] and [startCommitteeDebate]
    return the empty list, [startBoardSimulation] returns the record
    [{ id: "error", title: "Simulation Error", description: "Could not
    generate scenario.", timeJump: "Now", choices: [] }] and
    [checkNegotiationProgress] returns
    [{ shouldCancel: false, showWarning: false, reason: "" }], which is
    also what it returns when it sends no request. *)
Theorem C2_invokers_swallow_failures :
  forall (host : Platform) (w : World) (pitchText : jsstring)
         (analysis : AnalysisResult) (messages : list JsValue),
    Forall (fun msg => speakable msg = true) (slice_last 8 messages) ->
    ((exists v, result (performDueDiligence pitchText analysis) w = Return v)
     /\ (exists v, result (startCommitteeDebate analysis) w = Return v)
     /\ (exists v, result (startBoardSimulation analysis) w = Return v)
     /\ (exists v, result (checkNegotiationProgress messages analysis) w
                   = Return v))
    /\ (forall key req,
          In (key, req)
             (requests (trace (performDueDiligence pitchText analysis) w)) ->
          unusable (service w key req) ->
          result (performDueDiligence pitchText analysis) w = Return (JArr []))
    /\ (forall key req,
          In (key, req) (requests (trace (startCommitteeDebate analysis) w)) ->
          unusable (service w key req) ->
          result (startCommitteeDebate analysis) w = Return (JArr []))
    /\ (forall key req,
          In (key, req) (requests (trace (startBoardSimulation analysis) w)) ->
          unusable (service w key req) ->
          result (startBoardSimulation analysis) w = Return errorScenario)
    /\ (forall key req,
          In (key, req)
             (requests (trace (checkNegotiationProgress messages analysis)
                              w)) ->
          unusable (service w key req) ->
          result (checkNegotiationProgress messages analysis) w
            = Return noVerdict)
    /\ (requests (trace (checkNegotiationProgress messages analysis) w) = [] ->
        result (checkNegotiationProgress messages analysis) w
          = Return noVerdict).
Proof.
  intros host w pitchText analysis messages Hmsgs.
  split; [|split; [|split; [|split; [|split]]]].
  - unfold result.
    rewrite performDueDiligence_run, startCommitteeDebate_run,
      startBoardSimulation_run, checkNegotiationProgress_run.
    split; [apply simulation_returns|].
    split; [apply simulation_returns|].
    split; [apply simulation_returns|].
    now apply progress_returns.
  - intros key req. unfold result, trace. rewrite performDueDiligence_run.
    apply simulation_call_falls_back.
  - intros key req. unfold result, trace. rewrite startCommitteeDebate_run.
    apply simulation_call_falls_back.
  - intros key req. unfold result, trace. rewrite startBoardSimulation_run.
    apply simulation_call_falls_back.
  - intros key req. apply progress_call_falls_back.
  - unfold result, trace. rewrite checkNegotiationProgress_run.
    now apply progress_silent.
Qed.

(** C2 on a transcript of chat messages, in a world whose service rejects
    every request but the one of the board: the three invokers whose call
    is rejected fall back, while the board simulation, in the same world,
    returns what the service answered.  In a world that answers in prose
    the board simulation falls back as well. *)
Lemma C2_witness :
  Forall (fun msg => speakable (host := Reference.browser) msg = true)
         (slice_last 8 exchange)
  /\ (In (someKey, promptRequest (dueDiligencePrompt pitchNotes acme))
         (requests (trace (performDueDiligence (host := Reference.browser)
                             pitchNotes acme)
                          boardOnly))
      /\ unusable (host := Reference.browser)
                  (service boardOnly someKey
                           (promptRequest (dueDiligencePrompt pitchNotes acme)))
      /\ result (performDueDiligence (host := Reference.browser)
                   pitchNotes acme)
                boardOnly
         = Return (JArr []))
  /\ (In (someKey,
          promptRequest (committeePrompt (host := Reference.browser) acme))
         (requests (trace (startCommitteeDebate (host := Reference.browser)
                             acme)
                          boardOnly))
      /\ result (startCommitteeDebate (host := Reference.browser) acme)
                boardOnly
         = Return (JArr []))
  /\ (In (someKey, exchangeRequest)
         (requests (trace (checkNegotiationProgress
                             (host := Reference.browser) exchange acme)
                          boardOnly))
      /\ result (checkNegotiationProgress (host := Reference.browser)
                   exchange acme)
                boardOnly
         = Return noVerdict)
  /\ result (startBoardSimulation (host := Reference.browser) acme) boardOnly
     = Return (JObj [])
  /\ (In (someKey, promptRequest (boardPrompt acme))
         (requests (trace (startBoardSimulation (host := Reference.browser)
                             acme)
                          (always (Some someKey)
                                  (Response (Some proseText)))))
      /\ result (startBoardSimulation (host := Reference.browser) acme)
                (always (Some someKey) (Response (Some proseText)))
         = Return errorScenario).
Proof.
  assert (Hmsgs : Forall (fun msg => speakable (host := Reference.browser) msg
                                     = true)
                         (slice_last 8 exchange))
    by (repeat constructor).
  assert (Hdd : In (someKey, promptRequest (dueDiligencePrompt pitchNotes acme))
                   (requests
                      (trace (performDueDiligence (host := Reference.browser)
                                pitchNotes acme)
                             boardOnly)))
    by (vm_compute; left; reflexivity).
  assert (Hcd : In (someKey,
                    promptRequest
                      (committeePrompt (host := Reference.browser) acme))
                   (requests
                      (trace (startCommitteeDebate (host := Reference.browser)
                                acme)
                             boardOnly)))
    by (vm_compute; left; reflexivity).
  assert (Hcp : In (someKey, exchangeRequest)
                   (requests
                      (trace (checkNegotiationProgress
                                (host := Reference.browser) exchange acme)
                             boardOnly)))
    by (vm_compute; left; reflexivity).
  assert (Hbs : In (someKey, promptRequest (boardPrompt acme))
                   (requests
                      (trace (startBoardSimulation (host := Reference.browser)
                                acme)
                             (always (Some someKey)
                                     (Response (Some proseText))))))
    by (vm_compute; left; reflexivity).
  assert (Hbad : unusable (host := Reference.browser)
                   (service boardOnly someKey
                      (promptRequest (dueDiligencePrompt pitchNotes acme))))
    by (vm_compute; exact I).
  destruct (C2_invokers_swallow_failures
              Reference.browser boardOnly pitchNotes acme exchange Hmsgs)
    as (_ & Hdue & Hdebate & _ & Hprogress & _).
  destruct (C2_invokers_swallow_failures
              Reference.browser
              (always (Some someKey) (Response (Some proseText)))
              pitchNotes acme exchange Hmsgs)
    as (_ & _ & _ & Hboard & _).
  split; [exact Hmsgs|].
  split; [split; [exact Hdd|]; split; [exact Hbad|];
          exact (Hdue _ _ Hdd Hbad)|].
  split; [split; [exact Hcd|]; apply (Hdebate _ _ Hcd); vm_compute; exact I|].
  split; [split; [exact Hcp|]; apply (Hprogress _ _ Hcp); vm_compute; exact I|].
  split; [vm_compute; reflexivity|].
  split; [exact Hbs|]. apply (Hboard _ _ Hbs). vm_compute. reflexivity.
Defined.

(** C2 as stated fails on an input: [messages] is an [any[]], and on six
    [null]s, with a key, [checkNegotiationProgress] throws a TypeError
    while it builds the conversation text, outside its [try], before any
    request. *)
Lemma C2_counterexample :
  result (checkNegotiationProgress (host := Reference.browser) sixNulls acme)
         (always (Some someKey) (Response (Some cancelText)))
    = Throw TypeError
  /\ trace (checkNegotiationProgress (host := Reference.browser) sixNulls acme)
           (always (Some someKey) (Response (Some cancelText)))
     = [].
Proof. vm_compute. split; reflexivity. Qed.

(** *** Short conversations *)

(** C3.  With fewer than 6 messages, whatever they and the analysis are,
    [checkNegotiationProgress] returns
    [{ shouldCancel: false, showWarning: false, reason: "" }] and does
    nothing else: no request reaches the service, nothing is logged. *)
Theorem C3_few_messages_no_verdict :
  forall (host : Platform) (w : World) (messages : list JsValue)
         (analysis : AnalysisResult),
    (List.length messages < 6)%nat ->
    checkNegotiationProgress messages analysis w = (Return noVerdict, []).
Proof.
  intros host w messages analysis Hlen.
  unfold checkNegotiationProgress. rewrite bind_getApiKey.
  destruct (negb (nonEmpty (apiKeyOf w))); [reflexivity|].
  apply Nat.ltb_lt in Hlen. rewrite Hlen. reflexivity.
Qed.

(** C3 on the two opening messages of a negotiation. *)
Lemma C3_witness :
  (List.length opening < 6)%nat
  /\ checkNegotiationProgress (host := Reference.browser) opening acme
       (always (Some someKey) (Response (Some cancelText)))
     = (Return noVerdict, []).
Proof.
  split.
  - simpl; lia.
  - apply C3_few_messages_no_verdict. simpl; lia.
Defined.

(** *** The analysis *)

(** C4, as the code has it.  [analyzeStartupPitch] throws in exactly four
    situations: the API key is absent; the report file cannot be read; the
    video file cannot be read; the request was sent and the call was
    rejected, or its response has no text, an empty text, or a text that
    is not JSON.  Without a key the error is the configuration error; once
    the request is sent, the error of the call, the error
    "No response text generated" or the SyntaxError of [JSON.parse] goes
    to the caller as it is, and no default takes its place. *)
Theorem C4_analysis_throws_exactly_when :
  forall (host : Platform) (w : World) (videoFile : option File)
         (reportText : jsstring) (reportFile : option File),
    (isThrow (result (analyzeStartupPitch videoFile reportText reportFile) w)
       = true
     <-> apiKeyOf w = []
         \/ (exists f, reportFile = Some f /\ file_dataURL f = None)
         \/ (exists f, videoFile = Some f /\ file_dataURL f = None)
         \/ (exists key req,
               In (key, req)
                  (requests (trace (analyzeStartupPitch videoFile reportText
                                                        reportFile) w))
               /\ unusable (service w key req)))
    /\ (apiKeyOf w = [] ->
        result (analyzeStartupPitch videoFile reportText reportFile) w
          = Throw missingKey)
    /\ (forall key req,
          In (key, req)
             (requests (trace (analyzeStartupPitch videoFile reportText
                                                   reportFile) w)) ->
          (forall e, service w key req = Rejected e ->
             result (analyzeStartupPitch videoFile reportText reportFile) w
               = Throw e)
          /\ (service w key req = Response None
              \/ service w key req = Response (Some []) ->
              result (analyzeStartupPitch videoFile reportText reportFile) w
                = Throw noResponseText)
          /\ (forall t, service w key req = Response (Some t) -> t <> [] ->
                JSON_parse t = None ->
                result (analyzeStartupPitch videoFile reportText reportFile) w
                  = Throw SyntaxError)).
Proof.
  intros host w videoFile reportText reportFile.
  split; [|split].
  - split.
    + intros Hthrow.
      destruct (nonEmpty (apiKeyOf w)) eqn:Hkey;
        [|left; now apply nonEmpty_false].
      destruct (pdfParts reportFile) as [pp|] eqn:Hp;
        [|right; left; now apply pdfParts_none].
      destruct (videoParts videoFile) as [vp|] eqn:Hv;
        [|right; right; left; now apply videoParts_none].
      right; right; right.
      apply nonEmpty_true in Hkey.
      pose proof (analysis_sent w videoFile reportText reportFile pp vp
                                Hkey Hp Hv) as Hin.
      exists (apiKeyOf w), (analysisRequest reportText pp vp).
      split; [exact Hin|].
      rewrite (analysis_answered _ _ _ _ _ _ Hin) in Hthrow.
      destruct (service w (apiKeyOf w) (analysisRequest reportText pp vp))
        as [e|[t|]]; cbn; try exact I.
      unfold usableText in Hthrow. destruct (nonEmpty t) eqn:Ht.
      * destruct (JSON_parse t); [discriminate | reflexivity].
      * apply nonEmpty_false in Ht. subst. apply JSON_parse_empty.
    + unfold result. rewrite analyzeStartupPitch_run. unfold analysisOutcome.
      intros [Hkey|[Hfile|[Hvideo|(key & req & Hin & Hbad)]]].
      * apply nonEmpty_false in Hkey. now rewrite Hkey.
      * apply pdfParts_none in Hfile. rewrite Hfile.
        now destruct (nonEmpty (apiKeyOf w)).
      * apply videoParts_none in Hvideo. rewrite Hvideo.
        destruct (nonEmpty (apiKeyOf w)); [|reflexivity].
        now destruct (pdfParts reportFile).
      * destruct (analysis_request_inv _ _ _ _ _ _ Hin)
          as (Hkey & -> & pp & vp & Hp & Hv & ->).
        apply nonEmpty_true in Hkey. rewrite Hkey, Hp, Hv. cbv zeta.
        destruct (service w (apiKeyOf w) (analysisRequest reportText pp vp))
          as [e|[t|]]; try reflexivity.
        cbn in Hbad. unfold usableText.
        destruct (nonEmpty t); [|reflexivity]. now rewrite Hbad.
  - intros Hkey. unfold result. rewrite analyzeStartupPitch_run.
    unfold analysisOutcome. apply nonEmpty_false in Hkey. now rewrite Hkey.
  - intros key req Hin. rewrite (analysis_answered _ _ _ _ _ _ Hin).
    split; [|split].
    + intros e ->. reflexivity.
    + intros [-> | ->]; reflexivity.
    + intros t -> Ht Hparse. unfold usableText.
      apply nonEmpty_true in Ht. now rewrite Ht, Hparse.
Qed.

(** C4 as stated fails on an input: with a key, and a service whose
    every response is well-formed JSON, a report file that cannot be read
    makes [analyzeStartupPitch] throw "Failed to process PDF report."
    before any request. *)
Lemma C4_counterexample :
  result (analyzeStartupPitch (host := Reference.browser)
            None (lit "") (Some unreadableFile))
         (always (Some someKey) (Response (Some overscoredText)))
    = Throw pdfFailed
  /\ requests (trace (analyzeStartupPitch (host := Reference.browser)
                        None (lit "") (Some unreadableFile))
                     (always (Some someKey) (Response (Some overscoredText))))
     = []
  /\ result getApiKey (always (Some someKey) (Response (Some overscoredText)))
     = Return someKey
  /\ nonEmpty someKey = true
  /\ JSON_parse (Platform := Reference.browser) overscoredText
     = Some overscored.
Proof. vm_compute. repeat split. Qed.

(** C5, as the code has it.  What [analyzeStartupPitch] returns is the
    value [JSON.parse] reads from the text of the one response it got:
    its score is the score the service sent, and nothing checks its
    range. *)
Theorem C5_returned_value_is_the_parsed_response :
  forall (host : Platform) (w : World) (videoFile : option File)
         (reportText : jsstring) (reportFile : option File) (v : JsValue),
    result (analyzeStartupPitch videoFile reportText reportFile) w = Return v ->
    exists (key : jsstring) (req : GenerateContentParameters) (text : jsstring),
      requests (trace (analyzeStartupPitch videoFile reportText reportFile) w)
        = [(key, req)]
      /\ service w key req = Response (Some text)
      /\ JSON_parse text = Some v.
Proof.
  intros host w videoFile reportText reportFile v.
  unfold result, trace. rewrite analyzeStartupPitch_run. unfold analysisOutcome.
  destruct (nonEmpty (apiKeyOf w)); [|discriminate].
  destruct (pdfParts reportFile) as [pp|]; [|discriminate].
  destruct (videoParts videoFile) as [vp|]; [|discriminate].
  cbv zeta.
  destruct (service w (apiKeyOf w) (analysisRequest reportText pp vp))
    as [e|txt] eqn:Hreply; [discriminate|].
  destruct (usableText txt) as [t|] eqn:Ht; [|discriminate].
  destruct (JSON_parse t) as [x|] eqn:Hparse; [|discriminate].
  intros [= ->]. apply usableText_some in Ht as [-> _].
  exists (apiKeyOf w), (analysisRequest reportText pp vp), t.
  repeat split; assumption.
Qed.

(** C5 on a response that carries a score of 150. *)
Lemma C5_witness :
  result (analyzeStartupPitch (host := Reference.browser)
            (Some videoFile) pitchNotes (Some pdfFile))
         (always (Some someKey) (Response (Some overscoredText)))
    = Return overscored
  /\ exists (key : jsstring) (req : GenerateContentParameters)
            (text : jsstring),
       requests (trace (analyzeStartupPitch (host := Reference.browser)
                          (Some videoFile) pitchNotes (Some pdfFile))
                       (always (Some someKey)
                               (Response (Some overscoredText))))
         = [(key, req)]
       /\ service (always (Some someKey) (Response (Some overscoredText)))
                  key req
          = Response (Some text)
       /\ JSON_parse (Platform := Reference.browser) text = Some overscored.
Proof.
  assert (H : result (analyzeStartupPitch (host := Reference.browser)
                        (Some videoFile) pitchNotes (Some pdfFile))
                     (always (Some someKey) (Response (Some overscoredText)))
              = Return overscored)
    by (vm_compute; reflexivity).
  split; [exact H|].
  exact (C5_returned_value_is_the_parsed_response
           Reference.browser
           (always (Some someKey) (Response (Some overscoredText)))
           (Some videoFile) pitchNotes (Some pdfFile) overscored H).
Defined.

(** C5 as stated fails on an input: the service answers with a text that
    fits the declared schema and carries a score of 150, and
    [analyzeStartupPitch] returns it with that score. *)
Lemma C5_counterexample :
  result (analyzeStartupPitch (host := Reference.browser) None (lit "") None)
         (always (Some someKey) (Response (Some overscoredText)))
    = Return overscored
  /\ conforms analysisSchema overscored = true
  /\ getProp overscored (lit "score") = Return (JNum (num_of_N 150))
  /\ scoreInRange (num_of_N 150) = false.
Proof. vm_compute. repeat split. Qed.

(** C6.  When the response to the request of [analyzeStartupPitch] has a
    text that is well-formed JSON and fits the declared schema,
    [analyzeStartupPitch] returns the parsed value, which reads as an
    [AnalysisResult] whose score, companyName, summary, pros, cons and
    metrics are those of the response. *)
Theorem C6_conforming_response_gives_the_record :
  forall (host : Platform) (w : World) (videoFile : option File)
         (reportText : jsstring) (reportFile : option File)
         (key : jsstring) (req : GenerateContentParameters)
         (text : jsstring) (v : JsValue),
    In (key, req)
       (requests (trace (analyzeStartupPitch videoFile reportText reportFile) w)) ->
    service w key req = Response (Some text) ->
    JSON_parse text = Some v ->
    conforms analysisSchema v = true ->
    result (analyzeStartupPitch videoFile reportText reportFile) w = Return v
    /\ exists (r : AnalysisResult) (m : list (jsstring * JsValue)),
         asAnalysisResult v = Some r
         /\ getProp v (lit "score") = Return (JNum (score r))
         /\ getProp v (lit "companyName") = Return (JStr (companyName r))
         /\ getProp v (lit "summary") = Return (JStr (summary r))
         /\ getProp v (lit "pros") = Return (JArr (map JStr (pros r)))
         /\ getProp v (lit "cons") = Return (JArr (map JStr (cons r)))
         /\ getProp v (lit "metrics") = Return (JObj m)
         /\ asMetrics (JObj m) = Some (metrics r).
Proof.
  intros host w videoFile reportText reportFile key req text v
         Hin Hreply Hparse Hfits.
  split.
  - rewrite (analysis_answered _ _ _ _ _ _ Hin), Hreply.
    now rewrite (usable_parsed _ _ Hparse), Hparse.
  - now apply conforming_analysis.
Qed.

(** C6 on a pitch with notes, a report and a video, and a response that
    fits the schema. *)
Lemma C6_witness :
  In (someKey, pitchRequest)
     (requests (trace (analyzeStartupPitch (host := Reference.browser)
                         (Some videoFile) pitchNotes (Some pdfFile))
                      (always (Some someKey) (Response (Some overscoredText)))))
  /\ service (always (Some someKey) (Response (Some overscoredText)))
             someKey pitchRequest
     = Response (Some overscoredText)
  /\ JSON_parse (Platform := Reference.browser) overscoredText
     = Some overscored
  /\ conforms analysisSchema overscored = true
  /\ result (analyzeStartupPitch (host := Reference.browser)
               (Some videoFile) pitchNotes (Some pdfFile))
            (always (Some someKey) (Response (Some overscoredText)))
     = Return overscored
  /\ exists (r : AnalysisResult) (m : list (jsstring * JsValue)),
       asAnalysisResult overscored = Some r
       /\ getProp overscored (lit "score") = Return (JNum (score r))
       /\ getProp overscored (lit "companyName")
          = Return (JStr (companyName r))
       /\ getProp overscored (lit "summary") = Return (JStr (summary r))
       /\ getProp overscored (lit "pros") = Return (JArr (map JStr (pros r)))
       /\ getProp overscored (lit "cons") = Return (JArr (map JStr (cons r)))
       /\ getProp overscored (lit "metrics") = Return (JObj m)
       /\ asMetrics (JObj m) = Some (metrics r).
Proof.
  assert (Hin : In (someKey, pitchRequest)
                   (requests
                      (trace (analyzeStartupPitch (host := Reference.browser)
                                (Some videoFile) pitchNotes (Some pdfFile))
                             (always (Some someKey)
                                     (Response (Some overscoredText))))))
    by (vm_compute; left; reflexivity).
  assert (Hparse : JSON_parse (Platform := Reference.browser) overscoredText
                   = Some overscored)
    by (vm_compute; reflexivity).
  assert (Hfits : conforms analysisSchema overscored = true)
    by (vm_compute; reflexivity).
  split; [exact Hin|]. split; [reflexivity|].
  split; [exact Hparse|]. split; [exact Hfits|].
  exact (C6_conforming_response_gives_the_record
           Reference.browser
           (always (Some someKey) (Response (Some overscoredText)))
           (Some videoFile) pitchNotes (Some pdfFile)
           someKey pitchRequest overscoredText overscored
           Hin eq_refl Hparse Hfits).
Defined.



(** *** The progress checker *)

(** C8.  Two message lists of at least 6 elements with the same last 8
    elements, and the same analysis: the conversation text is the same,
    so is the prompt, and [checkNegotiationProgress] does the same thing
    on both, request and outcome. *)
Theorem C8_progress_depends_on_last_eight :
  forall (host : Platform) (w : World) (m1 m2 : list JsValue)
         (analysis : AnalysisResult),
    (6 <= List.length m1)%nat -> (6 <= List.length m2)%nat ->
    slice_last 8 m1 = slice_last 8 m2 ->
    conversationOf m1 w = conversationOf m2 w
    /\ checkNegotiationProgress m1 analysis w
       = checkNegotiationProgress m2 analysis w.
Proof.
  intros host w m1 m2 analysis H1 H2 Hlast.
  assert (Hconv : conversationOf m1 = conversationOf m2).
  { unfold conversationOf. now rewrite Hlast. }
  split; [now rewrite Hconv|].
  unfold checkNegotiationProgress.
  apply Nat.ltb_ge in H1, H2. rewrite H1, H2, Hconv. reflexivity.
Qed.

(** C8 on two transcripts that end with the same eight messages, one of
    which starts with entries that are no messages at all. *)
Lemma C8_witness :
  (6 <= List.length (opening ++ exchange))%nat
  /\ (6 <= List.length (sixNulls ++ exchange))%nat
  /\ slice_last 8 (opening ++ exchange) = slice_last 8 (sixNulls ++ exchange)
  /\ conversationOf (host := Reference.browser) (opening ++ exchange)
       (always (Some someKey) (Response (Some cancelText)))
     = conversationOf (host := Reference.browser) (sixNulls ++ exchange)
         (always (Some someKey) (Response (Some cancelText)))
  /\ checkNegotiationProgress (host := Reference.browser)
       (opening ++ exchange) acme
       (always (Some someKey) (Response (Some cancelText)))
     = checkNegotiationProgress (host := Reference.browser)
         (sixNulls ++ exchange) acme
         (always (Some someKey) (Response (Some cancelText))).
Proof.
  assert (Ha : (6 <= List.length (opening ++ exchange))%nat) by (simpl; lia).
  assert (Hb : (6 <= List.length (sixNulls ++ exchange))%nat) by (simpl; lia).
  assert (Hc : slice_last 8 (opening ++ exchange)
               = slice_last 8 (sixNulls ++ exchange)) by reflexivity.
  split; [exact Ha|]. split; [exact Hb|]. split; [exact Hc|].
  exact (C8_progress_depends_on_last_eight Reference.browser
           (always (Some someKey) (Response (Some cancelText)))
           (opening ++ exchange) (sixNulls ++ exchange) acme Ha Hb Hc).
Defined.

(** C9, as the code has it.  Let the response to the request of
    [checkNegotiationProgress] parse to a value.  When the value is an
    object whose [shouldCancel] and [reason] are both truthy and whose
    reason converts to a string, the object is returned with the marker
    and that string as its [reason], every other property and the order of
    the properties unchanged; this is so in particular when [shouldCancel]
    is [true] and [reason] is a non-empty string.  When the value is
    [null], or when the reason does not convert to a string, the TypeError
    is caught and the default verdict is returned.  In every other case
    the parsed value is returned unchanged. *)
Theorem C9_verdict_of_a_parsed_response :
  forall (host : Platform) (w : World) (messages : list JsValue)
         (analysis : AnalysisResult) (key : jsstring)
         (req : GenerateContentParameters) (text : jsstring) (v : JsValue),
    In (key, req)
       (requests (trace (checkNegotiationProgress messages analysis) w)) ->
    service w key req = Response (Some text) ->
    JSON_parse text = Some v ->
    (forall props reason shown,
        v = JObj props -> cancels props = true ->
        lookup (lit "reason") props = Some reason ->
        ToString reason = Return shown ->
        result (checkNegotiationProgress messages analysis) w
          = Return (JObj (update (lit "reason") (JStr (marker ++ shown)) props))
        /\ lookup (lit "reason")
                  (update (lit "reason") (JStr (marker ++ shown)) props)
           = Some (JStr (marker ++ shown))
        /\ (forall k, k <> lit "reason" ->
              lookup k (update (lit "reason") (JStr (marker ++ shown)) props)
              = lookup k props)
        /\ map fst (update (lit "reason") (JStr (marker ++ shown)) props)
           = map fst props)
    /\ (forall props s,
          v = JObj props ->
          lookup (lit "shouldCancel") props = Some (JBool true) ->
          lookup (lit "reason") props = Some (JStr s) -> s <> [] ->
          result (checkNegotiationProgress messages analysis) w
            = Return (JObj (update (lit "reason") (JStr (marker ++ s)) props)))
    /\ (v = JNull \/ v = JUndefined ->
        result (checkNegotiationProgress messages analysis) w
          = Return noVerdict)
    /\ (forall props reason e,
          v = JObj props -> cancels props = true ->
          lookup (lit "reason") props = Some reason ->
          ToString reason = Throw e ->
          result (checkNegotiationProgress messages analysis) w
            = Return noVerdict)
    /\ (v <> JNull -> v <> JUndefined ->
        (forall props, v = JObj props -> cancels props = false) ->
        result (checkNegotiationProgress messages analysis) w = Return v).
Proof.
  intros host w messages analysis key req text v Hin Hreply Hparse.
  rewrite (progress_answered _ _ _ _ _ Hin), Hreply,
    (usable_parsed _ _ Hparse), Hparse.
  split; [|split; [|split; [|split]]].
  - intros props reason shown -> Hcancels Hreason Hshown.
    cbn [verdictOf]. rewrite Hcancels, Hreason, Hshown.
    split; [reflexivity|].
    split; [apply lookup_update_same|].
    split; [intros k Hk; now apply lookup_update_other|].
    now apply update_keys with (x := reason).
  - intros props s -> Hcancel Hreason Hs.
    cbn [verdictOf]. unfold cancels. rewrite Hcancel, Hreason.
    cbn [ToBoolean ToString andb]. apply nonEmpty_true in Hs.
    unfold nonEmpty in Hs. now rewrite Hs.
  - intros [-> | ->]; reflexivity.
  - intros props reason e -> Hcancels Hreason Hfail.
    cbn [verdictOf]. now rewrite Hcancels, Hreason, Hfail.
  - intros Hnull Hundef Hquiet.
    destruct v; try congruence; try reflexivity.
    cbn [verdictOf]. now rewrite (Hquiet props eq_refl).
Qed.

(** C9 on a verdict to cancel: the marker goes in front of its reason. *)
Lemma C9_witness :
  In (someKey, exchangeRequest)
     (requests (trace (checkNegotiationProgress (host := Reference.browser)
                         exchange acme)
                      (always (Some someKey) (Response (Some cancelText)))))
  /\ service (always (Some someKey) (Response (Some cancelText)))
             someKey exchangeRequest
     = Response (Some cancelText)
  /\ JSON_parse (Platform := Reference.browser) cancelText
     = Some (JObj cancelVerdict)
  /\ result (checkNegotiationProgress (host := Reference.browser)
               exchange acme)
            (always (Some someKey) (Response (Some cancelText)))
     = Return markedVerdict.
Proof.
  assert (Hin : In (someKey, exchangeRequest)
                   (requests
                      (trace (checkNegotiationProgress
                                (host := Reference.browser) exchange acme)
                             (always (Some someKey)
                                     (Response (Some cancelText))))))
    by (vm_compute; left; reflexivity).
  assert (Hparse : JSON_parse (Platform := Reference.browser) cancelText
                   = Some (JObj cancelVerdict))
    by (vm_compute; reflexivity).
  split; [exact Hin|]. split; [reflexivity|]. split; [exact Hparse|].
  destruct (C9_verdict_of_a_parsed_response
              Reference.browser
              (always (Some someKey) (Response (Some cancelText)))
              exchange acme someKey exchangeRequest cancelText
              (JObj cancelVerdict) Hin eq_refl Hparse)
    as (_ & Hmarked & _).
  apply (Hmarked cancelVerdict (lit "We are too far apart.")
                 eq_refl eq_refl eq_refl).
  discriminate.
Defined.

(** C9 as stated fails on an input: the response text [null] parses, to
    [null], which is not a verdict to cancel; it is not returned
    unchanged, the default verdict is. *)
Lemma C9_counterexample :
  requests (trace (checkNegotiationProgress (host := Reference.browser)
                     exchange acme)
                  (always (Some someKey) (Response (Some (lit "null")))))
    = [(someKey, exchangeRequest)]
  /\ JSON_parse (Platform := Reference.browser) (lit "null") = Some JNull
  /\ result (checkNegotiationProgress (host := Reference.browser) exchange acme)
            (always (Some someKey) (Response (Some (lit "null"))))
     = Return noVerdict
  /\ noVerdict <> JNull.
Proof.
  split; [vm_compute; reflexivity|]. split; [reflexivity|].
  split; [vm_compute; reflexivity|]. discriminate.
Qed.

(** *** The due diligence prompt *)

(** C10.  Two pitch texts with the same first 1000 characters, and the
    same analysis: [performDueDiligence] builds the same prompt, hence
    sends the same request and ends the same way. *)
Theorem C10_prompt_depends_on_first_1000 :
  forall (host : Platform) (w : World) (p1 p2 : jsstring)
         (analysis : AnalysisResult),
    substring0 1000 p1 = substring0 1000 p2 ->
    dueDiligencePrompt p1 analysis = dueDiligencePrompt p2 analysis
    /\ performDueDiligence p1 analysis w = performDueDiligence p2 analysis w.
Proof.
  intros host w p1 p2 analysis Hprefix.
  assert (Hprompt : dueDiligencePrompt p1 analysis
                    = dueDiligencePrompt p2 analysis).
  { unfold dueDiligencePrompt. now rewrite Hprefix. }
  split; [exact Hprompt|].
  unfold performDueDiligence. now rewrite Hprompt.
Qed.

(** C10 on two pitch texts that part after their first 1000 characters. *)
Lemma C10_witness :
  substring0 1000 (longPitch "and then revenue") = substring0 1000 (longPitch "or not")
  /\ dueDiligencePrompt (longPitch "and then revenue") acme
     = dueDiligencePrompt (longPitch "or not") acme
  /\ performDueDiligence (host := Reference.browser)
       (longPitch "and then revenue") acme (always None keyRefused)
     = performDueDiligence (host := Reference.browser)
         (longPitch "or not") acme (always None keyRefused).
Proof.
  assert (H : substring0 1000 (longPitch "and then revenue")
              = substring0 1000 (longPitch "or not")).
  { unfold substring0, longPitch.
    rewrite !firstn_app, !repeat_length, !firstn_all2
      by (rewrite repeat_length; lia).
    reflexivity. }
  split; [exact H|].
  apply (C10_prompt_depends_on_first_1000 Reference.browser
           (always None keyRefused) _ _ acme H).
Defined.

(** ** Further properties of the service module and of its callers *)

Import BoardSimulator CommitteeRoom.

Module SplitFacts.

Lemma split_no_separator c s : ~ In c s -> split c s = [s].
Proof.
  induction s as [|d s IH]; intros Hc; [reflexivity|].
  cbn [split]. destruct (N.eqb d c) eqn:E.
  - apply N.eqb_eq in E. subst. exfalso. apply Hc. now left.
  - rewrite IH; [reflexivity|]. intros H. apply Hc. now right.
Qed.

Lemma split_nonempty c s : split c s <> [].
Proof.
  destruct s as [|d s]; cbn [split]; [discriminate|].
  destruct (N.eqb d c); [discriminate|].
  destruct (split c s); discriminate.
Qed.

Lemma split_at_first c header rest :
  ~ In c header -> split c (header ++ c :: rest) = header :: split c rest.
Proof.
  induction header as [|d h IH]; intros Hc.
  - cbn. now rewrite N.eqb_refl.
  - cbn [app split]. destruct (N.eqb d c) eqn:E.
    + apply N.eqb_eq in E. subst. exfalso. apply Hc. now left.
    + rewrite IH; [reflexivity|]. intros H. apply Hc. now right.
Qed.

(** The second segment of a text with a separator is what lies between
    the first separator and the next, or the end. *)
Lemma second_segment c header payload rest :
  ~ In c header -> ~ In c payload ->
  rest = [] \/ (exists r, rest = c :: r) ->
  nth_error (split c (header ++ c :: payload ++ rest)) 1 = Some payload.
Proof.
  intros Hh Hp Hrest. rewrite split_at_first by exact Hh. cbn [nth_error].
  destruct Hrest as [-> | (r & ->)].
  - rewrite app_nil_r, split_no_separator by exact Hp. reflexivity.
  - rewrite split_at_first by exact Hp. reflexivity.
Qed.

End SplitFacts.
Import SplitFacts.

Module CoverageFacts.
Section WithPlatform.
Context {host : Platform}.

Lemma analysis_calls w videoFile reportText reportFile :
  requests (snd (analysisOutcome w videoFile reportText reportFile)) = []
  \/ exists pp vp,
       requests (snd (analysisOutcome w videoFile reportText reportFile))
       = [(apiKeyOf w, analysisRequest reportText pp vp)].
Proof.
  unfold analysisOutcome. cbv zeta.
  destruct (nonEmpty (apiKeyOf w)); [|now left].
  destruct (pdfParts reportFile) as [pp|]; [|now left].
  destruct (videoParts videoFile) as [vp|]; [|now left].
  right. exists pp, vp.
  destruct (service w (apiKeyOf w) (analysisRequest reportText pp vp))
    as [e|txt]; [reflexivity|].
  destruct (usableText txt) as [t|]; [destruct (JSON_parse t)|]; reflexivity.
Qed.

Lemma progress_calls w messages analysis :
  (requests (snd (progressOutcome w messages analysis)) = []
   /\ (apiKeyOf w = [] \/ List.length messages < 6
       \/ exists e, conversationText messages = Throw e))
  \/ exists conversation,
       apiKeyOf w <> [] /\ 6 <= List.length messages
       /\ conversationText messages = Return conversation
       /\ requests (snd (progressOutcome w messages analysis))
          = [(apiKeyOf w,
              promptRequest (progressPrompt analysis conversation))].
Proof.
  unfold progressOutcome. cbv zeta.
  destruct (nonEmpty (apiKeyOf w)) eqn:Hkey.
  2:{ left. split; [reflexivity|]. left. now apply nonEmpty_false. }
  apply nonEmpty_true in Hkey.
  destruct (Nat.ltb (List.length messages) 6) eqn:Hlen.
  { left. split; [reflexivity|]. right; left. now apply Nat.ltb_lt. }
  apply Nat.ltb_ge in Hlen.
  destruct (conversationText messages) as [conversation|e].
  2:{ left. split; [reflexivity|]. right; right. eauto. }
  right. exists conversation. repeat (split; [assumption || reflexivity|]).
  destruct (service w (apiKeyOf w)
              (promptRequest (progressPrompt analysis conversation)))
    as [e|txt]; [reflexivity|].
  destruct (usableText txt) as [t|]; [|reflexivity].
  destruct (JSON_parse t) as [v|]; [|reflexivity].
  destruct (verdictOf v); reflexivity.
Qed.

End WithPlatform.
End CoverageFacts.
Import CoverageFacts.

Module ComponentFacts.
Section WithPlatform.
Context {host : Platform}.

Lemma linesOf_chat (ms : list (jsstring * jsstring)) :
  linesOf (map chat ms) = Return (map spoken ms).
Proof.
  induction ms as [|[role text] ms IH]; [reflexivity|].
  cbn [map linesOf]. rewrite IH. reflexivity.
Qed.

Lemma slice_last_map {A B} (f : A -> B) n (xs : list A) :
  slice_last n (map f xs) = map f (slice_last n xs).
Proof.
  unfold slice_last. now rewrite length_map, skipn_map.
Qed.

Lemma slice_last_length {A} n (xs : list A) :
  List.length (slice_last n xs) = Nat.min n (List.length xs).
Proof.
  unfold slice_last. rewrite length_skipn. lia.
Qed.

Lemma board_returns w analysis :
  exists sim, startBoardSimulation analysis w
              = (Return sim, trace (startBoardSimulation analysis) w).
Proof.
  destruct (simulation_returns w (boardPrompt analysis)
              (lit "Board Simulation Error") errorScenario
              (Some (Error (lit "No text")))) as (sim & Hsim).
  exists sim. unfold trace. rewrite startBoardSimulation_run.
  destruct (simulationOutcome _ _ _ _ _) as [r t]. cbn in *. now subst.
Qed.

Lemma committee_returns w analysis :
  exists sim, startCommitteeDebate analysis w
              = (Return sim, trace (startCommitteeDebate analysis) w).
Proof.
  destruct (simulation_returns w (committeePrompt analysis)
              (lit "Committee Debate Error") (JArr []) None) as (sim & Hsim).
  exists sim. unfold trace. rewrite startCommitteeDebate_run.
  destruct (simulationOutcome _ _ _ _ _) as [r t]. cbn in *. now subst.
Qed.

Lemma getProp_cases (c : JsValue) :
  (forall k, getProp c k = Throw TypeError)
  \/ (forall k, exists x, getProp c k = Return x).
Proof.
  destruct c as [| | b | n | t | elems | props];
    try (left; intros k; reflexivity);
    right; intros k; cbn [getProp]; eauto.
  destruct (lookup k props); eauto.
Qed.

Lemma strictEq_refl (v : JsValue) : strictEq v v true = true.
Proof.
  destruct v as [| | b | n | t | elems | props]; cbn [strictEq];
    try reflexivity.
  - now destruct b.
  - apply JsFacts.eqb_refl.
  - apply JsFacts.eqb_refl.
Qed.

(** What a button is made of. *)
Lemma button_inv s place choice b :
  button s place choice = Return b ->
  exists id label consequence,
    getProp choice (lit "id") = Return id
    /\ getProp choice (lit "label") = Return label
    /\ getProp choice (lit "consequence") = Return consequence
    /\ button_id b = id
    /\ button_label b = label
    /\ button_disabled b = negb (isNull (selectedChoice s))
    /\ button_selected b
       = strictEq (selectedChoice s) id
                  (match selectedAt s with
                   | Some chosen => Nat.eqb chosen place
                   | None => false
                   end)
    /\ button_consequence b
       = if button_selected b && showConsequence s then Some consequence
         else None.
Proof.
  unfold button.
  destruct (getProp_cases choice) as [Hthrow | Hget].
  - rewrite Hthrow. discriminate.
  - destruct (Hget (lit "id")) as (id & Hid).
    destruct (Hget (lit "label")) as (label & Hlabel).
    destruct (Hget (lit "consequence")) as (consequence & Hcons).
    rewrite Hid, Hlabel, Hcons. cbn [andThen].
    intros Hb. exists id, label, consequence.
    repeat (split; [reflexivity|]).
    destruct (strictEq (selectedChoice s) id _ && showConsequence s) eqn:E;
      cbn [andThen] in Hb; injection Hb as <-;
      cbn [button_id button_label button_disabled button_selected
           button_consequence];
      rewrite E; repeat split; reflexivity.
Qed.

(** Whether a button can be made depends on the choice only. *)
Lemma button_total s s' place place' choice b :
  button s place choice = Return b ->
  exists b', button s' place' choice = Return b'.
Proof.
  unfold button.
  destruct (getProp_cases choice) as [Hthrow | Hget].
  - rewrite Hthrow. discriminate.
  - destruct (Hget (lit "id")) as (id & Hid).
    destruct (Hget (lit "label")) as (label & Hlabel).
    destruct (Hget (lit "consequence")) as (consequence & Hcons).
    rewrite Hid, Hlabel, Hcons. cbn [andThen]. intros _.
    destruct (strictEq (selectedChoice s') id _ && showConsequence s');
      cbn [andThen]; eauto.
Qed.

Lemma buttons_total s s' choices : forall place place' bs,
  buttons s place choices = Return bs ->
  exists bs', buttons s' place' choices = Return bs'.
Proof.
  induction choices as [|choice rest IH]; intros place place' bs;
    cbn [buttons]; [eauto|].
  destruct (button s place choice) as [b|e] eqn:Hb; [|discriminate].
  destruct (button_total s s' place place' _ _ Hb) as (b' & ->).
  cbn [andThen].
  destruct (buttons s (S place) rest) as [bs0|e] eqn:Hrest; [|discriminate].
  destruct (IH _ (S place') _ Hrest) as (bs' & ->). cbn [andThen]. eauto.
Qed.

(** The buttons are those of the choices, in their order. *)
Lemma buttons_nth s choices : forall place bs,
  buttons s place choices = Return bs ->
  List.length bs = List.length choices
  /\ forall j choice,
       nth_error choices j = Some choice ->
       exists b, nth_error bs j = Some b
                 /\ button s (place + j) choice = Return b.
Proof.
  induction choices as [|choice rest IH]; intros place bs; cbn [buttons].
  - intros [= <-]. split; [reflexivity|]. intros [|j] c; discriminate.
  - destruct (button s place choice) as [b|e] eqn:Hb; [|discriminate].
    cbn [andThen].
    destruct (buttons s (S place) rest) as [bs0|e] eqn:Hrest; [|discriminate].
    cbn [andThen]. intros [= <-].
    destruct (IH _ _ Hrest) as (Hlen & Hnth).
    split; [cbn [List.length]; now rewrite Hlen|].
    intros [|j] c; cbn [nth_error].
    + intros [= <-]. exists b. now rewrite Nat.add_0_r.
    + intros Hc. destruct (Hnth _ _ Hc) as (b' & Hb' & Hmade).
      exists b'. split; [exact Hb'|].
      now rewrite Nat.add_succ_r.
Qed.

Lemma buttons_disabled s choices : forall place bs,
  buttons s place choices = Return bs ->
  Forall (fun b => button_disabled b = negb (isNull (selectedChoice s))) bs.
Proof.
  induction choices as [|choice rest IH]; intros place bs; cbn [buttons].
  - intros [= <-]. constructor.
  - destruct (button s place choice) as [b|e] eqn:Hb; [|discriminate].
    cbn [andThen].
    destruct (buttons s (S place) rest) as [bs0|e] eqn:Hrest; [|discriminate].
    cbn [andThen]. intros [= <-]. constructor; [|now apply (IH _ _ Hrest)].
    destruct (button_inv _ _ _ _ Hb) as (? & ? & ? & _ & _ & _ & _ & _ & H & _).
    exact H.
Qed.

(** What a screen with a board rests on. *)
Lemma render_board s timeJump title description bs restart :
  render s = Return (Board timeJump title description bs restart) ->
  isLoading s = false
  /\ ToBoolean (scenario s) = true
  /\ getProp (scenario s) (lit "timeJump") = Return timeJump
  /\ getProp (scenario s) (lit "title") = Return title
  /\ getProp (scenario s) (lit "description") = Return description
  /\ restart = showConsequence s
  /\ exists choices,
       getProp (scenario s) (lit "choices") = Return (JArr choices)
       /\ buttons s 0 choices = Return bs.
Proof.
  unfold render.
  destruct (isLoading s); [discriminate|].
  destruct (ToBoolean (scenario s)); [|discriminate]. cbn [negb].
  destruct (getProp (scenario s) (lit "timeJump")) as [tj|]; [|discriminate].
  destruct (getProp (scenario s) (lit "title")) as [t|]; [|discriminate].
  destruct (getProp (scenario s) (lit "description")) as [d|]; [|discriminate].
  destruct (getProp (scenario s) (lit "choices")) as [choices|];
    [|discriminate].
  cbn [andThen].
  destruct choices as [| | | | | elems |]; try discriminate.
  destruct (buttons s 0 elems) as [bs0|] eqn:Hbs; [|discriminate].
  cbn [andThen]. intros [= <- <- <- <- <-].
  repeat (split; [reflexivity|]). eauto.
Qed.

Lemma click_inv k s s' :
  click k s = Some s' ->
  selectedChoice s = JNull
  /\ exists timeJump title description bs restart b,
       render s = Return (Board timeJump title description bs restart)
       /\ nth_error bs k = Some b
       /\ s' = handleChoice (button_id b) k s.
Proof.
  unfold click.
  destruct (render s) as [[| |tj t d bs r]|e] eqn:Hrender; try discriminate.
  destruct (nth_error bs k) as [b|] eqn:Hb; [|discriminate].
  destruct (button_disabled b) eqn:Hdis; [discriminate|].
  intros [= <-].
  destruct (render_board _ _ _ _ _ _ Hrender)
    as (_ & _ & _ & _ & _ & _ & choices & _ & Hbs).
  pose proof (buttons_disabled _ _ _ _ Hbs) as Hall.
  rewrite Forall_forall in Hall.
  specialize (Hall b (nth_error_In _ _ Hb)). rewrite Hdis in Hall.
  split.
  - destruct (selectedChoice s); try discriminate. reflexivity.
  - exists tj, t, d, bs, r, b. repeat split; assumption || reflexivity.
Qed.

(** Once the selected choice is not [null], no click takes effect. *)
Lemma chosen_is_final s j :
  selectedChoice s <> JNull -> click j s = None.
Proof.
  intros Hsel. unfold click.
  destruct (render s) as [[| |tj t d bs r]|e] eqn:Hrender; try reflexivity.
  destruct (nth_error bs j) as [b|] eqn:Hb; [|reflexivity].
  destruct (render_board _ _ _ _ _ _ Hrender)
    as (_ & _ & _ & _ & _ & _ & choices & _ & Hbs).
  pose proof (buttons_disabled _ _ _ _ Hbs) as Hall.
  rewrite Forall_forall in Hall.
  rewrite (Hall b (nth_error_In _ _ Hb)).
  destruct (selectedChoice s); try reflexivity. congruence.
Qed.

End WithPlatform.

Section Interval.
Variable readAt : nat -> nat.

Lemma ticks_while_debating l : forall k s,
  ticking s = true -> i s + k <= List.length l ->
  let s' := ticks readAt k l s in
  List.length (messages s') = List.length (messages s) + k
  /\ isDebating s' = isDebating s /\ hasVoted s' = hasVoted s
  /\ ticking s' = true /\ i s' = i s + k.
Proof.
  induction k as [|k IH]; intros s Hticking Hroom; cbn [ticks].
  - repeat split; lia || assumption.
  - assert (Hstep : tick readAt l s
                    = {| messages := messages s
                           ++ [match nth_error l (readAt (i s)) with
                               | Some m => m
                               | None => JUndefined
                               end];
                         isDebating := isDebating s; hasVoted := hasVoted s;
                         i := S (i s); ticking := true |}).
    { unfold tick. rewrite Hticking. cbn [negb].
      destruct (Nat.leb (List.length l) (i s)) eqn:E; [|reflexivity].
      apply Nat.leb_le in E. lia. }
    rewrite Hstep.
    match goal with
    | |- context [ticks readAt k l ?x] => specialize (IH x eq_refl)
    end.
    cbn [i messages isDebating hasVoted] in IH.
    destruct IH as (Hm & Hd & Hv & Ht & Hi); [lia|].
    rewrite Hm, length_app. cbn [List.length]. repeat split; lia || assumption.
Qed.

Lemma ticks_stopped l k s : ticking s = false -> ticks readAt k l s = s.
Proof.
  revert s. induction k as [|k IH]; intros s H; [reflexivity|].
  cbn [ticks]. unfold tick at 1. rewrite H. cbn [negb]. now apply IH.
Qed.

Lemma ticks_add l a b s :
  ticks readAt (a + b) l s = ticks readAt b l (ticks readAt a l s).
Proof.
  revert s. induction a as [|a IH]; intros s; [reflexivity|].
  cbn [Nat.add ticks]. apply IH.
Qed.

End Interval.
End ComponentFacts.
Import ComponentFacts.

(** *** Files *)

(** [fileToBase64] resolves with the text between the first comma of the
    data URL and the next one, or the end: with the whole payload when the
    payload holds no comma, as a base64 text never does.  On a reader
    result without any comma it resolves with [undefined]. *)
Theorem fileToBase64_cuts_out_the_payload :
  forall (w : World) (file : File) (url : jsstring),
    file_dataURL file = Some url ->
    (forall header payload rest,
        url = header ++ 44%N :: payload ++ rest ->
        ~ In 44%N header -> ~ In 44%N payload ->
        rest = [] \/ (exists r, rest = 44%N :: r) ->
        fileToBase64 file w = (Return (Some payload), []))
    /\ (~ In 44%N url -> fileToBase64 file w = (Return None, [])).
Proof.
  intros w file url Hurl. unfold fileToBase64. rewrite Hurl.
  cbv beta iota. unfold ret. split.
  - intros header payload rest -> Hh Hp Hrest.
    do 2 f_equal. now apply second_segment.
  - intros Hc. do 2 f_equal. now rewrite split_no_separator.
Qed.

(** On the PDF of the examples, and on a reader result without a comma. *)
Lemma fileToBase64_witness :
  file_dataURL pdfFile
    = Some (lit "data:application/pdf;base64" ++ 44%N :: lit "JVBERi0xLjQK" ++ [])
  /\ fileToBase64 pdfFile (always None keyRefused)
     = (Return (Some (lit "JVBERi0xLjQK")), [])
  /\ file_dataURL oddFile = Some (lit "no data url")
  /\ fileToBase64 oddFile (always None keyRefused) = (Return None, []).
Proof.
  assert (Hpdf : file_dataURL pdfFile
                 = Some (lit "data:application/pdf;base64"
                           ++ 44%N :: lit "JVBERi0xLjQK" ++ []))
    by reflexivity.
  assert (Hodd : file_dataURL oddFile = Some (lit "no data url"))
    by reflexivity.
  split; [exact Hpdf|]. split.
  - apply (proj1 (fileToBase64_cuts_out_the_payload
                    (always None keyRefused) pdfFile _ Hpdf)
                 (lit "data:application/pdf;base64") (lit "JVBERi0xLjQK") []
                 eq_refl).
    + cbn. intuition discriminate.
    + cbn. intuition discriminate.
    + now left.
  - split; [exact Hodd|].
    apply (proj2 (fileToBase64_cuts_out_the_payload
                    (always None keyRefused) oddFile _ Hodd)).
    cbn. intuition discriminate.
Defined.

(** With a key, a report file that cannot be read ends
    [analyzeStartupPitch] with "Failed to process PDF report." whatever
    the video file is, and a video file that cannot be read ends it with
    the video error when the report is absent or readable.  Either way the
    read error is logged once and no request goes out. *)
Theorem unreadable_files_stop_the_analysis :
  forall (host : Platform) (w : World) (reportText : jsstring)
         (broken : File),
    apiKeyOf w <> [] -> file_dataURL broken = None ->
    (forall videoFile,
        analyzeStartupPitch videoFile reportText (Some broken) w
        = (Throw pdfFailed,
           [ConsoleError (lit "Error processing PDF file:") FileReadError]))
    /\ (forall reportFile,
          (forall f, reportFile = Some f -> file_dataURL f <> None) ->
          analyzeStartupPitch (Some broken) reportText reportFile w
          = (Throw videoFailed,
             [ConsoleError (lit "Error processing video file:")
                           FileReadError])).
Proof.
  intros host w reportText broken Hkey Hbroken.
  apply nonEmpty_true in Hkey. split.
  - intros videoFile. rewrite analyzeStartupPitch_run.
    unfold analysisOutcome. cbv zeta. rewrite Hkey. cbn [pdfParts].
    now rewrite Hbroken.
  - intros reportFile Hreport. rewrite analyzeStartupPitch_run.
    unfold analysisOutcome. cbv zeta. rewrite Hkey.
    destruct (pdfParts reportFile) as [pp|] eqn:Hp.
    + cbn [videoParts]. now rewrite Hbroken.
    + apply pdfParts_none in Hp as (f & -> & Hf).
      now destruct (Hreport f eq_refl).
Qed.

(** With both files unreadable the PDF error wins; with a readable report
    the video error shows. *)
Lemma unreadable_files_witness :
  apiKeyOf (always (Some someKey) (Response (Some overscoredText))) <> []
  /\ file_dataURL unreadableFile = None
  /\ analyzeStartupPitch (host := Reference.browser)
       (Some unreadableFile) pitchNotes (Some unreadableFile)
       (always (Some someKey) (Response (Some overscoredText)))
     = (Throw pdfFailed,
        [ConsoleError (lit "Error processing PDF file:") FileReadError])
  /\ analyzeStartupPitch (host := Reference.browser)
       (Some unreadableFile) pitchNotes (Some pdfFile)
       (always (Some someKey) (Response (Some overscoredText)))
     = (Throw videoFailed,
        [ConsoleError (lit "Error processing video file:") FileReadError]).
Proof.
  assert (Hkey : apiKeyOf (always (Some someKey)
                                  (Response (Some overscoredText))) <> [])
    by discriminate.
  assert (Hbroken : file_dataURL unreadableFile = None) by reflexivity.
  split; [exact Hkey|]. split; [exact Hbroken|].
  destruct (unreadable_files_stop_the_analysis
              Reference.browser
              (always (Some someKey) (Response (Some overscoredText)))
              pitchNotes unreadableFile Hkey Hbroken) as (Hpdf & Hvideo).
  split; [apply Hpdf|]. apply Hvideo.
  intros f [= <-]. discriminate.
Defined.

(** [analyzeStartupPitch] writes to the console exactly when it throws
    with a key in place, and then once; it writes nothing when it returns
    and nothing when the key is missing. *)
Theorem analysis_logs_once_when_it_fails_with_a_key :
  forall (host : Platform) (w : World) (videoFile : option File)
         (reportText : jsstring) (reportFile : option File),
    List.length
      (consoleErrors (trace (analyzeStartupPitch videoFile reportText
                                                 reportFile) w))
    = if isThrow (result (analyzeStartupPitch videoFile reportText
                                              reportFile) w)
         && nonEmpty (apiKeyOf w)
      then 1 else 0.
Proof.
  intros host w videoFile reportText reportFile. unfold trace, result.
  rewrite analyzeStartupPitch_run. unfold analysisOutcome. cbv zeta.
  destruct (nonEmpty (apiKeyOf w)); [|reflexivity].
  destruct (pdfParts reportFile) as [pp|]; [|reflexivity].
  destruct (videoParts videoFile) as [vp|]; [|reflexivity].
  destruct (service w (apiKeyOf w) (analysisRequest reportText pp vp))
    as [e|txt]; [reflexivity|].
  destruct (usableText txt) as [t|]; [|reflexivity].
  destruct (JSON_parse t); reflexivity.
Qed.

(** *** The key and the calls *)

(** An environment variable set to the empty string is an absent one:
    [getApiKey] and the six entry points do the same in both worlds. *)
Theorem empty_key_variable_is_an_absent_one :
  forall (host : Platform)
         (answers : jsstring -> GenerateContentParameters -> Reply)
         (videoFile : option File) (reportText : jsstring)
         (reportFile : option File) (initialContext pitchText : jsstring)
         (analysis : AnalysisResult) (messages : list JsValue),
    let unset := {| VITE_GEMINI_API_KEY := None; service := answers |} in
    let empty := {| VITE_GEMINI_API_KEY := Some []; service := answers |} in
    getApiKey empty = getApiKey unset
    /\ analyzeStartupPitch videoFile reportText reportFile empty
       = analyzeStartupPitch videoFile reportText reportFile unset
    /\ createNegotiationSession initialContext empty
       = createNegotiationSession initialContext unset
    /\ performDueDiligence pitchText analysis empty
       = performDueDiligence pitchText analysis unset
    /\ startCommitteeDebate analysis empty = startCommitteeDebate analysis unset
    /\ startBoardSimulation analysis empty = startBoardSimulation analysis unset
    /\ checkNegotiationProgress messages analysis empty
       = checkNegotiationProgress messages analysis unset.
Proof.
  intros. subst unset empty.
  rewrite !analyzeStartupPitch_run, !performDueDiligence_run,
    !startCommitteeDebate_run, !startBoardSimulation_run,
    !checkNegotiationProgress_run.
  unfold createNegotiationSession. rewrite !bind_getApiKey, !getApiKey_run.
  repeat split.
Qed.

(** No entry point calls the service twice.  [analyzeStartupPitch] and
    [checkNegotiationProgress] call it at most once,
    [createNegotiationSession] does nothing that can be observed, and
    [performDueDiligence], [startCommitteeDebate] and
    [startBoardSimulation] call it exactly once, whatever the key.  Every
    call carries the key of the environment, names the one model and asks
    for JSON; only the analysis declares a schema. *)
Theorem entry_points_call_the_service_at_most_once :
  forall (host : Platform) (w : World) (videoFile : option File)
         (reportText : jsstring) (reportFile : option File)
         (initialContext pitchText : jsstring) (analysis : AnalysisResult)
         (messages : list JsValue),
    (List.length (requests (trace (analyzeStartupPitch videoFile reportText
                                                      reportFile) w)) <= 1
     /\ Forall (fun call => wellAddressed (apiKeyOf w) call
                            /\ responseSchema (config (snd call))
                               = Some analysisSchema)
               (requests (trace (analyzeStartupPitch videoFile reportText
                                                     reportFile) w)))
    /\ trace (createNegotiationSession initialContext) w = []
    /\ (forall call,
          In call (requests (trace (performDueDiligence pitchText analysis) w)
                   ++ requests (trace (startCommitteeDebate analysis) w)
                   ++ requests (trace (startBoardSimulation analysis) w)
                   ++ requests (trace (checkNegotiationProgress messages
                                                                analysis) w)) ->
          wellAddressed (apiKeyOf w) call
          /\ responseSchema (config (snd call)) = None)
    /\ List.length (requests (trace (performDueDiligence pitchText analysis) w))
       = 1
    /\ List.length (requests (trace (startCommitteeDebate analysis) w)) = 1
    /\ List.length (requests (trace (startBoardSimulation analysis) w)) = 1
    /\ List.length (requests (trace (checkNegotiationProgress messages
                                                              analysis) w))
       <= 1.
Proof.
  intros host w videoFile reportText reportFile initialContext pitchText
         analysis messages.
  unfold trace.
  rewrite analyzeStartupPitch_run, performDueDiligence_run,
    startCommitteeDebate_run, startBoardSimulation_run,
    checkNegotiationProgress_run, !simulation_requests.
  split; [|split; [|split; [|split; [|split; [|split]]]]];
    try reflexivity.
  - destruct (analysis_calls w videoFile reportText reportFile)
      as [-> | (pp & vp & ->)].
    + split; [cbn; lia | constructor].
    + split; [cbn; lia|]. repeat constructor.
  - unfold createNegotiationSession. rewrite bind_getApiKey.
    destruct (negb (nonEmpty (apiKeyOf w))); reflexivity.
  - intros call Hin.
    destruct (progress_calls w messages analysis)
      as [(Hnone & _) | (conversation & _ & _ & _ & Hone)];
      [rewrite Hnone in Hin | rewrite Hone in Hin];
      cbn in Hin;
      repeat (destruct Hin as [<- | Hin]; [repeat split|]);
      destruct Hin.
  - destruct (progress_calls w messages analysis)
      as [(-> & _) | (conversation & _ & _ & _ & ->)]; cbn; lia.
Qed.

(** The three simulations without a guard, in a world without a key. *)
Lemma unguarded_simulations_witness :
  result getApiKey (always None keyRefused) = Return []
  /\ requests (trace (performDueDiligence (host := Reference.browser)
                        pitchNotes acme)
                     (always None keyRefused))
     = [([], promptRequest (dueDiligencePrompt pitchNotes acme))]
  /\ requests (trace (startCommitteeDebate (host := Reference.browser) acme)
                     (always None keyRefused))
     = [([], promptRequest (committeePrompt (host := Reference.browser) acme))]
  /\ requests (trace (startBoardSimulation (host := Reference.browser) acme)
                     (always None keyRefused))
     = [([], promptRequest (boardPrompt acme))].
Proof.
  assert (Hkey : result getApiKey (always None keyRefused) = Return [])
    by reflexivity.
  split; [exact Hkey|].
  exact (unguarded_simulations_call_the_service
           Reference.browser (always None keyRefused) pitchNotes acme Hkey).
Defined.

(** With a key, [createNegotiationSession] returns a chat set up with that
    key, the model and the fixed system instruction; it calls nothing,
    logs nothing, and makes no use of its argument. *)
Theorem session_is_set_up_whatever_the_context :
  forall (w : World) (initialContext : jsstring),
    apiKeyOf w <> [] ->
    createNegotiationSession initialContext w
    = (Return {| chat_apiKey := apiKeyOf w;
                 chat_model := lit "gemini-3-flash-preview";
                 chat_systemInstruction := systemInstruction |},
       []).
Proof.
  intros w initialContext Hkey. apply nonEmpty_true in Hkey.
  unfold createNegotiationSession. rewrite bind_getApiKey, Hkey.
  reflexivity.
Qed.

Lemma session_witness :
  apiKeyOf (always (Some someKey) keyRefused) <> []
  /\ createNegotiationSession pitchNotes (always (Some someKey) keyRefused)
     = (Return {| chat_apiKey := someKey;
                  chat_model := lit "gemini-3-flash-preview";
                  chat_systemInstruction := systemInstruction |},
        []).
Proof.
  assert (Hkey : apiKeyOf (always (Some someKey) keyRefused) <> [])
    by discriminate.
  split; [exact Hkey|].
  exact (session_is_set_up_whatever_the_context
           (always (Some someKey) keyRefused) pitchNotes Hkey).
Defined.

(** *** The simulations *)



(** When the reply to the request it sent has no text, or an empty one,
    whatever the service would answer to any other request,
    [performDueDiligence] and [startCommitteeDebate] return the empty list
    and log nothing, while [startBoardSimulation] logs the error
    "No text" and returns its error scenario. *)
Theorem response_without_text_is_silent_except_for_the_board :
  forall (host : Platform) (w : World) (pitchText : jsstring)
         (analysis : AnalysisResult) (key : jsstring)
         (req : GenerateContentParameters),
    service w key req = Response None
    \/ service w key req = Response (Some []) ->
    (In (key, req)
        (requests (trace (performDueDiligence pitchText analysis) w)) ->
     result (performDueDiligence pitchText analysis) w = Return (JArr [])
     /\ consoleErrors (trace (performDueDiligence pitchText analysis) w) = [])
    /\ (In (key, req) (requests (trace (startCommitteeDebate analysis) w)) ->
        result (startCommitteeDebate analysis) w = Return (JArr [])
        /\ consoleErrors (trace (startCommitteeDebate analysis) w) = [])
    /\ (In (key, req) (requests (trace (startBoardSimulation analysis) w)) ->
        result (startBoardSimulation analysis) w = Return errorScenario
        /\ consoleErrors (trace (startBoardSimulation analysis) w)
           = [(lit "Board Simulation Error", Error (lit "No text"))]).
Proof.
  intros host w pitchText analysis key req Hreply.
  unfold result, trace.
  rewrite performDueDiligence_run, startCommitteeDebate_run,
    startBoardSimulation_run, !simulation_requests.
  split; [|split]; intros [[= <- <-]|[]];
    unfold simulationOutcome; cbv zeta;
    destruct Hreply as [-> | ->]; split; reflexivity.
Qed.

(** A service without a text for the due diligence only: the due
    diligence is empty and silent, while the board simulation, in the same
    world, returns what the service answered.  Before a service without
    any text the board simulation logs and falls back. *)
Lemma response_without_text_witness :
  (service muteOnDueDiligence someKey
           (promptRequest (dueDiligencePrompt pitchNotes acme))
   = Response None
   \/ service muteOnDueDiligence someKey
              (promptRequest (dueDiligencePrompt pitchNotes acme))
      = Response (Some []))
  /\ In (someKey, promptRequest (dueDiligencePrompt pitchNotes acme))
        (requests (trace (performDueDiligence (host := Reference.browser)
                            pitchNotes acme)
                         muteOnDueDiligence))
  /\ (result (performDueDiligence (host := Reference.browser) pitchNotes acme)
             muteOnDueDiligence
      = Return (JArr [])
      /\ consoleErrors (trace (performDueDiligence (host := Reference.browser)
                                 pitchNotes acme)
                              muteOnDueDiligence)
         = [])
  /\ result (startBoardSimulation (host := Reference.browser) acme)
            muteOnDueDiligence
     = Return (JObj [])
  /\ In (someKey, promptRequest (boardPrompt acme))
        (requests (trace (startBoardSimulation (host := Reference.browser)
                            acme)
                         (always (Some someKey) (Response None))))
  /\ (result (startBoardSimulation (host := Reference.browser) acme)
             (always (Some someKey) (Response None))
      = Return errorScenario
      /\ consoleErrors (trace (startBoardSimulation (host := Reference.browser)
                                 acme)
                              (always (Some someKey) (Response None)))
         = [(lit "Board Simulation Error", Error (lit "No text"))]).
Proof.
  assert (Hmute : service muteOnDueDiligence someKey
                    (promptRequest (dueDiligencePrompt pitchNotes acme))
                  = Response None
                  \/ service muteOnDueDiligence someKey
                       (promptRequest (dueDiligencePrompt pitchNotes acme))
                     = Response (Some []))
    by (left; vm_compute; reflexivity).
  assert (Hdd : In (someKey, promptRequest (dueDiligencePrompt pitchNotes acme))
                   (requests
                      (trace (performDueDiligence (host := Reference.browser)
                                pitchNotes acme)
                             muteOnDueDiligence)))
    by (vm_compute; left; reflexivity).
  assert (Hnone : service (always (Some someKey) (Response None)) someKey
                    (promptRequest (boardPrompt acme))
                  = Response None
                  \/ service (always (Some someKey) (Response None)) someKey
                       (promptRequest (boardPrompt acme))
                     = Response (Some []))
    by (left; reflexivity).
  assert (Hbs : In (someKey, promptRequest (boardPrompt acme))
                   (requests
                      (trace (startBoardSimulation (host := Reference.browser)
                                acme)
                             (always (Some someKey) (Response None)))))
    by (vm_compute; left; reflexivity).
  split; [exact Hmute|]. split; [exact Hdd|].
  split.
  { exact (proj1 (response_without_text_is_silent_except_for_the_board
                    Reference.browser muteOnDueDiligence pitchNotes acme
                    someKey _ Hmute)
                 Hdd). }
  split; [vm_compute; reflexivity|]. split; [exact Hbs|].
  exact (proj2 (proj2 (response_without_text_is_silent_except_for_the_board
                         Reference.browser
                         (always (Some someKey) (Response None))
                         pitchNotes acme someKey _ Hnone))
               Hbs).
Defined.

(** Of the analysis, the due diligence prompt reads the company name and
    the summary, the committee prompt the company name, the score, the
    pros and the cons, the board prompt the company name and the cons, the
    progress prompt the company name and the score.  Two analyses that
    agree on these make the entry point do the same; the metrics never
    reach the service. *)
Theorem simulations_read_few_fields :
  forall (host : Platform) (w : World) (pitchText : jsstring)
         (messages : list JsValue) (a b : AnalysisResult),
    companyName a = companyName b ->
    (summary a = summary b ->
     performDueDiligence pitchText a w = performDueDiligence pitchText b w)
    /\ (score a = score b -> pros a = pros b -> cons a = cons b ->
        startCommitteeDebate a w = startCommitteeDebate b w)
    /\ (cons a = cons b ->
        startBoardSimulation a w = startBoardSimulation b w)
    /\ (score a = score b ->
        checkNegotiationProgress messages a w
        = checkNegotiationProgress messages b w).
Proof.
  intros host w pitchText messages a b Hname.
  rewrite !performDueDiligence_run, !startCommitteeDebate_run,
    !startBoardSimulation_run, !checkNegotiationProgress_run.
  unfold progressOutcome, dueDiligencePrompt, committeePrompt, boardPrompt,
    progressPrompt.
  rewrite Hname.
  split; [|split; [|split]].
  - intros ->. reflexivity.
  - intros -> -> ->. reflexivity.
  - intros ->. reflexivity.
  - intros ->. reflexivity.
Qed.

(** Two analyses that differ by their metrics only. *)
Lemma simulations_read_few_fields_witness :
  companyName acme = companyName acmeReassessed
  /\ acme <> acmeReassessed
  /\ performDueDiligence (host := Reference.browser) pitchNotes acme
       (always (Some someKey) (Response (Some proseText)))
     = performDueDiligence (host := Reference.browser) pitchNotes
         acmeReassessed (always (Some someKey) (Response (Some proseText)))
  /\ startCommitteeDebate (host := Reference.browser) acme
       (always (Some someKey) (Response (Some proseText)))
     = startCommitteeDebate (host := Reference.browser) acmeReassessed
         (always (Some someKey) (Response (Some proseText)))
  /\ startBoardSimulation (host := Reference.browser) acme
       (always (Some someKey) (Response (Some proseText)))
     = startBoardSimulation (host := Reference.browser) acmeReassessed
         (always (Some someKey) (Response (Some proseText)))
  /\ checkNegotiationProgress (host := Reference.browser) exchange acme
       (always (Some someKey) (Response (Some proseText)))
     = checkNegotiationProgress (host := Reference.browser) exchange
         acmeReassessed (always (Some someKey) (Response (Some proseText))).
Proof.
  assert (Hname : companyName acme = companyName acmeReassessed)
    by reflexivity.
  split; [exact Hname|]. split; [discriminate|].
  destruct (simulations_read_few_fields
              Reference.browser
              (always (Some someKey) (Response (Some proseText)))
              pitchNotes exchange acme acmeReassessed Hname)
    as (Hdd & Hcd & Hbs & Hcp).
  split; [exact (Hdd eq_refl)|]. split; [exact (Hcd eq_refl eq_refl eq_refl)|].
  split; [exact (Hbs eq_refl) | exact (Hcp eq_refl)].
Defined.

(** *** The progress checker *)

(** [checkNegotiationProgress] calls the service exactly when there is a
    key, there are at least 6 messages and the conversation text can be
    built; the request then carries the prompt made of that text. *)
Theorem progress_check_calls_exactly_when :
  forall (host : Platform) (w : World) (messages : list JsValue)
         (analysis : AnalysisResult),
    (requests (trace (checkNegotiationProgress messages analysis) w) <> []
     <-> apiKeyOf w <> [] /\ 6 <= List.length messages
         /\ exists conversation,
              result (conversationOf messages) w = Return conversation)
    /\ (forall conversation,
          apiKeyOf w <> [] -> 6 <= List.length messages ->
          result (conversationOf messages) w = Return conversation ->
          requests (trace (checkNegotiationProgress messages analysis) w)
          = [(apiKeyOf w,
              promptRequest (progressPrompt analysis conversation))]).
Proof.
  intros host w messages analysis. unfold trace, result.
  rewrite checkNegotiationProgress_run, conversationOf_run. cbn [fst].
  destruct (progress_calls w messages analysis)
    as [(Hnone & Hwhy) | (conversation & Hkey & Hlen & Hconv & Hone)].
  - rewrite Hnone. split.
    + split; [congruence|]. intros (Hkey & Hlen & conversation & Hconv).
      destruct Hwhy as [H | [H | (e & H)]]; [congruence | lia | congruence].
    + intros conversation Hkey Hlen Hconv.
      destruct Hwhy as [H | [H | (e & H)]]; [congruence | lia | congruence].
  - rewrite Hone, Hconv. split.
    + split; [eauto | discriminate].
    + intros c _ _ [= <-]. reflexivity.
Qed.

(** On a transcript of chat messages the conversation text has one line
    for each of the last 8 messages, all of them when there are fewer:
    "Founder: " and the text when the role is the string "user", "VC: "
    and the text for any other role; the lines are separated by an empty
    line. *)
Theorem conversation_of_a_chat_transcript :
  forall (host : Platform) (w : World) (transcript : list (jsstring * jsstring)),
    conversationOf (map chat transcript) w
    = (Return (join [10; 10]%N (map spoken (slice_last 8 transcript))), [])
    /\ List.length (slice_last 8 transcript)
       = Nat.min 8 (List.length transcript).
Proof.
  intros host w transcript. split; [|apply slice_last_length].
  rewrite conversationOf_run. unfold conversationText.
  now rewrite slice_last_map, linesOf_chat.
Qed.

(** *** The board simulator *)

(** One run of [loadScenario] never reaches its [catch]: "Sim failed" is
    not logged, since [startBoardSimulation] does not throw.  It does what
    [startBoardSimulation] does, stores what it returned and ends the
    loading. *)
Theorem loadScenario_never_fails :
  forall (host : Platform) (w : World) (analysis : AnalysisResult)
         (s : BoardState),
    exists sim : JsValue,
      result (startBoardSimulation analysis) w = Return sim
      /\ loadScenario analysis s w
         = (Return {| scenario := sim; isLoading := false;
                      selectedChoice := selectedChoice s;
                      selectedAt := None;
                      showConsequence := showConsequence s |},
            trace (startBoardSimulation analysis) w).
Proof.
  intros host w analysis s.
  destruct (board_returns w analysis) as (sim & Hsim).
  exists sim. split; [unfold result; now rewrite Hsim|].
  unfold loadScenario, bind, try_catch, ret. rewrite Hsim.
  cbn. now rewrite !app_nil_r.
Qed.

(** When the service is of no use the board shows the error scenario,
    which has no choice: no button can be clicked, so the consequence is
    never shown and the restart button never offered. *)
Theorem failed_simulation_is_a_dead_end :
  forall (host : Platform) (w : World) (analysis : AnalysisResult),
    (forall key req, unusable (service w key req)) ->
    exists loaded : BoardState,
      result (loadScenario analysis initialState) w = Return loaded
      /\ scenario loaded = errorScenario
      /\ render loaded
         = Return (Board (JStr (lit "Now")) (JStr (lit "Simulation Error"))
                         (JStr (lit "Could not generate scenario."))
                         [] false)
      /\ restartOffered loaded = false
      /\ forall k, click k loaded = None.
Proof.
  intros host w analysis Hbad.
  destruct (loadScenario_never_fails host w analysis initialState)
    as (sim & Hsim & Hload).
  assert (Hfallback : sim = errorScenario).
  { unfold result in Hsim. rewrite startBoardSimulation_run in Hsim.
    rewrite (simulation_falls_back _ _ _ _ _ Hbad) in Hsim. congruence. }
  subst sim. eexists. split; [unfold result; rewrite Hload; reflexivity|].
  split; [reflexivity|]. split; [reflexivity|]. split; [reflexivity|].
  intros k. unfold click. cbn. now destruct k.
Qed.

Lemma failed_simulation_witness :
  (forall key req,
      unusable (host := Reference.browser)
               (service (always (Some someKey) (Response (Some proseText)))
                        key req))
  /\ exists loaded : BoardState,
       result (loadScenario (host := Reference.browser) acme initialState)
              (always (Some someKey) (Response (Some proseText)))
       = Return loaded
       /\ scenario loaded = errorScenario
       /\ render (host := Reference.browser) loaded
          = Return (Board (JStr (lit "Now")) (JStr (lit "Simulation Error"))
                          (JStr (lit "Could not generate scenario."))
                          [] false)
       /\ restartOffered (host := Reference.browser) loaded = false
       /\ forall k, click (host := Reference.browser) k loaded = None.
Proof.
  assert (Hbad : forall key req,
             unusable (host := Reference.browser)
               (service (always (Some someKey) (Response (Some proseText)))
                        key req))
    by (intros key req; reflexivity).
  split; [exact Hbad|].
  exact (failed_simulation_is_a_dead_end
           Reference.browser
           (always (Some someKey) (Response (Some proseText))) acme Hbad).
Defined.

(** A click takes effect only on a board whose selected choice is [null].
    It stores the id of the clicked choice, marks its button, shows its
    consequence and brings up the restart button.  When that id is not
    [null], every button is disabled and no later click takes effect.
    When it is [null], as in a response whose choice carries
    ["id": null], the buttons stay enabled and a click on any of them
    takes effect again. *)
Theorem one_choice_then_restart :
  forall (host : Platform) (s s' : BoardState) (k : nat),
    click k s = Some s' ->
    selectedChoice s = JNull
    /\ exists (choices : list JsValue) (choice id consequence : JsValue)
              (timeJump title description : JsValue)
              (shown : list ChoiceButton),
         getProp (scenario s) (lit "choices") = Return (JArr choices)
         /\ nth_error choices k = Some choice
         /\ getProp choice (lit "id") = Return id
         /\ getProp choice (lit "consequence") = Return consequence
         /\ s' = {| scenario := scenario s; isLoading := false;
                    selectedChoice := id; selectedAt := Some k;
                    showConsequence := true |}
         /\ render s' = Return (Board timeJump title description shown true)
         /\ List.length shown = List.length choices
         /\ (exists b, nth_error shown k = Some b
                       /\ button_selected b = true
                       /\ button_consequence b = Some consequence)
         /\ restartOffered s' = true
         /\ (id <> JNull ->
             Forall (fun b => button_disabled b = true) shown
             /\ forall j, click j s' = None)
         /\ (id = JNull ->
             Forall (fun b => button_disabled b = false) shown
             /\ forall j, j < List.length choices ->
                          exists s'', click j s' = Some s'').
Proof.
  intros host s s' k Hclick.
  destruct (click_inv _ _ _ Hclick)
    as (Hsel & tj & t & d & bs & r & b & Hrender & Hb & ->).
  split; [exact Hsel|].
  destruct (render_board _ _ _ _ _ _ Hrender)
    as (Hload & Htrue & Htj & Ht & Hd & _ & choices & Hchoices & Hbs).
  destruct (buttons_nth _ _ _ _ Hbs) as (Hlen & Hnth).
  assert (Hk : exists choice, nth_error choices k = Some choice).
  { destruct (nth_error choices k) as [c|] eqn:E; [eauto|].
    apply nth_error_None in E.
    assert (k < List.length bs) by (apply nth_error_Some; congruence). lia. }
  destruct Hk as (choice & Hchoice).
  destruct (Hnth _ _ Hchoice) as (b0 & Hb0 & Hmade).
  assert (b0 = b) by congruence. subst b0.
  destruct (button_inv _ _ _ _ Hmade)
    as (id & label & consequence & Hid & _ & Hcons & Hbid & _).
  rewrite Hbid. clear Hbid.
  set (s' := handleChoice id k s).
  destruct (buttons_total s s' choices 0 0 _ Hbs) as (shown & Hshown).
  assert (Hrender' : render s'
                     = Return (Board tj t d shown true)).
  { unfold render. subst s'.
    cbn [handleChoice setShowConsequence setSelectedChoice
         isLoading scenario showConsequence].
    rewrite Hload, Htrue, Htj, Ht, Hd, Hchoices. cbn [negb andThen].
    fold (handleChoice id k s). now rewrite Hshown. }
  destruct (buttons_nth _ _ _ _ Hshown) as (Hlen' & Hnth').
  pose proof (buttons_disabled _ _ _ _ Hshown) as Hdisabled.
  exists choices, choice, id, consequence, tj, t, d, shown.
  split; [exact Hchoices|]. split; [exact Hchoice|]. split; [exact Hid|].
  split; [exact Hcons|].
  split. { subst s'. unfold handleChoice, setShowConsequence,
             setSelectedChoice. cbn. now rewrite Hload. }
  split; [exact Hrender'|]. split; [exact Hlen'|].
  split.
  { destruct (Hnth' _ _ Hchoice) as (b' & Hb' & Hmade').
    destruct (button_inv _ _ _ _ Hmade')
      as (id' & _ & consequence' & Hid' & _ & Hcons' & _ & _ & _
          & Hselected & Hshows).
    assert (id' = id) by congruence.
    assert (consequence' = consequence) by congruence. subst id' consequence'.
    assert (Hsel' : button_selected b' = true).
    { rewrite Hselected. subst s'. cbn. rewrite Nat.eqb_refl.
      apply strictEq_refl. }
    exists b'. split; [exact Hb'|]. split; [exact Hsel'|].
    rewrite Hshows, Hsel'. reflexivity. }
  split; [unfold restartOffered; now rewrite Hrender'|].
  split.
  - intros Hid'. split.
    + eapply Forall_impl; [|exact Hdisabled].
      intros x ->. subst s'. cbn. destruct id; try reflexivity. congruence.
    + intros j. apply chosen_is_final. exact Hid'.
  - intros ->. split.
    + eapply Forall_impl; [|exact Hdisabled]. intros x ->. reflexivity.
    + intros j Hj. unfold click. rewrite Hrender'.
      destruct (nth_error shown j) as [x|] eqn:Hx.
      * rewrite Forall_forall in Hdisabled.
        rewrite (Hdisabled x (nth_error_In _ _ Hx)). cbn. eauto.
      * apply nth_error_None in Hx. lia.
Qed.

(** The crisis of the examples, loaded from the text of a response:
    choosing B ends the choosing.  Clicking the second choice of a
    response whose ids are [null] does not. *)
Lemma one_choice_witness :
  result (loadScenario (host := Reference.browser) acme initialState)
         (always (Some someKey) (Response (Some crisisText)))
    = Return crisisBoard
  /\ click (host := Reference.browser) 1 crisisBoard = Some crisisDecided
  /\ selectedChoice crisisBoard = JNull
  /\ restartOffered (host := Reference.browser) crisisDecided = true
  /\ (forall j, click (host := Reference.browser) j crisisDecided = None)
  /\ click (host := Reference.browser) 1 namelessBoard = Some namelessClicked
  /\ restartOffered (host := Reference.browser) namelessClicked = true
  /\ exists s'', click (host := Reference.browser) 0 namelessClicked
                 = Some s''.
Proof.
  assert (Hclick : click (host := Reference.browser) 1 crisisBoard
                   = Some crisisDecided)
    by reflexivity.
  assert (Hagain : click (host := Reference.browser) 1 namelessBoard
                   = Some namelessClicked)
    by reflexivity.
  split; [vm_compute; reflexivity|]. split; [exact Hclick|].
  destruct (one_choice_then_restart Reference.browser crisisBoard
                                    crisisDecided 1 Hclick)
    as (Hnone & choices & choice & id & consequence & tj & t & d & shown
        & Hchoices & Hchoice & Hid & _ & _ & _ & _ & _ & Hrestart
        & Hfinal & _).
  injection Hchoices as <-. injection Hchoice as <-. injection Hid as <-.
  split; [exact Hnone|]. split; [exact Hrestart|].
  split; [apply Hfinal; discriminate|].
  split; [exact Hagain|].
  destruct (one_choice_then_restart Reference.browser namelessBoard
                                    namelessClicked 1 Hagain)
    as (_ & choices' & choice' & id' & consequence' & tj' & t' & d' & shown'
        & Hchoices' & Hchoice' & Hid' & _ & _ & _ & _ & _ & Hrestart'
        & _ & Hopen).
  injection Hchoices' as <-. injection Hchoice' as <-. injection Hid' as <-.
  split; [exact Hrestart'|].
  apply (proj2 (Hopen eq_refl) 0). cbn. lia.
Defined.

(** *** The committee room *)

(** [startDebate] never reaches its [catch]: "Debate failed" is not
    logged, since [startCommitteeDebate] does not throw.  It does what
    [startCommitteeDebate] does and sets the interval over what it
    returned, with the room marked as debating. *)
Theorem startDebate_never_fails :
  forall (host : Platform) (w : World) (analysis : AnalysisResult)
         (s : RoomState),
    exists debateMessages : JsValue,
      result (startCommitteeDebate analysis) w = Return debateMessages
      /\ startDebate analysis s w
         = (Return ({| messages := messages s; isDebating := true;
                       hasVoted := hasVoted s; i := 0; ticking := true |},
                    Some debateMessages),
            trace (startCommitteeDebate analysis) w).
Proof.
  intros host w analysis s.
  destruct (committee_returns w analysis) as (sim & Hsim).
  exists sim. split; [unfold result; now rewrite Hsim|].
  unfold startDebate, bind, try_catch, ret. rewrite Hsim.
  cbn. now rewrite !app_nil_r.
Qed.

(** Over an array of [n] messages the interval adds one entry to the room
    at each of its first [n] firings, with the room debating and the vote
    closed; the next firing opens the vote, ends the debate and clears the
    interval, and nothing changes afterwards.  This holds whichever entry
    each updater reads. *)
Theorem debate_ends_after_its_messages :
  forall (readAt : nat -> nat) (debateMessages : list JsValue)
         (s : RoomState) (k : nat),
    ticking s = true -> i s = 0 ->
    (k <= List.length debateMessages ->
     List.length (messages (ticks readAt k debateMessages s))
       = List.length (messages s) + k
     /\ isDebating (ticks readAt k debateMessages s) = isDebating s
     /\ hasVoted (ticks readAt k debateMessages s) = hasVoted s
     /\ ticking (ticks readAt k debateMessages s) = true)
    /\ (List.length debateMessages < k ->
        List.length (messages (ticks readAt k debateMessages s))
          = List.length (messages s) + List.length debateMessages
        /\ isDebating (ticks readAt k debateMessages s) = false
        /\ hasVoted (ticks readAt k debateMessages s) = true
        /\ ticking (ticks readAt k debateMessages s) = false).
Proof.
  intros readAt l s k Hticking Hi. split.
  - intros Hk.
    destruct (ticks_while_debating readAt l k s Hticking) as (Hm & Hd & Hv & Ht & _);
      [lia|]. auto.
  - intros Hk.
    replace k with (List.length l + (1 + (k - List.length l - 1))) by lia.
    rewrite ticks_add.
    destruct (ticks_while_debating readAt l (List.length l) s Hticking)
      as (Hm & Hd & Hv & Ht & Hidx); [lia|].
    set (s1 := ticks readAt (List.length l) l s) in *.
    rewrite ticks_add. cbn [ticks Nat.add].
    assert (Hend : tick readAt l s1
                   = {| messages := messages s1; isDebating := false;
                        hasVoted := true; i := i s1; ticking := false |}).
    { unfold tick. rewrite Ht. cbn [negb].
      destruct (Nat.leb (List.length l) (i s1)) eqn:E; [reflexivity|].
      apply Nat.leb_gt in E. lia. }
    rewrite Hend, ticks_stopped by reflexivity.
    cbn. repeat split. exact Hm.
Qed.

(** Three messages: debating after three firings, voting after four, in
    both ways React may run the updaters. *)
Lemma debate_witness :
  ticking roomAtStart = true /\ i roomAtStart = 0
  /\ isDebating (ticks atOnce 3 debate roomAtStart) = true
  /\ hasVoted (ticks atOnce 3 debate roomAtStart) = false
  /\ List.length (messages (ticks atNextRender 3 debate roomAtStart)) = 3
  /\ hasVoted (ticks atNextRender 4 debate roomAtStart) = true
  /\ isDebating (ticks atNextRender 4 debate roomAtStart) = false
  /\ ticking (ticks atOnce 9 debate roomAtStart) = false.
Proof.
  assert (Hticking : ticking roomAtStart = true) by reflexivity.
  assert (Hi : i roomAtStart = 0) by reflexivity.
  split; [exact Hticking|]. split; [exact Hi|].
  destruct (proj1 (debate_ends_after_its_messages atOnce debate roomAtStart 3
                     Hticking Hi)) as (_ & Hd & Hv & _); [cbn; lia|].
  destruct (proj1 (debate_ends_after_its_messages atNextRender debate
                     roomAtStart 3 Hticking Hi)) as (Hm & _); [cbn; lia|].
  destruct (proj2 (debate_ends_after_its_messages atNextRender debate
                     roomAtStart 4 Hticking Hi)) as (_ & Hd4 & Hv4 & _);
    [cbn; lia|].
  destruct (proj2 (debate_ends_after_its_messages atOnce debate roomAtStart 9
                     Hticking Hi)) as (_ & _ & _ & Ht9); [cbn; lia|].
  split; [exact Hd|]. split; [exact Hv|]. split; [exact Hm|].
  split; [exact Hv4|]. split; [exact Hd4 | exact Ht9].
Defined.

(** When the service is of no use the debate is the empty list: the first
    firing of the interval opens the vote on a room without a message. *)
Theorem failed_debate_opens_the_vote_at_once :
  forall (host : Platform) (readAt : nat -> nat) (w : World)
         (analysis : AnalysisResult),
    (forall key req, unusable (service w key req)) ->
    exists started : RoomState,
      result (startDebate analysis initialRoom) w
        = Return (started, Some (JArr []))
      /\ isDebating started = true
      /\ tick readAt [] started
         = {| messages := []; isDebating := false; hasVoted := true;
              i := 0; ticking := false |}.
Proof.
  intros host readAt w analysis Hbad.
  destruct (startDebate_never_fails host w analysis initialRoom)
    as (sim & Hsim & Hstart).
  assert (Hfallback : sim = JArr []).
  { unfold result in Hsim. rewrite startCommitteeDebate_run in Hsim.
    rewrite (simulation_falls_back _ _ _ _ _ Hbad) in Hsim. congruence. }
  subst sim. eexists. split; [unfold result; rewrite Hstart; reflexivity|].
  split; reflexivity.
Qed.

Lemma failed_debate_witness :
  (forall key req,
      unusable (host := Reference.browser)
               (service (always None keyRefused) key req))
  /\ exists started : RoomState,
       result (startDebate (host := Reference.browser) acme initialRoom)
              (always None keyRefused)
       = Return (started, Some (JArr []))
       /\ isDebating started = true
       /\ tick atOnce [] started
          = {| messages := []; isDebating := false; hasVoted := true;
               i := 0; ticking := false |}.
Proof.
  assert (Hbad : forall key req,
             unusable (host := Reference.browser)
                      (service (always None keyRefused) key req))
    by (intros key req; exact I).
  split; [exact Hbad|].
  exact (failed_debate_opens_the_vote_at_once
           Reference.browser atOnce (always None keyRefused) acme Hbad).
Defined.
